(** * Stock ledger of pharm-lite-dash

    A shallow embedding of the inventory ledger of the pharmacy dashboard:
    the tables, constraints, row-level-security policies and triggers of
    [supabase/migrations/20251113061505_*.sql], and the handlers of the
    pages [Vendas], [Compras] and [Produtos] that issue statements against
    them.

    Conventions.
    - [UUID] values are the strings the client sees.
    - [INTEGER] columns are [Z] restricted to the 32-bit range; an operation
      that leaves the range raises [numeric_value_out_of_range], as in
      PostgreSQL (no wrap-around).
    - [DECIMAL(10,2)] columns are [Z] counted in hundredths (centavos), at
      most ten digits; products of an integer and such an amount are exact.
    - [DATE] columns are day numbers, instants are milliseconds since the
      epoch (what [Date.getTime()] returns).
    - Server-generated columns that no rule reads ([id] of [compras] and
      [vendas], [created_at], [updated_at], [data_compra], [data_venda]) are
      left out; the rows of [compras] and [vendas] are kept in insertion
      order. *)

From stdpp Require Import gmap strings list fin_maps.
From Stdlib Require Import ZArith Lia Sorted.

Local Open Scope Z_scope.

Abbreviation uuid := string (only parsing).

(** ** Column types *)

(** [INTEGER]: 32-bit signed. *)
Definition int4_ok (x : Z) : bool :=
  (-2147483648 <=? x) && (x <=? 2147483647).

(** [DECIMAL(10,2)], in hundredths: at most 99999999.99 in absolute value. *)
Definition decimal_10_2_ok (x : Z) : bool :=
  (-9999999999 <=? x) && (x <=? 9999999999).

(** ** Tables *)

(** [profiles.role]: [CHECK (role IN ('admin', 'vendedor'))]. *)
Inductive Role := admin | vendedor.

Global Instance Role_eq_dec : EqDecision Role.
Proof. solve_decision. Defined.

Module Produto.
(** A row of [public.produtos], keyed by [id] in the table. *)
Record Row := mk {
  nome : string;
  codigo : string;
  categoria_id : option uuid;
  preco_compra : Z;
  preco_venda : Z;
  quantidade : Z;
  quantidade_minima : option Z;
  validade : Z;
  descricao : option string
}.

(** [SET quantidade = q]: every other column is kept. *)
Definition set_quantidade (q : Z) (p : Row) : Row :=
  mk (nome p) (codigo p) (categoria_id p) (preco_compra p) (preco_venda p)
     q (quantidade_minima p) (validade p) (descricao p).
End Produto.

Module Compra.
(** The columns the purchases page supplies when inserting into
    [public.compras]; the others take their defaults. *)
Record Insert := mk {
  fornecedor_id : option uuid;
  produto_id : option uuid;
  quantidade : Z;
  preco_unitario : Z;
  user_id : uuid;
  observacoes : option string
}.

(** A stored row: the supplied columns and the generated [total]. *)
Record Row := mkRow {
  dados : Insert;
  total : Z
}.
End Compra.

Module Venda.
(** The columns the sales page supplies when inserting into
    [public.vendas]; the others take their defaults. *)
Record Insert := mk {
  produto_id : option uuid;
  quantidade : Z;
  preco_unitario : Z;
  user_id : uuid;
  observacoes : option string
}.

(** A stored row: the supplied columns, the generated [total] and the
    [lucro] the trigger assigns ([NULL] when it found no product). *)
Record Row := mkRow {
  dados : Insert;
  total : Z;
  lucro : option Z
}.
End Venda.

(** The database: one field per table. [profiles] keeps the role of each
    user id, [categorias] and [fornecedores] the ids that exist. *)
Record Db := mkDb {
  profiles : gmap string Role;
  categorias : gset string;
  fornecedores : gset string;
  produtos : gmap string Produto.Row;
  compras : list Compra.Row;
  vendas : list Venda.Row
}.

Definition set_produtos (ps : gmap string Produto.Row) (db : Db) : Db :=
  mkDb (profiles db) (categorias db) (fornecedores db) ps (compras db) (vendas db).

Definition set_compras (cs : list Compra.Row) (db : Db) : Db :=
  mkDb (profiles db) (categorias db) (fornecedores db) (produtos db) cs (vendas db).

Definition set_vendas (vs : list Venda.Row) (db : Db) : Db :=
  mkDb (profiles db) (categorias db) (fornecedores db) (produtos db) (compras db) vs.

(** ** Errors and transactions *)

(** The PostgreSQL error conditions the schema can raise. *)
Inductive PgError :=
  | numeric_value_out_of_range              (* 22003 *)
  | check_violation (constraint : string)   (* 23514 *)
  | foreign_key_violation (constraint : string) (* 23503 *)
  | unique_violation (constraint : string)  (* 23505 *)
  | insufficient_privilege (table : string) (* 42501, row-level security *).

Global Instance PgError_eq_dec : EqDecision PgError.
Proof. solve_decision. Defined.

(** A statement body runs inside a transaction: it threads the database and
    stops at the first error. *)
Definition Tx (A : Type) : Type := Db -> PgError + (A * Db).

Definition tx_ret {A} (a : A) : Tx A := fun db => inr (a, db).

Definition tx_bind {A B} (t : Tx A) (k : A -> Tx B) : Tx B :=
  fun db => match t db with
            | inl e => inl e
            | inr (a, db') => k a db'
            end.

Definition raise {A} (e : PgError) : Tx A := fun _ => inl e.

Definition tx_get : Tx Db := fun db => inr (db, db).

Definition tx_modify (f : Db -> Db) : Tx unit := fun db => inr (tt, f db).

Global Instance tx_mret : MRet Tx := @tx_ret.
Global Instance tx_mbind : MBind Tx := fun A B k t => tx_bind t k.

(** [exigir b e]: go on when [b] holds, raise [e] otherwise. *)
Definition exigir (b : bool) (e : PgError) : Tx unit :=
  if b then tx_ret tt else raise e.

(** Each request of the client is one transaction: when the body fails the
    database is rolled back to what it was. *)
Definition executar {A} (t : Tx A) (db : Db) : (PgError + A) * Db :=
  match t db with
  | inl e => (inl e, db)
  | inr (a, db') => (inr a, db')
  end.

(** ** Triggers *)

(** The statement both stock triggers run,
    [UPDATE public.produtos SET quantidade = f(quantidade) WHERE id = pid].
    With [pid] null or unknown no row matches and nothing happens. The new
    value must be an [INTEGER] and satisfy [CHECK (quantidade >= 0)]. (The
    trigger functions are [SECURITY DEFINER], so the policies of [produtos]
    do not apply to this statement.) *)
Definition update_produtos_quantidade (f : Z -> Z) (pid : option uuid) : Tx unit :=
  db ← tx_get;
  match pid with
  | None => mret tt
  | Some i =>
      match produtos db !! i with
      | None => mret tt
      | Some p =>
          let q := f (Produto.quantidade p) in
          exigir (int4_ok q) numeric_value_out_of_range;;
          exigir (0 <=? q) (check_violation "produtos_quantidade_check");;
          tx_modify (set_produtos (<[i := Produto.set_quantidade q p]> (produtos db)))
      end
  end.

(** [atualizar_estoque_compra], fired [AFTER INSERT ON compras]. *)
Definition atualizar_estoque_compra (NEW : Compra.Row) : Tx unit :=
  update_produtos_quantidade
    (fun quantidade => quantidade + Compra.quantidade (Compra.dados NEW))
    (Compra.produto_id (Compra.dados NEW)).

(** [atualizar_estoque_venda], fired [BEFORE INSERT ON vendas]: returns the
    [lucro] it assigns to [NEW]. [SELECT ... INTO] leaves the variable null
    when no product matches, and then so is the profit. The assignment
    casts to [DECIMAL(10,2)]. *)
Definition atualizar_estoque_venda (NEW : Venda.Insert) : Tx (option Z) :=
  db ← tx_get;
  let preco_compra_produto :=
    Produto.preco_compra <$> (Venda.produto_id NEW ≫= (fun i => produtos db !! i)) in
  let lucro :=
    (fun c => (Venda.preco_unitario NEW - c) * Venda.quantidade NEW)
      <$> preco_compra_produto in
  exigir (from_option decimal_10_2_ok true lucro) numeric_value_out_of_range;;
  update_produtos_quantidade
    (fun quantidade => quantidade - Venda.quantidade NEW)
    (Venda.produto_id NEW);;
  mret lucro.

(** ** Statements on the event tables *)

(** A foreign key on a nullable column: a null reference is accepted, any
    other must name an existing row. *)
Definition fk_ok (ref : option uuid) (ids : gset string) : bool :=
  match ref with
  | None => true
  | Some i => bool_decide (i ∈ ids)
  end.

(** [INSERT INTO public.compras] by a client whose [auth.uid()] is [uid].
    In the order PostgreSQL works: the values are cast to the column types;
    the generated [total] is computed; the policy
    [WITH CHECK (auth.uid() = user_id)] is checked; then the [CHECK]
    constraints, by name; the row is stored; and the [AFTER] triggers fire
    by name, the foreign keys ([RI_ConstraintTrigger_...]) before
    [trigger_atualizar_estoque_compra]. *)
Definition insert_compras (uid : option uuid) (d : Compra.Insert) : Tx Compra.Row :=
  exigir (int4_ok (Compra.quantidade d) && decimal_10_2_ok (Compra.preco_unitario d))
    numeric_value_out_of_range;;
  let total := Compra.quantidade d * Compra.preco_unitario d in
  exigir (decimal_10_2_ok total) numeric_value_out_of_range;;
  let NEW := Compra.mkRow d total in
  exigir (bool_decide (uid = Some (Compra.user_id d))) (insufficient_privilege "compras");;
  exigir (0 <=? Compra.preco_unitario d) (check_violation "compras_preco_unitario_check");;
  exigir (0 <? Compra.quantidade d) (check_violation "compras_quantidade_check");;
  tx_modify (fun db => set_compras (compras db ++ [NEW]) db);;
  db ← tx_get;
  exigir (fk_ok (Compra.fornecedor_id d) (fornecedores db))
    (foreign_key_violation "compras_fornecedor_id_fkey");;
  exigir (fk_ok (Compra.produto_id d) (dom (produtos db)))
    (foreign_key_violation "compras_produto_id_fkey");;
  exigir (fk_ok (Some (Compra.user_id d)) (dom (profiles db)))
    (foreign_key_violation "compras_user_id_fkey");;
  atualizar_estoque_compra NEW;;
  mret NEW.

(** [INSERT INTO public.vendas] by a client whose [auth.uid()] is [uid]:
    as for [compras], except that the stock trigger is a [BEFORE] trigger,
    so it runs first, on the values as supplied, and the row that is stored
    carries the [lucro] it assigned. *)
Definition insert_vendas (uid : option uuid) (d : Venda.Insert) : Tx Venda.Row :=
  exigir (int4_ok (Venda.quantidade d) && decimal_10_2_ok (Venda.preco_unitario d))
    numeric_value_out_of_range;;
  lucro ← atualizar_estoque_venda d;
  let total := Venda.quantidade d * Venda.preco_unitario d in
  exigir (decimal_10_2_ok total) numeric_value_out_of_range;;
  let NEW := Venda.mkRow d total lucro in
  exigir (bool_decide (uid = Some (Venda.user_id d))) (insufficient_privilege "vendas");;
  exigir (0 <=? Venda.preco_unitario d) (check_violation "vendas_preco_unitario_check");;
  exigir (0 <? Venda.quantidade d) (check_violation "vendas_quantidade_check");;
  tx_modify (fun db => set_vendas (vendas db ++ [NEW]) db);;
  db ← tx_get;
  exigir (fk_ok (Venda.produto_id d) (dom (produtos db)))
    (foreign_key_violation "vendas_produto_id_fkey");;
  exigir (fk_ok (Some (Venda.user_id d)) (dom (profiles db)))
    (foreign_key_violation "vendas_user_id_fkey");;
  mret NEW.

(** Row-level security is enabled on [compras] and [vendas] and their only
    policies are [FOR SELECT] and [FOR INSERT]: with no policy for the
    command, no row qualifies for an [UPDATE] or a [DELETE] of a client. *)
Definition rls_compras_update (uid : option uuid) (r : Compra.Row) : bool := false.
Definition rls_compras_delete (uid : option uuid) (r : Compra.Row) : bool := false.
Definition rls_vendas_update (uid : option uuid) (r : Venda.Row) : bool := false.
Definition rls_vendas_delete (uid : option uuid) (r : Venda.Row) : bool := false.

(** [UPDATE public.compras SET ... WHERE onde]: the rows that pass the
    policy and the [WHERE] clause are rewritten by [set]. *)
Definition update_compras (uid : option uuid)
    (onde : Compra.Row -> bool) (set : Compra.Row -> Compra.Row) : Tx unit :=
  tx_modify (fun db =>
    set_compras
      (map (fun r => if rls_compras_update uid r && onde r then set r else r) (compras db))
      db).

(** [DELETE FROM public.compras WHERE onde]. *)
Definition delete_compras (uid : option uuid) (onde : Compra.Row -> bool) : Tx unit :=
  tx_modify (fun db =>
    set_compras
      (filter (fun r => negb (rls_compras_delete uid r && onde r) = true) (compras db))
      db).

(** [UPDATE public.vendas SET ... WHERE onde]. *)
Definition update_vendas (uid : option uuid)
    (onde : Venda.Row -> bool) (set : Venda.Row -> Venda.Row) : Tx unit :=
  tx_modify (fun db =>
    set_vendas
      (map (fun r => if rls_vendas_update uid r && onde r then set r else r) (vendas db))
      db).

(** [DELETE FROM public.vendas WHERE onde]. *)
Definition delete_vendas (uid : option uuid) (onde : Venda.Row -> bool) : Tx unit :=
  tx_modify (fun db =>
    set_vendas
      (filter (fun r => negb (rls_vendas_delete uid r && onde r) = true) (vendas db))
      db).

(** ** Statements on [produtos] *)

(** The condition of the policy "Admins podem gerenciar produtos":
    [EXISTS (SELECT 1 FROM profiles WHERE id = auth.uid() AND role = 'admin')]. *)
Definition is_admin (uid : option uuid) (db : Db) : bool :=
  match uid with
  | None => false
  | Some u => bool_decide (profiles db !! u = Some admin)
  end.

(** The column types of a row of [produtos]. *)
Definition produto_tipos_ok (d : Produto.Row) : bool :=
  decimal_10_2_ok (Produto.preco_compra d) && decimal_10_2_ok (Produto.preco_venda d)
  && int4_ok (Produto.quantidade d)
  && from_option int4_ok true (Produto.quantidade_minima d).

(** The [CHECK] constraints of [produtos], by name. *)
Definition produtos_checks (d : Produto.Row) : Tx unit :=
  exigir (0 <=? Produto.preco_compra d) (check_violation "produtos_preco_compra_check");;
  exigir (0 <=? Produto.preco_venda d) (check_violation "produtos_preco_venda_check");;
  exigir (0 <=? Produto.quantidade d) (check_violation "produtos_quantidade_check").

(** [codigo TEXT UNIQUE]: no row other than [id] carries the code. *)
Definition codigo_livre (id : uuid) (codigo : string) (ps : gmap string Produto.Row) : bool :=
  bool_decide (map_Forall (fun i p => i = id \/ Produto.codigo p <> codigo) ps).

(** [INSERT INTO public.produtos]; [id] is the key [gen_random_uuid()]
    drew. The policy is [FOR ALL], so its condition is also the
    [WITH CHECK] of an insert. *)
Definition insert_produtos (uid : option uuid) (id : uuid) (d : Produto.Row) : Tx unit :=
  exigir (produto_tipos_ok d) numeric_value_out_of_range;;
  db ← tx_get;
  exigir (is_admin uid db) (insufficient_privilege "produtos");;
  produtos_checks d;;
  exigir (bool_decide (produtos db !! id = None)) (unique_violation "produtos_pkey");;
  exigir (codigo_livre id (Produto.codigo d) (produtos db)) (unique_violation "produtos_codigo_key");;
  tx_modify (set_produtos (<[id := d]> (produtos db)));;
  exigir (fk_ok (Produto.categoria_id d) (categorias db))
    (foreign_key_violation "produtos_categoria_id_fkey").

(** [UPDATE public.produtos SET (all nine columns) = d WHERE id = id], the
    statement [supabase.from('produtos').update(data).eq('id', id)] sends.
    For a client who is not an admin the policy hides every row and the
    statement changes nothing, without an error. *)
Definition update_produtos (uid : option uuid) (id : uuid) (d : Produto.Row) : Tx unit :=
  exigir (produto_tipos_ok d) numeric_value_out_of_range;;
  db ← tx_get;
  if is_admin uid db then
    match produtos db !! id with
    | None => mret tt
    | Some _ =>
        produtos_checks d;;
        exigir (codigo_livre id (Produto.codigo d) (produtos db))
          (unique_violation "produtos_codigo_key");;
        tx_modify (set_produtos (<[id := d]> (produtos db)));;
        exigir (fk_ok (Produto.categoria_id d) (categorias db))
          (foreign_key_violation "produtos_categoria_id_fkey")
    end
  else mret tt.

(** [DELETE FROM public.produtos WHERE id = id]. Both event tables declare
    [produto_id UUID REFERENCES public.produtos(id) ON DELETE CASCADE]: the
    purchases and sales of the product go with it. (The cascade runs with
    the rights of the table owner, not under the policies of the client.) *)
Definition delete_produtos (uid : option uuid) (id : uuid) : Tx unit :=
  db ← tx_get;
  if is_admin uid db then
    match produtos db !! id with
    | None => mret tt
    | Some _ =>
        tx_modify (set_produtos (delete id (produtos db)));;
        tx_modify (fun db =>
          set_compras
            (filter (fun r => Compra.produto_id (Compra.dados r) <> Some id) (compras db)) db);;
        tx_modify (fun db =>
          set_vendas
            (filter (fun r => Venda.produto_id (Venda.dados r) <> Some id) (vendas db)) db)
    end
  else mret tt.

(** ** The pages

    Each handler is modelled from the [data] object it builds:
    [parseInt] and [parseFloat] give a number or [NaN] ([None] here), and
    an amount typed with two decimals is its count of hundredths. A
    [Select] holds either an id it was offered or the empty string ([None]
    here), which [z.string().uuid()] rejects. A handler returns the toast
    it shows and the database it leaves. *)

Inductive Toast :=
  | toast_success (msg : string)
  | toast_error (msg : string)
  | toast_error_zod                        (* error.errors[0].message *)
  | toast_error_pg (msg : string) (e : PgError). (* msg + error.message *)

(** [z.number().min(n)], and [z.number().int().min(n)] on what [parseInt]
    returned: [NaN] is not a number. *)
Definition z_number_min (n : Z) (x : option Z) : bool :=
  match x with
  | Some v => n <=? v
  | None => false
  end.

Module Vendas.
Record Data := mk {
  produto_id : option uuid;
  quantidade : option Z;
  preco_unitario : option Z;
  observacoes : option string
}.

Definition vendaSchema (data : Data) : bool :=
  bool_decide (is_Some (produto_id data))
  && z_number_min 1 (quantidade data)
  && z_number_min 0 (preco_unitario data).

(** [loadProdutos]: [select('*').gt('quantidade', 0)], the rows the page
    keeps in its state, by id. The policy of [produtos] shows its rows to
    whoever is authenticated ([auth.uid() IS NOT NULL]). *)
Definition loadProdutos (uid : option uuid) (db : Db) : gmap string Produto.Row :=
  if bool_decide (is_Some uid)
  then filter (fun ip => 0 < Produto.quantidade ip.2) (produtos db)
  else ∅.

(** [handleSubmit], for the logged-in profile [profile_id]; [produtos] is
    the list the page loaded earlier. *)
Definition handleSubmit (uid : option uuid) (profile_id : uuid)
    (produtos : gmap string Produto.Row) (data : Data) (db : Db) : Toast * Db :=
  match produto_id data, quantidade data, preco_unitario data with
  | Some pid, Some q, Some preco =>
      if negb (vendaSchema data) then (toast_error_zod, db)
      else
        match produtos !! pid with
        | None => (toast_error "Estoque insuficiente para esta venda", db)
        | Some produto =>
            if Produto.quantidade produto <? q
            then (toast_error "Estoque insuficiente para esta venda", db)
            else
              match executar
                      (insert_vendas uid
                         (Venda.mk (Some pid) q preco profile_id (observacoes data))) db
              with
              | (inl error, db') => (toast_error_pg "Erro ao registrar venda: " error, db')
              | (inr _, db') => (toast_success "Venda registrada com sucesso!", db')
              end
        end
  | _, _, _ => (toast_error_zod, db)
  end.
End Vendas.

Module Compras.
Record Data := mk {
  produto_id : option uuid;
  fornecedor_id : option uuid;   (* formData.fornecedor_id || null *)
  quantidade : option Z;
  preco_unitario : option Z;
  observacoes : option string
}.

(** [fornecedor_id: z.string().uuid().optional()]: [optional] admits
    [undefined] only, and the handler stores [null] for an empty
    selection, which is not a string. *)
Definition compraSchema (data : Data) : bool :=
  bool_decide (is_Some (produto_id data))
  && bool_decide (is_Some (fornecedor_id data))
  && z_number_min 1 (quantidade data)
  && z_number_min 0 (preco_unitario data).

Definition handleSubmit (uid : option uuid) (profile_id : uuid)
    (data : Data) (db : Db) : Toast * Db :=
  match produto_id data, quantidade data, preco_unitario data with
  | Some pid, Some q, Some preco =>
      if negb (compraSchema data) then (toast_error_zod, db)
      else
        match executar
                (insert_compras uid
                   (Compra.mk (fornecedor_id data) (Some pid) q preco profile_id
                      (observacoes data))) db
        with
        | (inl error, db') => (toast_error_pg "Erro ao registrar compra: " error, db')
        | (inr _, db') => (toast_success "Compra registrada! Estoque atualizado.", db')
        end
  | _, _, _ => (toast_error_zod, db)
  end.
End Compras.

Module Produtos.
Record Data := mk {
  nome : string;
  codigo : string;
  categoria_id : option uuid;
  preco_compra : option Z;
  preco_venda : option Z;
  quantidade : option Z;
  quantidade_minima : option Z;
  validade : Z;
  descricao : string
}.

(** The length [z.string().min] and [max] compare (for ASCII text, the
    number of characters). *)
Definition str_len (s : string) : Z := Z.of_nat (String.length s).

Definition produtoSchema (data : Data) : bool :=
  (2 <=? str_len (nome data)) && (str_len (nome data) <=? 200)
  && (1 <=? str_len (codigo data)) && (str_len (codigo data) <=? 50)
  && bool_decide (is_Some (categoria_id data))
  && z_number_min 0 (preco_compra data)
  && z_number_min 0 (preco_venda data)
  && z_number_min 0 (quantidade data)
  && z_number_min 0 (quantidade_minima data)
  && (str_len (descricao data) <=? 500).

(** [isAdmin = profile?.role === 'admin']. *)
Definition isAdmin (profile_role : option Role) : bool :=
  bool_decide (profile_role = Some admin).

(** [handleSubmit]: [editingProduto] is the id of the product being
    edited, if any; [novo_id] the key the database draws for a new one. *)
Definition handleSubmit (uid : option uuid) (profile_role : option Role)
    (editingProduto : option uuid) (novo_id : uuid) (data : Data) (db : Db)
    : Toast * Db :=
  if negb (isAdmin profile_role)
  then (toast_error "Apenas administradores podem gerenciar produtos", db)
  else
    match preco_compra data, preco_venda data, quantidade data, quantidade_minima data with
    | Some pc, Some pv, Some q, Some qmin =>
        if negb (produtoSchema data) then (toast_error_zod, db)
        else
          let row := Produto.mk (nome data) (codigo data) (categoria_id data)
                       pc pv q (Some qmin) (validade data) (Some (descricao data)) in
          match editingProduto with
          | Some id =>
              match executar (update_produtos uid id row) db with
              | (inl _, db') => (toast_error "Erro ao salvar produto", db')
              | (inr _, db') => (toast_success "Produto atualizado!", db')
              end
          | None =>
              match executar (insert_produtos uid novo_id row) db with
              | (inl _, db') => (toast_error "Erro ao salvar produto", db')
              | (inr _, db') => (toast_success "Produto cadastrado!", db')
              end
          end
    | _, _, _, _ => (toast_error_zod, db)
    end.

(** [handleDelete]; [confirmou] is the answer to the [confirm] dialog.
    No toast is shown when the user declines. *)
Definition handleDelete (uid : option uuid) (profile_role : option Role)
    (confirmou : bool) (id : uuid) (db : Db) : option Toast * Db :=
  if negb (isAdmin profile_role)
  then (Some (toast_error "Apenas administradores podem excluir produtos"), db)
  else if negb confirmou then (None, db)
  else
    match executar (delete_produtos uid id) db with
    | (inl _, db') => (Some (toast_error "Erro ao excluir produto"), db')
    | (inr _, db') => (Some (toast_success "Produto excluído!"), db')
    end.

Inductive Badge := Estoque_Baixo | Vencendo | Vencido.

Definition ms_por_dia : Z := 1000 * 60 * 60 * 24.

(** [Math.ceil(a / b)] for a positive [b]. *)
Definition ceil_div (a b : Z) : Z := - ((- a) / b).

(** [getStatusBadge]; [hoje] is [new Date().getTime()]. The date string
    of [validade] is read as midnight UTC of that day. In
    [quantidade <= quantidade_minima] a null minimum counts as 0. *)
Definition getStatusBadge (hoje : Z) (produto : Produto.Row) : option Badge :=
  let validade := Produto.validade produto * ms_por_dia in
  let diasParaVencer := ceil_div (validade - hoje) ms_por_dia in
  if Produto.quantidade produto <=? default 0 (Produto.quantidade_minima produto)
  then Some Estoque_Baixo
  else if (diasParaVencer <=? 30) && (0 <=? diasParaVencer) then Some Vencendo
  else if diasParaVencer <? 0 then Some Vencido
  else None.
End Produtos.

(** ** The view [produtos_com_alertas] *)

(** The column [status_alerta], for [CURRENT_DATE = hoje]. A comparison
    with a null [quantidade_minima] is not true, and the [CASE] goes on to
    its next branch. *)
Definition status_alerta (hoje : Z) (p : Produto.Row) : string :=
  if from_option (fun qmin => Produto.quantidade p <=? qmin) false (Produto.quantidade_minima p)
  then "estoque_baixo"
  else if Produto.validade p <=? hoje + 30 then "validade_proxima"
  else "ok".

(** The rows of the view: each product with its [status_alerta]. *)
Definition produtos_com_alertas (hoje : Z) (db : Db) : gmap string (Produto.Row * string) :=
  (fun p => (p, status_alerta hoje p)) <$> produtos db.

(** ** The classification the specification words

    Its four steps, in its order, over the snapshot's quantity, minimum and
    expiry date and today's date. *)
Inductive AlertState := ok | low_stock | expiring_soon | expired.

Definition Classify (quantity quantity_minimum expiry_date today : Z) : AlertState :=
  if quantity <=? quantity_minimum then low_stock
  else if expiry_date <? today then expired
  else if expiry_date <=? today + 30 then expiring_soon
  else ok.

(** How the page's badge and the view's label read as alert states. *)
Definition estado_do_badge (b : option Produtos.Badge) : AlertState :=
  match b with
  | Some Produtos.Estoque_Baixo => low_stock
  | Some Produtos.Vencendo => expiring_soon
  | Some Produtos.Vencido => expired
  | None => ok
  end.

Definition estado_do_status (s : string) : option AlertState :=
  if decide (s = "estoque_baixo") then Some low_stock
  else if decide (s = "validade_proxima") then Some expiring_soon
  else if decide (s = "ok") then Some ok
  else None.

(** ** Requests

    What a client asks of the database: one statement, run as one
    transaction under the client's [auth.uid()]. *)
Inductive Stmt :=
  | InsertCompras (d : Compra.Insert)
  | InsertVendas (d : Venda.Insert)
  | UpdateCompras (onde : Compra.Row -> bool) (set : Compra.Row -> Compra.Row)
  | DeleteCompras (onde : Compra.Row -> bool)
  | UpdateVendas (onde : Venda.Row -> bool) (set : Venda.Row -> Venda.Row)
  | DeleteVendas (onde : Venda.Row -> bool)
  | InsertProdutos (id : uuid) (d : Produto.Row)
  | UpdateProdutos (id : uuid) (d : Produto.Row)
  | DeleteProdutos (id : uuid).

Definition corpo (uid : option uuid) (s : Stmt) : Tx unit :=
  match s with
  | InsertCompras d => insert_compras uid d;; mret tt
  | InsertVendas d => insert_vendas uid d;; mret tt
  | UpdateCompras onde set => update_compras uid onde set
  | DeleteCompras onde => delete_compras uid onde
  | UpdateVendas onde set => update_vendas uid onde set
  | DeleteVendas onde => delete_vendas uid onde
  | InsertProdutos id d => insert_produtos uid id d
  | UpdateProdutos id d => update_produtos uid id d
  | DeleteProdutos id => delete_produtos uid id
  end.

(** The database after a request, committed or rolled back. *)
Definition pedido (r : option uuid * Stmt) (db : Db) : Db :=
  snd (executar (corpo r.1 r.2) db).

(** The database after a sequence of requests, oldest first. *)
Definition pedidos (rs : list (option uuid * Stmt)) (db : Db) : Db :=
  foldl (fun db r => pedido r db) db rs.

(** The requests of the ledger: recording a purchase or a sale. *)
Definition lancamento (r : option uuid * Stmt) : bool :=
  match r.2 with
  | InsertCompras _ | InsertVendas _ => true
  | _ => false
  end.

(** The requests that delete a product. *)
Definition exclusao (r : option uuid * Stmt) : bool :=
  match r.2 with
  | DeleteProdutos _ => true
  | _ => false
  end.

(** ** Sums over the event tables *)

Definition soma {A} (f : A -> Z) (l : list A) : Z :=
  foldr (fun x acc => f x + acc) 0 l.

(** [SELECT SUM(quantidade) FROM compras WHERE produto_id = p]. *)
Definition total_comprado (p : uuid) (db : Db) : Z :=
  soma (fun r => if decide (Compra.produto_id (Compra.dados r) = Some p)
                 then Compra.quantidade (Compra.dados r) else 0) (compras db).

(** [SELECT SUM(quantidade) FROM vendas WHERE produto_id = p]. *)
Definition total_vendido (p : uuid) (db : Db) : Z :=
  soma (fun r => if decide (Venda.produto_id (Venda.dados r) = Some p)
                 then Venda.quantidade (Venda.dados r) else 0) (vendas db).

(** The stock of a product, when it exists. *)
Definition estoque (p : uuid) (db : Db) : option Z :=
  Produto.quantidade <$> produtos db !! p.

(** What the column types and [CHECK] constraints of [produtos] guarantee
    of a stored row. *)
Definition produto_ok (p : Produto.Row) : Prop :=
  0 <= Produto.preco_compra p <= 9999999999 /\
  0 <= Produto.preco_venda p <= 9999999999 /\
  0 <= Produto.quantidade p <= 2147483647.

(** ** Terminals selling at the same time

    Several operators have the sales page open. What a terminal does falls
    in three steps, and the steps of different terminals interleave in any
    order: the page loads its product list; on submit it validates the form
    against that list and sends the insert; the database runs the insert.
    PostgreSQL runs each insert as one transaction, and the [UPDATE] of the
    trigger takes the lock of the product's row and reads its committed
    value, so two inserts on one product take effect one after the other:
    the insert is one step here. *)
Module Terminais.
Record Operador := mk {
  uid : option uuid;
  profile_id : uuid;
  data : Vendas.Data
}.

Inductive Estado :=
  | Montando
  | Pronto (produtos : gmap string Produto.Row)
  | Enviado (d : Venda.Insert)
  | Terminado (t : Toast).

(** One step of an operator's terminal. *)
Definition passo (o : Operador) (e : Estado) (db : Db) : Estado * Db :=
  match e with
  | Montando => (Pronto (Vendas.loadProdutos (uid o) db), db)
  | Pronto produtos =>
      match Vendas.produto_id (data o), Vendas.quantidade (data o),
            Vendas.preco_unitario (data o) with
      | Some pid, Some q, Some preco =>
          if negb (Vendas.vendaSchema (data o)) then (Terminado toast_error_zod, db)
          else
            match produtos !! pid with
            | None =>
                (Terminado (toast_error "Estoque insuficiente para esta venda"), db)
            | Some produto =>
                if Produto.quantidade produto <? q
                then (Terminado (toast_error "Estoque insuficiente para esta venda"), db)
                else (Enviado (Venda.mk (Some pid) q preco (profile_id o)
                                 (Vendas.observacoes (data o))), db)
            end
      | _, _, _ => (Terminado toast_error_zod, db)
      end
  | Enviado d =>
      match executar (insert_vendas (uid o) d) db with
      | (inl error, db') => (Terminado (toast_error_pg "Erro ao registrar venda: " error), db')
      | (inr _, db') => (Terminado (toast_success "Venda registrada com sucesso!"), db')
      end
  | Terminado t => (Terminado t, db)
  end.

(** The terminals, each with its operator, and the step of the [i]-th. *)
Fixpoint passo_em (i : nat) (ts : list (Operador * Estado)) (db : Db) {struct ts}
    : list (Operador * Estado) * Db :=
  match ts with
  | [] => ([], db)
  | (o, e) :: ts' =>
      match i with
      | O => let '(e', db') := passo o e db in ((o, e') :: ts', db')
      | S j => let '(ts'', db') := passo_em j ts' db in ((o, e) :: ts'', db')
      end
  end.

(** A schedule names, step after step, the terminal that moves. *)
Fixpoint agenda (sched : list nat) (ts : list (Operador * Estado)) (db : Db)
    : list (Operador * Estado) * Db :=
  match sched with
  | [] => (ts, db)
  | i :: sched' => let '(ts', db') := passo_em i ts db in agenda sched' ts' db'
  end.

Definition terminou (oe : Operador * Estado) : bool :=
  match oe.2 with
  | Terminado _ => true
  | _ => false
  end.

Definition vendeu (oe : Operador * Estado) : bool :=
  match oe.2 with
  | Terminado (toast_success _) => true
  | _ => false
  end.

(** The two ways a sale is refused for want of stock: by the page,
    against its list, or by the database, against the row. *)
Definition sem_estoque (oe : Operador * Estado) : bool :=
  match oe.2 with
  | Terminado (toast_error msg) =>
      bool_decide (msg = "Estoque insuficiente para esta venda")
  | Terminado (toast_error_pg _ e) =>
      bool_decide (e = check_violation "produtos_quantidade_check")
  | _ => false
  end.

Definition contar (f : Operador * Estado -> bool) (ts : list (Operador * Estado)) : Z :=
  soma (fun oe => if f oe then 1 else 0) ts.

(** An operator selling one unit of product [p]: logged in, with a
    profile in [db], the form filled with [p], quantity 1 and a price
    that is not negative and fits its column. *)
Definition vende_um (p : uuid) (db : Db) (o : Operador) : Prop :=
  uid o = Some (profile_id o) /\
  is_Some (profiles db !! profile_id o) /\
  Vendas.produto_id (data o) = Some p /\
  Vendas.quantidade (data o) = Some 1 /\
  exists preco, Vendas.preco_unitario (data o) = Some preco /\ 0 <= preco <= 9999999999.

(** The row such an operator's page sends. *)
Definition linha (p : uuid) (o : Operador) : Venda.Insert :=
  Venda.mk (Some p) 1 (default 0 (Vendas.preco_unitario (data o))) (profile_id o)
    (Vendas.observacoes (data o)).

(** How many times terminal [i] moves in a schedule. *)
Definition vezes (i : nat) (sched : list nat) : nat :=
  length (filter (fun j => j = i) sched).

(** How far a terminal has got. *)
Definition fase (e : Estado) : nat :=
  match e with
  | Montando => 0
  | Pronto _ => 1
  | Enviado _ => 2
  | Terminado _ => 3
  end.

(** What holds of a terminal selling [p] while [q] units are left: the list of a
    loaded page shows no less than is left (a product it does not list
    had none), a request in flight is the operator's row, and a sale
    was refused only once nothing was left. *)
Definition estado_ok (p : uuid) (db0 : Db) (q : Z) (oe : Operador * Estado) : Prop :=
  vende_um p db0 oe.1 /\
  match oe.2 with
  | Montando => True
  | Pronto lista => q <= from_option Produto.quantidade 0 (lista !! p)
  | Enviado d => d = linha p oe.1
  | Terminado t =>
      t = toast_success "Venda registrada com sucesso!" \/
      (sem_estoque oe = true /\ q = 0)
  end.

(** The database while [q] units of [p] are left, [db0] being where the
    terminals started and [prod] the row of [p] there. *)
Definition db_ok (p : uuid) (prod : Produto.Row) (db0 : Db) (q : Z) (db : Db) : Prop :=
  produtos db !! p = Some (Produto.set_quantidade q prod) /\
  profiles db = profiles db0 /\
  0 <= q <= Produto.quantidade prod /\
  Z.of_nat (length (vendas db)) + q
    = Z.of_nat (length (vendas db0)) + Produto.quantidade prod.

(** How far the [i]-th terminal has got (done, if there is none). *)
Definition fase_de (i : nat) (ts : list (Operador * Estado)) : nat :=
  from_option (fun oe => fase oe.2) 3%nat (ts !! i).
End Terminais.

(** ** A small database

    An admin [u1] and a seller [u2]; one category, one supplier; product
    [p1] with 5 units in stock, bought at 12.00 and sold at 20.00. *)
Definition dipirona : Produto.Row :=
  Produto.mk "Dipirona" "D-1" (Some "c1") 1200 2000 5 (Some 10) 20000 None.

Definition db_exemplo : Db :=
  mkDb {[ "u1" := admin; "u2" := vendedor ]} {[ "c1" ]} {[ "f1" ]}
    {[ "p1" := dipirona ]} [] [].

(** The database after [u2] sold 2 units of [p1]. *)
Definition db_com_venda : Db :=
  pedido (Some "u2", InsertVendas (Venda.mk (Some "p1") 2 2000 "u2" None)) db_exemplo.

(** The form of the products page for [p1], its quantity set to [q]. *)
Definition form_dipirona (q : Z) : Produtos.Data :=
  Produtos.mk "Dipirona" "D-1" (Some "c1") (Some 1200) (Some 2000) (Some q) (Some 10)
    20000 "".

(** A product with 50 units, a minimum of 10, expiring on day [validade]. *)
Definition produto_validade (validade : Z) : Produto.Row :=
  Produto.mk "Paracetamol" "P-1" (Some "c1") 800 1500 50 (Some 10) validade None.

(** Two operators at their terminals, each about to sell one unit of
    [p1], and the database with a single unit of it left. *)
Definition dois_operadores : list (Terminais.Operador * Terminais.Estado) :=
  [ (Terminais.mk (Some "u1") "u1" (Vendas.mk (Some "p1") (Some 1) (Some 2000) None),
     Terminais.Montando);
    (Terminais.mk (Some "u2") "u2" (Vendas.mk (Some "p1") (Some 1) (Some 2000) None),
     Terminais.Montando) ].

Definition db_ultima_unidade : Db :=
  set_produtos {[ "p1" := Produto.set_quantidade 1 dipirona ]} db_exemplo.

(** ** What a committed sale or purchase leaves *)

(** The stock a sale of [d] leaves, over the products of [db]. *)
Definition produtos_apos_venda (d : Venda.Insert) (db : Db) : gmap string Produto.Row :=
  match Venda.produto_id d with
  | Some i =>
      match produtos db !! i with
      | Some p =>
          <[i := Produto.set_quantidade (Produto.quantidade p - Venda.quantidade d) p]>
            (produtos db)
      | None => produtos db
      end
  | None => produtos db
  end.

(** The profit the trigger assigns to a sale of [d]. *)
Definition lucro_da_venda (d : Venda.Insert) (db : Db) : option Z :=
  (fun p => (Venda.preco_unitario d - Produto.preco_compra p) * Venda.quantidade d)
    <$> (Venda.produto_id d ≫= (fun i => produtos db !! i)).

(** The stock a purchase of [d] leaves, over the products of [db]. *)
Definition produtos_apos_compra (d : Compra.Insert) (db : Db) : gmap string Produto.Row :=
  match Compra.produto_id d with
  | Some i =>
      match produtos db !! i with
      | Some p =>
          <[i := Produto.set_quantidade (Produto.quantidade p + Compra.quantidade d) p]>
            (produtos db)
      | None => produtos db
      end
  | None => produtos db
  end.

(** What the stock of [p] exceeds its purchases less its sales by. *)
Definition saldo (p : uuid) (db : Db) : option Z :=
  (fun q => q - (total_comprado p db - total_vendido p db)) <$> estoque p db.

(** ** The rest of the pages

    [handleProdutoChange] of the sales page: choosing a product in the
    [Select] fills the price field with the sale price the page's list
    shows for it (the empty string, which [parseFloat] reads as [NaN], if
    the list does not have it). *)
Definition handleProdutoChange (produtos : gmap string Produto.Row) (produtoId : uuid)
    (data : Vendas.Data) : Vendas.Data :=
  Vendas.mk (Some produtoId) (Vendas.quantidade data)
    (Produto.preco_venda <$> produtos !! produtoId) (Vendas.observacoes data).


(** ** Signing up

    [handle_new_user], fired [AFTER INSERT ON auth.users]: the new user gets
    a profile whose role is the [role] of the sign-up metadata,
    ['vendedor'] when there is none. The column carries
    [CHECK (role IN ('admin', 'vendedor'))] and [id] is the primary key.
    (The name and the e-mail of the profile are not kept in [Db].) *)
Definition role_of_text (s : string) : option Role :=
  if decide (s = "admin") then Some admin
  else if decide (s = "vendedor") then Some vendedor
  else None.

Definition set_profiles (ps : gmap string Role) (db : Db) : Db :=
  mkDb ps (categorias db) (fornecedores db) (produtos db) (compras db) (vendas db).

Definition handle_new_user (id : uuid) (raw_user_meta_data_role : option string) : Tx unit :=
  let role := default "vendedor" raw_user_meta_data_role in
  match role_of_text role with
  | None => raise (check_violation "profiles_role_check")
  | Some r =>
      db ← tx_get;
      exigir (bool_decide (profiles db !! id = None)) (unique_violation "profiles_pkey");;
      tx_modify (set_profiles (<[id := r]> (profiles db)))
  end.

(** ** Changing one's profile

    [UPDATE public.profiles SET role = role WHERE id = alvo] by a client
    whose [auth.uid()] is [uid]. The only policy for the command is
    [FOR UPDATE USING (auth.uid() = id)], which names no column and has no
    [WITH CHECK] of its own, so the row of the client passes it before and
    after; the [CHECK] on [role] is that of the table. (The migration
    revokes nothing: the client role holds the table privileges Supabase
    grants on the [public] schema.) *)
Definition update_profiles_role (uid : option uuid) (alvo : uuid) (role : string) : Tx unit :=
  db ← tx_get;
  if bool_decide (uid = Some alvo) && bool_decide (is_Some (profiles db !! alvo)) then
    match role_of_text role with
    | None => raise (check_violation "profiles_role_check")
    | Some r => tx_modify (set_profiles (<[alvo := r]> (profiles db)))
    end
  else mret tt.

(** ** The dashboard

    [loadDashboardData], from the rows its queries return. Quantities are
    integers, which JavaScript adds exactly (below 2^53). *)
Module Dashboard.
(** A row of [select('produto_id, quantidade, produtos(nome)')]: the
    joined name is missing when the sale names no product. *)
Record TopVenda := mk {
  produto_id : option uuid;
  quantidade : Z;
  produtos_nome : option string
}.

(** [venda.produtos?.nome || 'Produto']: the empty name is falsy too. *)
Definition nome_de (venda : TopVenda) : string :=
  match produtos_nome venda with
  | Some n => if decide (n = "") then "Produto" else n
  | None => "Produto"
  end.

(** A JavaScript [Map] as the list of its entries in insertion order:
    [set] on a key it has replaces the value where it stands. *)
Fixpoint map_set {V} (k : option uuid) (v : V) (m : list (option uuid * V))
    : list (option uuid * V) :=
  match m with
  | [] => [(k, v)]
  | (k', v') :: m' =>
      if decide (k = k') then (k, v) :: m' else (k', v') :: map_set k v m'
  end.

Fixpoint map_get {V} (k : option uuid) (m : list (option uuid * V)) : option V :=
  match m with
  | [] => None
  | (k', v') :: m' => if decide (k = k') then Some v' else map_get k m'
  end.

(** The body of [topVendas?.forEach]. *)
Definition acumular (produtosMap : list (option uuid * (string * Z))) (venda : TopVenda)
    : list (option uuid * (string * Z)) :=
  let id := produto_id venda in
  let nome := nome_de venda in
  let qtd := quantidade venda in
  match map_get id produtosMap with
  | Some atual => map_set id (nome, atual.2 + qtd) produtosMap
  | None => map_set id (nome, qtd) produtosMap
  end.

Definition produtosMap (topVendas : list TopVenda) : list (option uuid * (string * Z)) :=
  foldl acumular [] topVendas.

(** [sort((a, b) => b.quantidade - a.quantidade)]: the sort of JavaScript
    is stable, so it is the insertion sort that puts an entry before the
    later entries that do not sell more. *)
Fixpoint inserir (a : string * Z) (l : list (string * Z)) : list (string * Z) :=
  match l with
  | [] => [a]
  | b :: l' => if b.2 <=? a.2 then a :: b :: l' else b :: inserir a l'
  end.

Definition sort (l : list (string * Z)) : list (string * Z) :=
  foldr inserir [] l.

(** [Array.from(produtosMap.values()).sort(...).slice(0, 5)]. *)
Definition topProdutosArray (topVendas : list TopVenda) : list (string * Z) :=
  take 5 (sort (produtosMap topVendas).*2).

(** [allProdutos?.filter(p => p.quantidade <= p.quantidade_minima)]: in the
    comparison a null minimum counts as 0. *)
Definition produtosEstoqueBaixo (allProdutos : list Produto.Row) : list Produto.Row :=
  filter (fun p => Produto.quantidade p <= default 0 (Produto.quantidade_minima p)) allProdutos.
End Dashboard.

(** ** What the constraints keep

    The foreign keys: every reference of a stored row names a row that
    exists. *)
Definition db_integro (db : Db) : Prop :=
  Forall (fun r =>
            fk_ok (Compra.fornecedor_id (Compra.dados r)) (fornecedores db) = true /\
            fk_ok (Compra.produto_id (Compra.dados r)) (dom (produtos db)) = true /\
            is_Some (profiles db !! Compra.user_id (Compra.dados r))) (compras db) /\
  Forall (fun r =>
            fk_ok (Venda.produto_id (Venda.dados r)) (dom (produtos db)) = true /\
            is_Some (profiles db !! Venda.user_id (Venda.dados r))) (vendas db) /\
  map_Forall (fun _ p => fk_ok (Produto.categoria_id p) (categorias db) = true) (produtos db).

(** The column types, the [CHECK] constraints and the generated columns. *)
Definition compra_ok (r : Compra.Row) : Prop :=
  0 < Compra.quantidade (Compra.dados r) <= 2147483647 /\
  0 <= Compra.preco_unitario (Compra.dados r) <= 9999999999 /\
  Compra.total r = Compra.quantidade (Compra.dados r) * Compra.preco_unitario (Compra.dados r) /\
  Compra.total r <= 9999999999.

Definition venda_ok (r : Venda.Row) : Prop :=
  0 < Venda.quantidade (Venda.dados r) <= 2147483647 /\
  0 <= Venda.preco_unitario (Venda.dados r) <= 9999999999 /\
  Venda.total r = Venda.quantidade (Venda.dados r) * Venda.preco_unitario (Venda.dados r) /\
  Venda.total r <= 9999999999 /\
  from_option (fun l => -9999999999 <= l <= 9999999999) True (Venda.lucro r).

Definition db_checks (db : Db) : Prop :=
  map_Forall (fun _ p => produto_ok p) (produtos db) /\
  Forall compra_ok (compras db) /\
  Forall venda_ok (vendas db).

(** [codigo TEXT UNIQUE]: two products with one code are one product. *)
Definition codigos_unicos (db : Db) : Prop :=
  forall i j p q,
    produtos db !! i = Some p -> produtos db !! j = Some q ->
    Produto.codigo p = Produto.codigo q -> i = j.

(** Two rows of [produtos] that differ at most in [quantidade]. *)
Definition mesmo_cadastro (p q : Produto.Row) : Prop :=
  Produto.set_quantidade (Produto.quantidade q) p = q.

(** * Reasoning about transactions *)

Lemma tx_bind_inr {A B} (t : Tx A) (k : A -> Tx B) db b db2 :
  (t ≫= k) db = inr (b, db2) ->
  exists a db1, t db = inr (a, db1) /\ k a db1 = inr (b, db2).
Proof.
  unfold mbind, tx_mbind, tx_bind.
  destruct (t db) as [e|[a db1]]; [discriminate|]. eauto.
Qed.

Lemma tx_bind_eq {A B} (t : Tx A) (k : A -> Tx B) db a db1 :
  t db = inr (a, db1) -> (t ≫= k) db = k a db1.
Proof. unfold mbind, tx_mbind, tx_bind. by intros ->. Qed.

Lemma tx_bind_inl {A B} (t : Tx A) (k : A -> Tx B) db e :
  t db = inl e -> (t ≫= k) db = inl e.
Proof. unfold mbind, tx_mbind, tx_bind. by intros ->. Qed.

Lemma exigir_inr b e db u db1 :
  exigir b e db = inr (u, db1) -> b = true /\ db1 = db.
Proof. destruct b; cbv; intros H; by inversion H. Qed.

Lemma tx_get_inr db a db1 : tx_get db = inr (a, db1) -> a = db /\ db1 = db.
Proof. cbv. intros H. by inversion H. Qed.

Lemma tx_modify_inr f db u db1 : tx_modify f db = inr (u, db1) -> db1 = f db.
Proof. cbv. intros H. by inversion H. Qed.

Lemma tx_ret_inr {A} (a b : A) db db1 :
  (mret a : Tx A) db = inr (b, db1) -> b = a /\ db1 = db.
Proof. cbv. intros H. by inversion H. Qed.

(** Peel the first statement off a successful run. *)
Ltac tx_step H :=
  let a := fresh "a" in
  let dbi := fresh "dbi" in
  let Hi := fresh "Hi" in
  apply tx_bind_inr in H as (a & dbi & Hi & H);
  first
    [ apply exigir_inr in Hi as [Hi ->]
    | apply tx_get_inr in Hi as [-> ->]
    | apply tx_modify_inr in Hi as ->
    | idtac ].

Lemma executar_inr {A} (t : Tx A) db a db1 :
  executar t db = (inr a, db1) <-> t db = inr (a, db1).
Proof.
  unfold executar. destruct (t db) as [e|[a1 d1]]; split; intros H; by inversion H.
Qed.

Lemma executar_inl {A} (t : Tx A) db e db1 :
  executar t db = (inl e, db1) <-> t db = inl e /\ db1 = db.
Proof.
  unfold executar. destruct (t db) as [e1|[a1 d1]]; split.
  - intros H. by inversion H.
  - intros [H ->]. by inversion H.
  - intros H. by inversion H.
  - intros [H _]. by inversion H.
Qed.

(** A failed request leaves the database as it was. *)
Lemma executar_rollback {A} (t : Tx A) db e db1 :
  executar t db = (inl e, db1) -> db1 = db.
Proof. intros H. by apply executar_inl in H as [_ ->]. Qed.

(** ** The stock update *)

Lemma update_produtos_quantidade_inr f pid db u db1 :
  update_produtos_quantidade f pid db = inr (u, db1) ->
  match pid ≫= (fun i => (fun p => (i, p)) <$> produtos db !! i) with
  | None => db1 = db
  | Some (i, p) =>
      let q := f (Produto.quantidade p) in
      int4_ok q = true /\ 0 <= q /\
      db1 = set_produtos (<[i := Produto.set_quantidade q p]> (produtos db)) db
  end.
Proof.
  unfold update_produtos_quantidade. intros H. tx_step H.
  destruct pid as [i|]; simpl; [|by apply tx_ret_inr in H as [_ ->]].
  destruct (produtos db !! i) as [p|]; simpl; [|by apply tx_ret_inr in H as [_ ->]].
  tx_step H. tx_step H. apply tx_modify_inr in H as ->.
  split; [done|]. split; [lia|done].
Qed.

Lemma update_produtos_quantidade_ok f i p db :
  produtos db !! i = Some p ->
  int4_ok (f (Produto.quantidade p)) = true ->
  0 <= f (Produto.quantidade p) ->
  update_produtos_quantidade f (Some i) db =
    inr (tt, set_produtos
               (<[i := Produto.set_quantidade (f (Produto.quantidade p)) p]> (produtos db)) db).
Proof.
  intros Hp Hi Hq. unfold update_produtos_quantidade.
  rewrite (tx_bind_eq _ _ db db db); [|done]. rewrite Hp. cbv zeta.
  rewrite Hi. rewrite (tx_bind_eq _ _ db tt db); [|done].
  replace (0 <=? _) with true by (symmetry; lia).
  by rewrite (tx_bind_eq _ _ db tt db).
Qed.

Lemma update_produtos_quantidade_none f pid db :
  pid ≫= (fun i => produtos db !! i) = None ->
  update_produtos_quantidade f pid db = inr (tt, db).
Proof.
  intros Hp. unfold update_produtos_quantidade.
  rewrite (tx_bind_eq _ _ db db db); [|done].
  destruct pid as [i|]; [|done]. simpl in Hp. by rewrite Hp.
Qed.

(** ** Recording a sale *)

Lemma atualizar_estoque_venda_inr d db l db1 :
  atualizar_estoque_venda d db = inr (l, db1) ->
  l = lucro_da_venda d db /\
  db1 = set_produtos (produtos_apos_venda d db) db /\
  (forall i p, Venda.produto_id d = Some i -> produtos db !! i = Some p ->
     Venda.quantidade d <= Produto.quantidade p).
Proof.
  unfold atualizar_estoque_venda. intros H. tx_step H. cbv zeta in H.
  tx_step H. tx_step H. apply tx_ret_inr in H as [-> ->].
  apply update_produtos_quantidade_inr in Hi0.
  unfold lucro_da_venda, produtos_apos_venda.
  destruct (Venda.produto_id d) as [i|]; simpl in *.
  - destruct (produtos db !! i) as [p|] eqn:Hp; simpl in *.
    + destruct Hi0 as (_ & Hq & ->). split; [done|]. split; [done|].
      intros ? ? [= <-] Hp'. rewrite Hp in Hp'. injection Hp' as <-. lia.
    + subst. split; [done|]. split; [by destruct db|].
      intros ? ? [= <-] Hp'. by rewrite Hp in Hp'.
  - subst. split; [done|]. split; [by destruct db|]. done.
Qed.

Lemma fk_ok_Some i (ids : gset string) : fk_ok (Some i) ids = true <-> i ∈ ids.
Proof. simpl. apply bool_decide_eq_true. Qed.

Lemma insert_vendas_inr uid d db row db1 :
  insert_vendas uid d db = inr (row, db1) ->
  uid = Some (Venda.user_id d) /\
  is_Some (profiles db !! Venda.user_id d) /\
  0 <= Venda.preco_unitario d /\
  0 < Venda.quantidade d /\
  row = Venda.mkRow d (Venda.quantidade d * Venda.preco_unitario d) (lucro_da_venda d db) /\
  db1 = set_vendas (vendas db ++ [row]) (set_produtos (produtos_apos_venda d db) db) /\
  (forall i, Venda.produto_id d = Some i -> exists p, produtos db !! i = Some p /\
     Venda.quantidade d <= Produto.quantidade p).
Proof.
  unfold insert_vendas. intros H. tx_step H. tx_step H.
  apply atualizar_estoque_venda_inr in Hi0 as (-> & -> & Hq).
  cbv zeta in H. do 5 tx_step H. tx_step H.
  apply tx_bind_inr in H as (? & ? & Hprod & H). apply exigir_inr in Hprod as [Hprod ->].
  apply tx_bind_inr in H as (? & ? & Huser & H). apply exigir_inr in Huser as [Huser ->].
  apply tx_ret_inr in H as [-> ->].
  apply fk_ok_Some, elem_of_dom in Huser. simpl in Huser.
  repeat match goal with
         | H : bool_decide _ = true |- _ => apply bool_decide_eq_true in H
         end.
  repeat split; try done; try lia.
  intros i Hpid. rewrite Hpid in Hprod.
  apply fk_ok_Some, elem_of_dom in Hprod as [p' Hp'].
  simpl in Hp'. unfold produtos_apos_venda in Hp'. rewrite Hpid in Hp'.
  destruct (produtos db !! i) as [p|] eqn:Hp; [|by rewrite Hp in Hp'].
  exists p. split; [done|]. by eapply Hq.
Qed.

Lemma exigir_ok b e db : b = true -> exigir b e db = inr (tt, db).
Proof. by intros ->. Qed.

Lemma exigir_falha b e db : b = false -> exigir b e db = @inl _ (unit * Db) e.
Proof. by intros ->. Qed.

(** Run past a check that holds. *)
Ltac tx_passa tac :=
  erewrite (tx_bind_eq (exigir _ _)); [|apply exigir_ok; tac].

Lemma int4_ok_true x : int4_ok x = true <-> -2147483648 <= x <= 2147483647.
Proof. unfold int4_ok. rewrite andb_true_iff. lia. Qed.

Lemma decimal_10_2_ok_true x :
  decimal_10_2_ok x = true <-> -9999999999 <= x <= 9999999999.
Proof. unfold decimal_10_2_ok. rewrite andb_true_iff. lia. Qed.

Lemma atualizar_estoque_venda_ok d db i p :
  Venda.produto_id d = Some i ->
  produtos db !! i = Some p ->
  0 <= Produto.quantidade p <= 2147483647 ->
  0 <= Venda.quantidade d <= Produto.quantidade p ->
  decimal_10_2_ok ((Venda.preco_unitario d - Produto.preco_compra p) * Venda.quantidade d) = true ->
  atualizar_estoque_venda d db =
    inr (lucro_da_venda d db, set_produtos (produtos_apos_venda d db) db).
Proof.
  intros Hi Hp Hqp Hq Hl. unfold atualizar_estoque_venda.
  rewrite (tx_bind_eq _ _ db db db); [|done]. cbv zeta.
  rewrite Hi. simpl. rewrite Hp. simpl.
  tx_passa ltac:(exact Hl).
  erewrite (tx_bind_eq (update_produtos_quantidade _ _)).
  2:{ apply (update_produtos_quantidade_ok _ i p); [done| |lia].
      apply int4_ok_true. lia. }
  unfold lucro_da_venda, produtos_apos_venda. rewrite Hi. simpl. by rewrite Hp.
Qed.

(** The trigger refuses a sale of more than the stock: the [UPDATE] would
    leave a negative quantity. *)
Lemma atualizar_estoque_venda_sem_estoque d db i p :
  Venda.produto_id d = Some i ->
  produtos db !! i = Some p ->
  0 <= Produto.quantidade p ->
  Produto.quantidade p < Venda.quantidade d <= 2147483647 ->
  decimal_10_2_ok ((Venda.preco_unitario d - Produto.preco_compra p) * Venda.quantidade d) = true ->
  atualizar_estoque_venda d db = inl (check_violation "produtos_quantidade_check").
Proof.
  intros Hi Hp Hqp Hq Hl. unfold atualizar_estoque_venda.
  rewrite (tx_bind_eq _ _ db db db); [|done]. cbv zeta.
  rewrite Hi. simpl. rewrite Hp. simpl.
  tx_passa ltac:(exact Hl).
  apply tx_bind_inl. unfold update_produtos_quantidade.
  rewrite (tx_bind_eq _ _ db db db); [|done]. rewrite Hp. cbv zeta.
  tx_passa ltac:(apply int4_ok_true; lia).
  apply tx_bind_inl. apply exigir_falha. lia.
Qed.

Lemma insert_vendas_ok uid d db i p :
  uid = Some (Venda.user_id d) ->
  is_Some (profiles db !! Venda.user_id d) ->
  Venda.produto_id d = Some i ->
  produtos db !! i = Some p ->
  0 <= Produto.quantidade p <= 2147483647 ->
  0 < Venda.quantidade d <= Produto.quantidade p ->
  0 <= Venda.preco_unitario d ->
  Venda.quantidade d * Venda.preco_unitario d <= 9999999999 ->
  decimal_10_2_ok ((Venda.preco_unitario d - Produto.preco_compra p) * Venda.quantidade d) = true ->
  let row := Venda.mkRow d (Venda.quantidade d * Venda.preco_unitario d) (lucro_da_venda d db) in
  insert_vendas uid d db =
    inr (row, set_vendas (vendas db ++ [row]) (set_produtos (produtos_apos_venda d db) db)).
Proof.
  intros Hu Hprof Hi Hp Hqp Hq Hpr Ht Hl row. unfold insert_vendas.
  tx_passa ltac:(apply andb_true_iff; split;
                 [apply int4_ok_true|apply decimal_10_2_ok_true]; nia).
  erewrite (tx_bind_eq (atualizar_estoque_venda _)).
  2:{ apply (atualizar_estoque_venda_ok d db i p); try done. lia. }
  cbv zeta.
  tx_passa ltac:(apply decimal_10_2_ok_true; nia).
  tx_passa ltac:(by apply bool_decide_eq_true).
  tx_passa ltac:(lia).
  tx_passa ltac:(lia).
  erewrite (tx_bind_eq (tx_modify _)); [|reflexivity].
  erewrite (tx_bind_eq tx_get); [|reflexivity].
  tx_passa ltac:(rewrite Hi; apply fk_ok_Some, elem_of_dom; simpl;
                 unfold produtos_apos_venda; rewrite Hi, Hp;
                 rewrite lookup_insert_eq; eauto).
  tx_passa ltac:(by apply fk_ok_Some, elem_of_dom).
  reflexivity.
Qed.

Lemma insert_vendas_sem_estoque uid d db i p :
  Venda.produto_id d = Some i ->
  produtos db !! i = Some p ->
  0 <= Produto.quantidade p ->
  Produto.quantidade p < Venda.quantidade d ->
  int4_ok (Venda.quantidade d) = true ->
  decimal_10_2_ok (Venda.preco_unitario d) = true ->
  decimal_10_2_ok ((Venda.preco_unitario d - Produto.preco_compra p) * Venda.quantidade d) = true ->
  insert_vendas uid d db = inl (check_violation "produtos_quantidade_check").
Proof.
  intros Hi Hp Hqp Hq Hq4 Hpr Hl. unfold insert_vendas.
  tx_passa ltac:(by rewrite Hq4, Hpr).
  apply tx_bind_inl. apply (atualizar_estoque_venda_sem_estoque d db i p); try done.
  apply int4_ok_true in Hq4. lia.
Qed.

Lemma insert_vendas_acima_do_estoque_inl uid d db i p :
  Venda.produto_id d = Some i ->
  produtos db !! i = Some p ->
  Produto.quantidade p < Venda.quantidade d ->
  exists e, insert_vendas uid d db = inl e.
Proof.
  intros Hi Hp Hq. destruct (insert_vendas uid d db) as [e|[row db1]] eqn:H; [eauto|].
  apply insert_vendas_inr in H as (_ & _ & _ & _ & _ & _ & H).
  destruct (H i Hi) as (p' & Hp' & Hle). rewrite Hp in Hp'. injection Hp' as <-. lia.
Qed.

(** ** Recording a purchase *)

Lemma atualizar_estoque_compra_inr NEW db u db1 :
  atualizar_estoque_compra NEW db = inr (u, db1) ->
  db1 = set_produtos (produtos_apos_compra (Compra.dados NEW) db) db.
Proof.
  unfold atualizar_estoque_compra. intros H.
  apply update_produtos_quantidade_inr in H. unfold produtos_apos_compra.
  destruct (Compra.produto_id (Compra.dados NEW)) as [i|]; simpl in *.
  - destruct (produtos db !! i) as [p|]; simpl in *.
    + by destruct H as (_ & _ & ->).
    + subst. by destruct db.
  - subst. by destruct db.
Qed.

Lemma insert_compras_inr uid d db row db1 :
  insert_compras uid d db = inr (row, db1) ->
  uid = Some (Compra.user_id d) /\
  is_Some (profiles db !! Compra.user_id d) /\
  0 <= Compra.preco_unitario d /\
  0 < Compra.quantidade d /\
  row = Compra.mkRow d (Compra.quantidade d * Compra.preco_unitario d) /\
  db1 = set_compras (compras db ++ [row]) (set_produtos (produtos_apos_compra d db) db) /\
  (forall i, Compra.produto_id d = Some i -> is_Some (produtos db !! i)) /\
  (forall f, Compra.fornecedor_id d = Some f -> f ∈ fornecedores db).
Proof.
  unfold insert_compras. intros H. tx_step H. cbv zeta in H. do 4 tx_step H.
  tx_step H. tx_step H.
  apply tx_bind_inr in H as (? & ? & Hforn & H). apply exigir_inr in Hforn as [Hforn ->].
  apply tx_bind_inr in H as (? & ? & Hprod & H). apply exigir_inr in Hprod as [Hprod ->].
  apply tx_bind_inr in H as (? & ? & Huser & H). apply exigir_inr in Huser as [Huser ->].
  apply tx_bind_inr in H as (? & ? & Htrig & H).
  apply atualizar_estoque_compra_inr in Htrig as ->.
  apply tx_ret_inr in H as [-> ->].
  apply fk_ok_Some, elem_of_dom in Huser. simpl in Huser.
  repeat match goal with
         | H : bool_decide _ = true |- _ => apply bool_decide_eq_true in H
         end.
  repeat split; try done; try lia.
  - intros i Hpid. rewrite Hpid in Hprod. by apply fk_ok_Some, elem_of_dom in Hprod.
  - intros f Hf. rewrite Hf in Hforn. by apply fk_ok_Some in Hforn.
Qed.

Lemma insert_compras_ok uid d db :
  uid = Some (Compra.user_id d) ->
  is_Some (profiles db !! Compra.user_id d) ->
  fk_ok (Compra.fornecedor_id d) (fornecedores db) = true ->
  fk_ok (Compra.produto_id d) (dom (produtos db)) = true ->
  (forall i p, Compra.produto_id d = Some i -> produtos db !! i = Some p ->
     0 <= Produto.quantidade p /\ Produto.quantidade p + Compra.quantidade d <= 2147483647) ->
  0 < Compra.quantidade d <= 2147483647 ->
  0 <= Compra.preco_unitario d ->
  Compra.quantidade d * Compra.preco_unitario d <= 9999999999 ->
  let row := Compra.mkRow d (Compra.quantidade d * Compra.preco_unitario d) in
  insert_compras uid d db =
    inr (row, set_compras (compras db ++ [row]) (set_produtos (produtos_apos_compra d db) db)).
Proof.
  intros Hu Hprof Hforn Hprod Hp Hq Hpr Ht row. unfold insert_compras.
  tx_passa ltac:(apply andb_true_iff; split;
                 [apply int4_ok_true|apply decimal_10_2_ok_true]; nia).
  cbv zeta.
  tx_passa ltac:(apply decimal_10_2_ok_true; nia).
  tx_passa ltac:(by apply bool_decide_eq_true).
  tx_passa ltac:(lia).
  tx_passa ltac:(lia).
  erewrite (tx_bind_eq (tx_modify _)); [|reflexivity].
  erewrite (tx_bind_eq tx_get); [|reflexivity].
  tx_passa ltac:(exact Hforn).
  tx_passa ltac:(exact Hprod).
  tx_passa ltac:(by apply fk_ok_Some, elem_of_dom).
  unfold atualizar_estoque_compra, produtos_apos_compra. simpl.
  destruct (Compra.produto_id d) as [i|] eqn:Hi.
  - apply fk_ok_Some, elem_of_dom in Hprod as [p Hp'].
    destruct (Hp i p eq_refl Hp') as [Hp0 Hpq].
    erewrite (tx_bind_eq (update_produtos_quantidade _ _)).
    2:{ apply (update_produtos_quantidade_ok _ i p); simpl; [done| |lia].
        apply int4_ok_true. lia. }
    rewrite Hp'. reflexivity.
  - erewrite (tx_bind_eq (update_produtos_quantidade _ _)).
    2:{ by apply update_produtos_quantidade_none. }
    by destruct db.
Qed.

Lemma estoque_apos_venda d db i p :
  Venda.produto_id d = Some i ->
  produtos db !! i = Some p ->
  produtos_apos_venda d db !! i =
    Some (Produto.set_quantidade (Produto.quantidade p - Venda.quantidade d) p).
Proof.
  intros Hi Hp. unfold produtos_apos_venda. rewrite Hi, Hp. apply lookup_insert_eq.
Qed.

Lemma estoque_apos_compra d db i p :
  Compra.produto_id d = Some i ->
  produtos db !! i = Some p ->
  produtos_apos_compra d db !! i =
    Some (Produto.set_quantidade (Produto.quantidade p + Compra.quantidade d) p).
Proof.
  intros Hi Hp. unfold produtos_apos_compra. rewrite Hi, Hp. apply lookup_insert_eq.
Qed.

Lemma insert_vendas_quantidade_zero uid d db i p :
  uid = Some (Venda.user_id d) ->
  Venda.produto_id d = Some i ->
  produtos db !! i = Some p ->
  0 <= Produto.quantidade p <= 2147483647 ->
  0 <= Venda.preco_unitario d <= 9999999999 ->
  Venda.quantidade d = 0 ->
  insert_vendas uid d db = inl (check_violation "vendas_quantidade_check").
Proof.
  intros Hu Hi Hp Hqp Hpr Hq. unfold insert_vendas. rewrite Hq.
  tx_passa ltac:(apply andb_true_iff; split;
                 [apply int4_ok_true|apply decimal_10_2_ok_true]; lia).
  erewrite (tx_bind_eq (atualizar_estoque_venda _)).
  2:{ apply (atualizar_estoque_venda_ok d db i p); try done; rewrite Hq; try lia.
      apply decimal_10_2_ok_true. lia. }
  cbv zeta.
  tx_passa ltac:(apply decimal_10_2_ok_true; lia).
  tx_passa ltac:(by apply bool_decide_eq_true).
  tx_passa ltac:(lia).
  apply tx_bind_inl. by apply exigir_falha.
Qed.

Lemma insert_compras_quantidade_zero uid d db :
  uid = Some (Compra.user_id d) ->
  0 <= Compra.preco_unitario d <= 9999999999 ->
  Compra.quantidade d = 0 ->
  insert_compras uid d db = inl (check_violation "compras_quantidade_check").
Proof.
  intros Hu Hpr Hq. unfold insert_compras. rewrite Hq.
  tx_passa ltac:(apply andb_true_iff; split;
                 [apply int4_ok_true|apply decimal_10_2_ok_true]; lia).
  cbv zeta.
  tx_passa ltac:(apply decimal_10_2_ok_true; lia).
  tx_passa ltac:(by apply bool_decide_eq_true).
  tx_passa ltac:(lia).
  apply tx_bind_inl. by apply exigir_falha.
Qed.

(** ** Statements on [produtos] *)

Lemma produtos_checks_inr d db u db1 :
  produtos_checks d db = inr (u, db1) ->
  db1 = db /\ 0 <= Produto.preco_compra d /\ 0 <= Produto.preco_venda d /\
  0 <= Produto.quantidade d.
Proof.
  unfold produtos_checks. intros H. tx_step H. tx_step H.
  apply exigir_inr in H as [H ->]. split; [done|]. lia.
Qed.

Lemma update_produtos_inr uid id d db u db1 :
  update_produtos uid id d db = inr (u, db1) ->
  db1 = (if is_admin uid db && bool_decide (is_Some (produtos db !! id))
         then set_produtos (<[id := d]> (produtos db)) db else db) /\
  (is_admin uid db = true -> is_Some (produtos db !! id) -> 0 <= Produto.quantidade d).
Proof.
  unfold update_produtos. intros H. tx_step H. tx_step H.
  destruct (is_admin uid db); simpl; [|by apply tx_ret_inr in H as [_ ->]].
  destruct (produtos db !! id) as [p|] eqn:Hp; simpl.
  - apply tx_bind_inr in H as (? & ? & Hc & H).
    apply produtos_checks_inr in Hc as (-> & _ & _ & Hq).
    tx_step H. tx_step H. apply exigir_inr in H as [_ ->]. done.
  - apply tx_ret_inr in H as [_ ->]. split; [done|]. by intros _ [? ?].
Qed.

Lemma insert_produtos_inr uid id d db u db1 :
  insert_produtos uid id d db = inr (u, db1) ->
  db1 = set_produtos (<[id := d]> (produtos db)) db /\
  produtos db !! id = None /\ is_admin uid db = true.
Proof.
  unfold insert_produtos. intros H. tx_step H. tx_step H.
  apply tx_bind_inr in H as (? & ? & Hadm & H). apply exigir_inr in Hadm as [Hadm ->].
  apply tx_bind_inr in H as (? & ? & Hc & H).
  apply produtos_checks_inr in Hc as (-> & _).
  apply tx_bind_inr in H as (? & ? & Hnew & H). apply exigir_inr in Hnew as [Hnew ->].
  tx_step H. tx_step H. apply exigir_inr in H as [_ ->].
  by apply bool_decide_eq_true in Hnew.
Qed.

Lemma delete_produtos_eq uid id db :
  delete_produtos uid id db =
    inr (tt, if is_admin uid db && bool_decide (is_Some (produtos db !! id))
             then mkDb (profiles db) (categorias db) (fornecedores db)
                    (delete id (produtos db))
                    (filter (fun r => Compra.produto_id (Compra.dados r) <> Some id) (compras db))
                    (filter (fun r => Venda.produto_id (Venda.dados r) <> Some id) (vendas db))
             else db).
Proof.
  unfold delete_produtos. rewrite (tx_bind_eq _ _ db db db); [|done].
  destruct (is_admin uid db); simpl; [|done].
  by destruct (produtos db !! id) as [p|] eqn:Hp.
Qed.

(** ** The event tables under any request *)

Lemma update_sem_politica {A} (onde : A -> bool) (set : A -> A) (l : list A) :
  map (fun r => if false && onde r then set r else r) l = l.
Proof. induction l as [|x l IH]; [done|]. cbn [map andb]. by f_equal. Qed.

Lemma delete_sem_politica {A} (onde : A -> bool) (l : list A) :
  filter (fun r => negb (false && onde r) = true) l = l.
Proof.
  induction l as [|x l IH]; [done|].
  rewrite filter_cons_True by done. by rewrite IH.
Qed.

(** What a request does to the two event tables: a committed insert adds
    its row at the end of its table; deleting a product removes the rows
    that name it; nothing else touches a row. *)
Lemma pedido_eventos r db :
  (exists row, compras (pedido r db) = compras db ++ [row] /\ vendas (pedido r db) = vendas db) \/
  (exists row, vendas (pedido r db) = vendas db ++ [row] /\ compras (pedido r db) = compras db) \/
  (compras (pedido r db) = compras db /\ vendas (pedido r db) = vendas db) \/
  (exists id, r.2 = DeleteProdutos id /\
     compras (pedido r db) =
       filter (fun r => Compra.produto_id (Compra.dados r) <> Some id) (compras db) /\
     vendas (pedido r db) =
       filter (fun r => Venda.produto_id (Venda.dados r) <> Some id) (vendas db)).
Proof.
  destruct r as [uid s]. unfold pedido. simpl.
  destruct (executar (corpo uid s) db) as [[e|u] db1] eqn:H.
  { apply executar_rollback in H as ->. simpl. auto. }
  apply executar_inr in H. simpl.
  destruct s as [d|d|onde set|onde|onde set|onde|id d|id d|id]; simpl in H.
  - apply tx_bind_inr in H as (row & ? & H & Hr). apply tx_ret_inr in Hr as [_ ->].
    apply insert_compras_inr in H as (_ & _ & _ & _ & _ & -> & _). left. by exists row.
  - apply tx_bind_inr in H as (row & ? & H & Hr). apply tx_ret_inr in Hr as [_ ->].
    apply insert_vendas_inr in H as (_ & _ & _ & _ & _ & -> & _).
    right; left. by exists row.
  - apply tx_modify_inr in H as ->. unfold rls_compras_update.
    rewrite update_sem_politica. simpl. auto.
  - apply tx_modify_inr in H as ->. unfold rls_compras_delete.
    rewrite delete_sem_politica. simpl. auto.
  - apply tx_modify_inr in H as ->. unfold rls_vendas_update.
    rewrite update_sem_politica. simpl. auto.
  - apply tx_modify_inr in H as ->. unfold rls_vendas_delete.
    rewrite delete_sem_politica. simpl. auto.
  - apply insert_produtos_inr in H as (-> & _). simpl. auto.
  - apply update_produtos_inr in H as (-> & _).
    destruct (_ && _); simpl; auto.
  - rewrite delete_produtos_eq in H.
    destruct (_ && _) eqn:Hc; injection H as <- <-; simpl.
    + right; right; right. by exists id.
    + right; right; left. done.
Qed.

Lemma pedido_sem_exclusao r db :
  exclusao r = false ->
  compras db `prefix_of` compras (pedido r db) /\
  vendas db `prefix_of` vendas (pedido r db).
Proof.
  intros Hr.
  destruct (pedido_eventos r db) as [(row & -> & ->)|[(row & -> & ->)|[[-> ->]|(id & Hid & _)]]].
  - split; [by apply prefix_app_r|done].
  - split; [done|by apply prefix_app_r].
  - done.
  - unfold exclusao in Hr. by rewrite Hid in Hr.
Qed.

Lemma pedidos_sem_exclusao rs db :
  forallb (fun r => negb (exclusao r)) rs = true ->
  compras db `prefix_of` compras (pedidos rs db) /\
  vendas db `prefix_of` vendas (pedidos rs db).
Proof.
  revert db. induction rs as [|r rs IH]; intros db Hrs; [done|].
  simpl in Hrs. apply andb_true_iff in Hrs as [Hr Hrs]. apply negb_true_iff in Hr.
  destruct (pedido_sem_exclusao r db Hr) as [Hc Hv].
  destruct (IH (pedido r db) Hrs) as [Hc' Hv']. simpl.
  split; by etrans.
Qed.

(** ** The balance of a product *)

Lemma soma_app {A} (f : A -> Z) (l1 l2 : list A) :
  soma f (l1 ++ l2) = soma f l1 + soma f l2.
Proof. induction l1 as [|x l1 IH]; simpl; [done|]. rewrite IH. lia. Qed.

Lemma soma_zero {A} (f : A -> Z) (l : list A) :
  Forall (fun x => f x = 0) l -> soma f l = 0.
Proof. induction 1 as [|x l Hx _ IH]; simpl; [done|]. lia. Qed.

(** Recording a purchase or a sale, committed or refused, keeps the
    product, the balance and a stock that is not negative. *)
Lemma pedido_lancamento_saldo r db p q :
  lancamento r = true ->
  estoque p db = Some q ->
  0 <= q ->
  exists q', estoque p (pedido r db) = Some q' /\ 0 <= q' /\
    saldo p (pedido r db) = saldo p db.
Proof.
  intros Hr Hq Hq0. destruct r as [uid s]. unfold pedido. simpl.
  destruct (executar (corpo uid s) db) as [[e|u] db1] eqn:H.
  { apply executar_rollback in H as ->. simpl. eauto. }
  apply executar_inr in H. simpl.
  unfold estoque in Hq. destruct (produtos db !! p) as [prod|] eqn:Hp; [|done].
  injection Hq as <-.
  destruct s as [d|d| | | | | | |]; try done; simpl in H.
  - apply tx_bind_inr in H as (row & ? & H & Hr'). apply tx_ret_inr in Hr' as [_ ->].
    apply insert_compras_inr in H as (_ & _ & _ & Hd & -> & -> & _).
    unfold saldo, estoque, total_comprado, total_vendido. simpl.
    rewrite soma_app. simpl. rewrite Hp. simpl.
    destruct (decide (Compra.produto_id d = Some p)) as [Hi|Hi].
    + rewrite (estoque_apos_compra d db p prod) by done. simpl.
      eexists. split; [done|]. split; [lia|]. f_equal. lia.
    + assert (produtos_apos_compra d db !! p = Some prod) as ->.
      { unfold produtos_apos_compra. destruct (Compra.produto_id d) as [j|]; [|done].
        destruct (produtos db !! j); [|done]. rewrite lookup_insert_ne; [done|congruence]. }
      simpl. eexists. split; [done|]. split; [lia|]. f_equal. lia.
  - apply tx_bind_inr in H as (row & ? & H & Hr'). apply tx_ret_inr in Hr' as [_ ->].
    apply insert_vendas_inr in H as (_ & _ & _ & Hd & -> & -> & Hfk).
    unfold saldo, estoque, total_comprado, total_vendido. simpl.
    rewrite soma_app. simpl. rewrite Hp. simpl.
    destruct (decide (Venda.produto_id d = Some p)) as [Hi|Hi].
    + rewrite (estoque_apos_venda d db p prod) by done. simpl.
      destruct (Hfk p Hi) as (prod' & Hp' & Hle). rewrite Hp in Hp'. injection Hp' as <-.
      eexists. split; [done|]. split; [lia|]. f_equal. lia.
    + assert (produtos_apos_venda d db !! p = Some prod) as ->.
      { unfold produtos_apos_venda. destruct (Venda.produto_id d) as [j|]; [|done].
        destruct (produtos db !! j); [|done]. rewrite lookup_insert_ne; [done|congruence]. }
      simpl. eexists. split; [done|]. split; [lia|]. f_equal. lia.
Qed.

Lemma pedidos_lancamento_saldo rs db p q :
  Forall (fun r => lancamento r = true) rs ->
  estoque p db = Some q ->
  0 <= q ->
  exists q', estoque p (pedidos rs db) = Some q' /\ 0 <= q' /\
    saldo p (pedidos rs db) = saldo p db.
Proof.
  intros Hrs. revert db q. induction Hrs as [|r rs Hr _ IH]; intros db q Hq Hq0.
  { simpl. eauto. }
  destruct (pedido_lancamento_saldo r db p q Hr Hq Hq0) as (q1 & Hq1 & Hq10 & Hs1).
  destruct (IH (pedido r db) q1 Hq1 Hq10) as (q2 & Hq2 & Hq20 & Hs2).
  exists q2. simpl. split; [done|]. split; [done|]. by rewrite Hs2.
Qed.


(** ** Terminals selling one product *)

Section Concorrencia.
Import Terminais.

Variable p : string.
Variable prod : Produto.Row.
Variable db0 : Db.
Hypothesis prod_ok : produto_ok prod.

Local Abbreviation estado_ok := (Terminais.estado_ok p db0).
Local Abbreviation db_ok := (Terminais.db_ok p prod db0).

Lemma estado_ok_mono q q' oe :
  estado_ok q oe -> 0 <= q' <= q -> (q' = q \/ 1 <= q) -> estado_ok q' oe.
Proof.
  intros [Ho He] Hq Hq1. split; [done|]. destruct oe as [o [|lista|d|t]]; simpl in *.
  - done.
  - lia.
  - done.
  - destruct He as [He|[He Hz]]; [by left|]. right. split; [done|]. lia.
Qed.

Lemma passo_ok o e db q :
  estado_ok q (o, e) -> db_ok q db ->
  exists q',
    db_ok q' (passo o e db).2 /\
    estado_ok q' (o, (passo o e db).1) /\
    0 <= q' <= q /\ (q' = q \/ 1 <= q) /\
    q' + (if vendeu (o, (passo o e db).1) then 1 else 0)
      = q + (if vendeu (o, e) then 1 else 0).
Proof.
  intros [Ho He] Hdb. pose proof Hdb as (Hp & Hprof & Hq & Hv). simpl in Ho, He.
  pose proof Ho as (Hu & Hpr & Hpid & Hqt & preco & Hpreco & Hpreco0).
  destruct e as [|lista|d|t]; simpl.
  - (* the page loads its list *)
    exists q. split; [done|]. split; [|split; [lia|split; [by left|lia]]].
    split; [done|]. simpl. unfold Vendas.loadProdutos. rewrite Hu. simpl.
    destruct (decide (0 < q)) as [Hq0|Hq0].
    + rewrite (map_lookup_filter_Some_2 _ _ p (Produto.set_quantidade q prod));
        simpl; [lia|done|lia].
    + rewrite map_lookup_filter_None_2; simpl; [lia|].
      right. intros x Hx. rewrite Hp in Hx. injection Hx as <-. simpl. lia.
  - (* the page validates the form against its list *)
    rewrite Hpid, Hqt, Hpreco. unfold Vendas.vendaSchema. rewrite Hpid, Hqt, Hpreco.
    simpl. replace (0 <=? preco) with true by (symmetry; lia). simpl.
    destruct (lista !! p) as [produto|] eqn:Hl; simpl in He; simpl.
    + destruct (Produto.quantidade produto <? 1) eqn:Hlt; simpl.
      * exists q. split; [done|]. split; [|split; [lia|split; [by left|lia]]].
        split; [done|]. right. split; [done|]. lia.
      * exists q. split; [done|]. split; [|split; [lia|split; [by left|lia]]].
        split; [done|]. simpl. unfold linha. by rewrite Hpreco.
    + exists q. split; [done|]. split; [|split; [lia|split; [by left|lia]]].
      split; [done|]. right. split; [done|]. lia.
  - (* the database runs the insert *)
    subst d. unfold linha. rewrite Hpreco. simpl.
    set (d := Venda.mk (Some p) 1 preco (profile_id o) (Vendas.observacoes (data o))).
    destruct prod_ok as (Hc & _ & Hq2).
    destruct (decide (1 <= q)) as [Hq1|Hq1].
    + pose proof (insert_vendas_ok (uid o) d db p (Produto.set_quantidade q prod)) as H.
      simpl in H. rewrite Hprof in H.
      specialize (H Hu Hpr eq_refl Hp ltac:(lia) ltac:(lia) ltac:(lia) ltac:(lia)
                    ltac:(apply decimal_10_2_ok_true; lia)).
      apply executar_inr in H. rewrite H. simpl.
      exists (q - 1). split; [|split; [by split; [|left]|split; [lia|split; [by right|lia]]]].
      split; [|split; [done|split; [lia|]]]; simpl.
      * by rewrite (estoque_apos_venda d db p (Produto.set_quantidade q prod)).
      * rewrite length_app. simpl. lia.
    + pose proof (insert_vendas_sem_estoque (uid o) d db p (Produto.set_quantidade q prod))
        as H. simpl in H.
      specialize (H eq_refl Hp ltac:(lia) ltac:(lia) eq_refl
                    ltac:(apply decimal_10_2_ok_true; lia)
                    ltac:(apply decimal_10_2_ok_true; lia)).
      assert (Hx : executar (insert_vendas (uid o) d) db =
                   (inl (check_violation "produtos_quantidade_check"), db))
        by (by apply executar_inl).
      rewrite Hx. simpl.
      exists q. split; [done|]. split; [|split; [lia|split; [by left|lia]]].
      split; [done|]. right. split; [done|]. lia.
  - (* nothing more to do *)
    exists q. split; [done|]. split; [done|]. split; [lia|split; [by left|lia]].
Qed.

Lemma contar_cons f oe ts :
  contar f (oe :: ts) = (if f oe then 1 else 0) + contar f ts.
Proof. reflexivity. Qed.

Lemma contar_faixa f ts : 0 <= contar f ts <= Z.of_nat (length ts).
Proof.
  induction ts as [|oe ts IH]; [done|]. rewrite contar_cons. simpl length.
  destruct (f oe); lia.
Qed.

Lemma passo_em_ok i ts db q :
  Forall (estado_ok q) ts -> db_ok q db ->
  exists q',
    db_ok q' (passo_em i ts db).2 /\
    Forall (estado_ok q') (passo_em i ts db).1 /\
    0 <= q' <= q /\ (q' = q \/ 1 <= q) /\
    q' + contar vendeu (passo_em i ts db).1 = q + contar vendeu ts /\
    length (passo_em i ts db).1 = length ts.
Proof.
  intros Hts. revert i. induction Hts as [|[o e] ts Hoe Hts IH]; intros i Hdb.
  { exists q. simpl. pose proof Hdb as (_ & _ & ? & _).
    split; [done|]. split; [done|]. split; [lia|]. split; [by left|]. done. }
  destruct i as [|j]; cbn [passo_em].
  - destruct (passo_ok o e db q Hoe Hdb) as (q' & Hdb' & Hoe' & Hq' & Hq1 & Hs).
    destruct (passo o e db) as [e' db'] eqn:Hp. cbn [fst snd length] in *.
    exists q'. split; [done|]. split; [|split; [done|split; [done|split; [|done]]]].
    + constructor; [done|]. eapply Forall_impl; [exact Hts|].
      intros x Hx. by apply (estado_ok_mono q).
    + rewrite !contar_cons. lia.
  - destruct (IH j Hdb) as (q' & Hdb' & Hts' & Hq' & Hq1 & Hs & Hlen).
    destruct (passo_em j ts db) as [ts' db'] eqn:Hp. cbn [fst snd length] in *.
    exists q'. split; [done|]. split; [|split; [done|split; [done|split]]].
    + constructor; [|done]. by apply (estado_ok_mono q).
    + rewrite !contar_cons. lia.
    + by rewrite Hlen.
Qed.

Lemma agenda_ok sched ts db q :
  Forall (estado_ok q) ts -> db_ok q db ->
  exists q',
    db_ok q' (agenda sched ts db).2 /\
    Forall (estado_ok q') (agenda sched ts db).1 /\
    q' + contar vendeu (agenda sched ts db).1 = q + contar vendeu ts /\
    length (agenda sched ts db).1 = length ts.
Proof.
  revert ts db q. induction sched as [|i sched IH]; intros ts db q Hts Hdb.
  { exists q. by simpl. }
  simpl. destruct (passo_em_ok i ts db q Hts Hdb) as (q1 & Hdb1 & Hts1 & _ & _ & Hs1 & Hl1).
  destruct (passo_em i ts db) as [ts1 db1]. simpl in *.
  destruct (IH ts1 db1 q1 Hts1 Hdb1) as (q2 & Hdb2 & Hts2 & Hs2 & Hl2).
  exists q2. split; [done|]. split; [done|]. split; [lia|congruence].
Qed.

(** Once every terminal is done, each sold or was refused for want of
    stock, and one was refused only when nothing was left. *)
Lemma contagem_final q ts :
  Forall (estado_ok q) ts ->
  forallb terminou ts = true ->
  contar vendeu ts + contar sem_estoque ts = Z.of_nat (length ts) /\
  (0 < contar sem_estoque ts -> q = 0).
Proof.
  induction 1 as [|[o e] ts [_ He] _ IH]; intros Ht; [by simpl; split; [|lia]|].
  simpl in Ht. apply andb_true_iff in Ht as [Ht Hts]. destruct (IH Hts) as [IH1 IH2].
  rewrite !contar_cons. simpl length.
  destruct e as [| | |t]; try done. simpl in He.
  destruct He as [->|[Hs ->]].
  - simpl. split; [lia|]. intros. apply IH2. lia.
  - rewrite Hs. assert (vendeu (o, Terminado t) = false) as ->.
    { unfold sem_estoque in Hs. simpl in Hs. by destruct t. }
    split; [lia|done].
Qed.

(** ** Every terminal finishes *)

Lemma fase_passo o e db : (fase (passo o e db).1 >= Nat.min 3 (S (fase e)))%nat.
Proof.
  destruct e as [|lista|d|t]; simpl; try lia.
  - repeat case_match; simpl; lia.
  - repeat case_match; simpl; lia.
Qed.

Lemma fase_passo_em j i ts db :
  (fase_de i (passo_em j ts db).1
   >= Nat.min 3 (fase_de i ts + (if decide (j = i) then 1 else 0)))%nat.
Proof.
  unfold fase_de. revert j i. induction ts as [|[o e] ts IH]; intros j i.
  { cbn [passo_em fst]. rewrite lookup_nil. cbn [from_option]. lia. }
  destruct j as [|j]; cbn [passo_em].
  - pose proof (fase_passo o e db) as H.
    destruct (passo o e db) as [e' db'] eqn:Hp. cbn [fst] in *.
    rewrite !lookup_cons. destruct i as [|i]; cbn [from_option snd].
    + rewrite decide_True by done. lia.
    + rewrite decide_False by done. lia.
  - specialize (IH j). destruct (passo_em j ts db) as [ts' db'] eqn:Hp.
    cbn [fst] in *. rewrite !lookup_cons. destruct i as [|i]; cbn [from_option snd].
    + rewrite decide_False by done. lia.
    + specialize (IH i). destruct (decide (j = i)) as [->|Hji].
      * by rewrite decide_True.
      * by rewrite decide_False by congruence.
Qed.

Lemma fase_agenda sched i ts db :
  (fase_de i (agenda sched ts db).1 >= Nat.min 3 (fase_de i ts + vezes i sched))%nat.
Proof.
  revert ts db. induction sched as [|j sched IH]; intros ts db.
  { cbn -[Nat.min]. lia. }
  cbn [agenda].
  pose proof (fase_passo_em j i ts db) as H1.
  destruct (passo_em j ts db) as [ts1 db1]. cbn [fst] in H1.
  specialize (IH ts1 db1). unfold vezes in *. rewrite filter_cons.
  destruct (decide (j = i)); cbn [length] in *; lia.
Qed.

Lemma terminou_fase ts :
  (forall i, (i < length ts)%nat -> fase_de i ts = 3%nat) -> forallb terminou ts = true.
Proof.
  induction ts as [|[o e] ts IH]; intros H; [done|]. simpl.
  apply andb_true_iff. split.
  - specialize (H 0%nat ltac:(simpl; lia)). unfold fase_de in H. simpl in H.
    by destruct e.
  - apply IH. intros i Hi. apply (H (S i)). simpl. lia.
Qed.
End Concorrencia.


(** ** The pages and the statements *)

(** The two steps of a terminal after its list is loaded, taken with
    nothing in between, are the page's [handleSubmit]. *)
Lemma passos_do_terminal_handleSubmit o lista db :
  let r := Vendas.handleSubmit (Terminais.uid o) (Terminais.profile_id o) lista
             (Terminais.data o) db in
  let s1 := Terminais.passo o (Terminais.Pronto lista) db in
  Terminais.passo o s1.1 s1.2 = (Terminais.Terminado r.1, r.2).
Proof.
  unfold Vendas.handleSubmit. simpl.
  destruct (Vendas.produto_id (Terminais.data o)) as [pid|]; [|done].
  destruct (Vendas.quantidade (Terminais.data o)) as [q|]; [|done].
  destruct (Vendas.preco_unitario (Terminais.data o)) as [preco|]; [|done].
  destruct (negb (Vendas.vendaSchema (Terminais.data o))); [done|].
  destruct (lista !! pid) as [produto|]; [|done].
  destruct (Produto.quantidade produto <? q); [done|]. simpl.
  by destruct (executar _ db) as [[e|row] db1].
Qed.

(** X8. The purchases page never sends a purchase without a supplier: the
    handler puts [null] in [fornecedor_id] for an empty selection and the
    schema, whose field is [optional], takes [undefined] but not [null]. *)
Lemma compras_pagina_exige_fornecedor uid profile_id data db :
  Compras.fornecedor_id data = None ->
  Compras.handleSubmit uid profile_id data db = (toast_error_zod, db).
Proof.
  intros Hf. unfold Compras.handleSubmit, Compras.compraSchema. rewrite Hf.
  destruct (Compras.produto_id data), (Compras.quantidade data),
    (Compras.preco_unitario data); done.
Qed.

(** * The claims *)

(** C1. A sale of more than the stock on hand is refused without any
    change. Whatever the request, the insert into [vendas] fails and the
    database is what it was: same quantity, no row added. For a request
    whose values fit their columns (quantity an [INTEGER], price and profit
    [DECIMAL(10,2)]) the failure is the violation of
    [CHECK (quantidade >= 0)] on [produtos], raised by the [UPDATE] of the
    trigger. The sales page, whatever product list it holds, shows an error and
    leaves the database alone: its own "Estoque insuficiente" when its list
    shows too little, the database's check violation when its list is out
    of date. *)
Theorem venda_acima_do_estoque_rejeitada uid d db i p :
  Venda.produto_id d = Some i ->
  produtos db !! i = Some p ->
  Produto.quantidade p < Venda.quantidade d ->
  (exists e, executar (insert_vendas uid d) db = (inl e, db)) /\
  (0 <= Produto.quantidade p ->
   int4_ok (Venda.quantidade d) = true ->
   decimal_10_2_ok (Venda.preco_unitario d) = true ->
   decimal_10_2_ok
     ((Venda.preco_unitario d - Produto.preco_compra p) * Venda.quantidade d) = true ->
   executar (insert_vendas uid d) db =
     (inl (check_violation "produtos_quantidade_check"), db) /\
   forall produtos_da_pagina,
     0 <= Venda.preco_unitario d ->
     let r := Vendas.handleSubmit uid (Venda.user_id d) produtos_da_pagina
                (Vendas.mk (Some i) (Some (Venda.quantidade d))
                   (Some (Venda.preco_unitario d)) (Venda.observacoes d)) db in
     r.2 = db /\
     (r.1 = toast_error "Estoque insuficiente para esta venda" \/
      r.1 = toast_error_pg "Erro ao registrar venda: "
              (check_violation "produtos_quantidade_check"))).
Proof.
  intros Hi Hp Hq. split.
  - destruct (insert_vendas_acima_do_estoque_inl uid d db i p) as [e He]; try done.
    exists e. by apply executar_inl.
  - intros Hqp Hq4 Hpr Hl.
    assert (He : executar (insert_vendas uid d) db =
                 (inl (check_violation "produtos_quantidade_check"), db)).
    { apply executar_inl. split; [|done].
      by apply (insert_vendas_sem_estoque uid d db i p). }
    split; [done|]. intros cache Hpr0 r. subst r. unfold Vendas.handleSubmit. simpl.
    assert (Hz : Vendas.vendaSchema
                   (Vendas.mk (Some i) (Some (Venda.quantidade d))
                      (Some (Venda.preco_unitario d)) (Venda.observacoes d)) = true).
    { unfold Vendas.vendaSchema. simpl. apply andb_true_iff. split; lia. }
    rewrite Hz. simpl.
    destruct (cache !! i) as [pc|]; [|by auto].
    destruct (Produto.quantidade pc <? Venda.quantidade d); [by auto|].
    replace (Venda.mk (Some i) (Venda.quantidade d) (Venda.preco_unitario d)
               (Venda.user_id d) (Venda.observacoes d)) with d
      by (destruct d; simpl in *; by subst).
    rewrite He. simpl. auto.
Qed.

Lemma venda_acima_do_estoque_rejeitada_exemplo :
  executar (insert_vendas (Some "u2") (Venda.mk (Some "p1") 100 2000 "u2" None)) db_exemplo
  = (inl (check_violation "produtos_quantidade_check"), db_exemplo).
Proof.
  refine (proj1 (proj2 (venda_acima_do_estoque_rejeitada (Some "u2")
            (Venda.mk (Some "p1") 100 2000 "u2" None) db_exemplo "p1" dipirona
            _ _ _) _ _ _ _)); simpl; try reflexivity; try lia.
Defined.

(** C5. A sale or a purchase of quantity 0 is refused, never dropped in
    silence; a sale of exactly the stock on hand goes through and leaves 0.
    No insert with quantity 0 commits, whatever else it holds, and both
    pages stop a form with quantity 0 at their schema ([min(1)]). From an
    authorised user, at a price that fits its column, the database answers
    such an insert with the violation of [CHECK (quantidade > 0)] of the
    table. A sale of all the stock of a product, its total and profit
    fitting their columns, commits with its row added, and the product is
    left with exactly 0; the sales page, its list up to date, lets it
    through (its test is [produto.quantidade < data.quantidade]). *)
Theorem quantidade_zero_e_estoque_exato db :
  (forall uid dv, Venda.quantidade dv = 0 ->
     exists e, executar (insert_vendas uid dv) db = (inl e, db)) /\
  (forall uid dc, Compra.quantidade dc = 0 ->
     exists e, executar (insert_compras uid dc) db = (inl e, db)) /\
  (forall uid profile_id lista data, Vendas.quantidade data = Some 0 ->
     Vendas.handleSubmit uid profile_id lista data db = (toast_error_zod, db)) /\
  (forall uid profile_id data, Compras.quantidade data = Some 0 ->
     Compras.handleSubmit uid profile_id data db = (toast_error_zod, db)) /\
  (forall uid user i p preco forn obs,
     uid = Some user ->
     is_Some (profiles db !! user) ->
     produtos db !! i = Some p ->
     0 <= Produto.quantidade p <= 2147483647 ->
     0 <= preco <= 9999999999 ->
     executar (insert_vendas uid (Venda.mk (Some i) 0 preco user obs)) db
       = (inl (check_violation "vendas_quantidade_check"), db) /\
     executar (insert_compras uid (Compra.mk forn (Some i) 0 preco user obs)) db
       = (inl (check_violation "compras_quantidade_check"), db) /\
     (0 < Produto.quantidade p ->
      Produto.quantidade p * preco <= 9999999999 ->
      decimal_10_2_ok ((preco - Produto.preco_compra p) * Produto.quantidade p) = true ->
      exists row db1,
        executar (insert_vendas uid (Venda.mk (Some i) (Produto.quantidade p) preco user obs))
          db = (inr row, db1) /\
        estoque i db1 = Some 0 /\
        vendas db1 = vendas db ++ [row] /\
        Vendas.handleSubmit uid user (Vendas.loadProdutos uid db)
          (Vendas.mk (Some i) (Some (Produto.quantidade p)) (Some preco) obs) db
          = (toast_success "Venda registrada com sucesso!", db1))).
Proof.
  split_and!.
  - intros uid dv Hq. destruct (insert_vendas uid dv db) as [e|[row db1]] eqn:H.
    + exists e. by apply executar_inl.
    + apply insert_vendas_inr in H as (_ & _ & _ & H & _). lia.
  - intros uid dc Hq. destruct (insert_compras uid dc db) as [e|[row db1]] eqn:H.
    + exists e. by apply executar_inl.
    + apply insert_compras_inr in H as (_ & _ & _ & H & _). lia.
  - intros uid profile_id lista data Hq.
    unfold Vendas.handleSubmit, Vendas.vendaSchema. rewrite Hq.
    by destruct (Vendas.produto_id data), (Vendas.preco_unitario data).
  - intros uid profile_id data Hq.
    unfold Compras.handleSubmit, Compras.compraSchema. rewrite Hq.
    destruct (Compras.produto_id data), (Compras.preco_unitario data); try done.
    simpl. by rewrite andb_false_r.
  - intros uid user i p preco forn obs Hu Hprof Hp Hqp Hpr. split_and!.
    + apply executar_inl. split; [|done].
      by apply (insert_vendas_quantidade_zero uid _ db i p).
    + apply executar_inl. split; [|done]. by apply insert_compras_quantidade_zero.
    + intros Hq Ht Hl.
      set (d := Venda.mk (Some i) (Produto.quantidade p) preco user obs).
      pose proof (insert_vendas_ok uid d db i p) as H. simpl in H.
      specialize (H Hu Hprof eq_refl Hp Hqp ltac:(lia) ltac:(lia) Ht Hl).
      eexists _, _. split; [apply executar_inr; exact H|].
      split; [|split; [done|]].
      * unfold estoque. simpl. rewrite (estoque_apos_venda d db i p); [|done..].
        simpl. f_equal. lia.
      * unfold Vendas.handleSubmit, Vendas.vendaSchema. simpl.
        replace (1 <=? Produto.quantidade p) with true by (symmetry; lia).
        replace (0 <=? preco) with true by (symmetry; lia). simpl.
        unfold Vendas.loadProdutos. rewrite bool_decide_eq_true_2 by (rewrite Hu; eauto).
        rewrite (map_lookup_filter_Some_2 _ _ i p); [|done|simpl; lia].
        rewrite Z.ltb_irrefl. fold d.
        apply executar_inr in H. by rewrite H.
Qed.

Lemma quantidade_zero_e_estoque_exato_exemplo :
  executar (insert_vendas (Some "u2") (Venda.mk (Some "p1") 0 2000 "u2" None)) db_exemplo
    = (inl (check_violation "vendas_quantidade_check"), db_exemplo) /\
  executar (insert_compras (Some "u2") (Compra.mk None (Some "p1") 0 1200 "u2" None)) db_exemplo
    = (inl (check_violation "compras_quantidade_check"), db_exemplo) /\
  exists row db1,
    executar (insert_vendas (Some "u2") (Venda.mk (Some "p1") 5 2000 "u2" None)) db_exemplo
      = (inr row, db1) /\ estoque "p1" db1 = Some 0.
Proof.
  assert (Hp : produtos db_exemplo !! "p1" = Some dipirona) by reflexivity.
  assert (Hu : is_Some (profiles db_exemplo !! "u2")) by (by exists vendedor).
  pose proof (proj2 (proj2 (proj2 (proj2 (quantidade_zero_e_estoque_exato db_exemplo)))))
    as H.
  split; [|split].
  - refine (proj1 (H (Some "u2") "u2" "p1" dipirona 2000 None None eq_refl Hu Hp _ _));
      simpl; lia.
  - refine (proj1 (proj2 (H (Some "u2") "u2" "p1" dipirona 1200 None None eq_refl Hu Hp _ _)));
      simpl; lia.
  - destruct (proj2 (proj2 (H (Some "u2") "u2" "p1" dipirona 2000 None None eq_refl Hu Hp
                              ltac:(simpl; lia) ltac:(lia)))
                ltac:(simpl; lia) ltac:(simpl; lia) eq_refl) as (row & db1 & H1 & H2 & _).
    exists row, db1. split; [exact H1|exact H2].
Defined.

(** C6. A committed purchase adds exactly its quantity to the stock of the
    product it names and to no other, its stored row carries
    [total = quantidade * preco_unitario] and is added at the end of
    [compras]; and a purchase that names no supplier is accepted: from an
    authorised user, for an existing product, with a positive quantity and
    a price that is not negative, all within their columns, the insert
    with a null [fornecedor_id] commits. *)
Theorem compra_registrada db :
  (forall uid d row db1,
     executar (insert_compras uid d) db = (inr row, db1) ->
     Compra.dados row = d /\
     Compra.total row = Compra.quantidade d * Compra.preco_unitario d /\
     compras db1 = compras db ++ [row] /\
     (forall i, Compra.produto_id d = Some i ->
        exists p, produtos db !! i = Some p /\
          produtos db1 !! i =
            Some (Produto.set_quantidade (Produto.quantidade p + Compra.quantidade d) p)) /\
     (forall j, Compra.produto_id d <> Some j -> produtos db1 !! j = produtos db !! j)) /\
  (forall user i p q preco obs,
     is_Some (profiles db !! user) ->
     produtos db !! i = Some p ->
     0 <= Produto.quantidade p ->
     Produto.quantidade p + q <= 2147483647 ->
     0 < q ->
     0 <= preco ->
     q * preco <= 9999999999 ->
     exists row db1,
       executar (insert_compras (Some user) (Compra.mk None (Some i) q preco user obs)) db
         = (inr row, db1) /\
       Compra.fornecedor_id (Compra.dados row) = None /\
       estoque i db1 = Some (Produto.quantidade p + q)).
Proof.
  split.
  - intros uid d row db1 H. apply executar_inr, insert_compras_inr in H
      as (_ & _ & _ & _ & -> & -> & Hfk & _).
    split_and!; try done.
    + intros i Hi. destruct (Hfk i Hi) as [p Hp]. exists p. split; [done|].
      simpl. by apply estoque_apos_compra.
    + intros j Hj. simpl. unfold produtos_apos_compra.
      destruct (Compra.produto_id d) as [i|]; [|done].
      destruct (produtos db !! i); [|done].
      apply lookup_insert_ne. congruence.
  - intros user i p q preco obs Hprof Hp Hp0 Hpq Hq Hpr Ht.
    set (d := Compra.mk None (Some i) q preco user obs).
    pose proof (insert_compras_ok (Some user) d db) as H. simpl in H.
    eexists _, _. split; [apply executar_inr, H|]; try done.
    + apply bool_decide_eq_true, elem_of_dom. eauto.
    + intros i' p' [= <-] Hp'. rewrite Hp in Hp'. injection Hp' as <-. lia.
    + lia.
    + split; [done|]. unfold estoque. simpl.
      by rewrite (estoque_apos_compra d db i p).
Qed.

Lemma compra_registrada_exemplo :
  exists row db1,
    executar (insert_compras (Some "u2") (Compra.mk None (Some "p1") 3 1000 "u2" None))
      db_exemplo = (inr row, db1) /\
    Compra.fornecedor_id (Compra.dados row) = None /\
    estoque "p1" db1 = Some 8.
Proof.
  refine (proj2 (compra_registrada db_exemplo) "u2" "p1" dipirona 3 1000 None
            _ _ _ _ _ _ _); simpl; try reflexivity; try lia.
  by exists vendedor.
Defined.

(** C10. A purchase whose [produto_id] is null is accepted and stored, and
    no product changes: from an authorised user, with a supplier that is
    null or exists, a positive quantity and a price that is not negative,
    within their columns, the insert commits, its row is added to
    [compras] with a null product, and [produtos] is what it was. The
    foreign key accepts the null and the [UPDATE] of the trigger matches
    no row. *)
Theorem compra_sem_produto uid d db :
  Compra.produto_id d = None ->
  uid = Some (Compra.user_id d) ->
  is_Some (profiles db !! Compra.user_id d) ->
  fk_ok (Compra.fornecedor_id d) (fornecedores db) = true ->
  0 < Compra.quantidade d <= 2147483647 ->
  0 <= Compra.preco_unitario d ->
  Compra.quantidade d * Compra.preco_unitario d <= 9999999999 ->
  exists row db1,
    executar (insert_compras uid d) db = (inr row, db1) /\
    Compra.produto_id (Compra.dados row) = None /\
    compras db1 = compras db ++ [row] /\
    produtos db1 = produtos db /\
    vendas db1 = vendas db.
Proof.
  intros Hi Hu Hprof Hforn Hq Hpr Ht.
  pose proof (insert_compras_ok uid d db Hu Hprof Hforn) as H. rewrite Hi in H.
  specialize (H eq_refl ltac:(by intros ? ? [=]) Hq Hpr Ht). simpl in H.
  eexists _, _. split; [apply executar_inr, H|].
  split_and!; try done. simpl. unfold produtos_apos_compra. by rewrite Hi.
Qed.

Lemma compra_sem_produto_exemplo :
  exists row db1,
    executar (insert_compras (Some "u2") (Compra.mk (Some "f1") None 3 1000 "u2" None))
      db_exemplo = (inr row, db1) /\
    Compra.produto_id (Compra.dados row) = None /\
    compras db1 = compras db_exemplo ++ [row] /\
    produtos db1 = produtos db_exemplo /\
    vendas db1 = vendas db_exemplo.
Proof.
  refine (compra_sem_produto (Some "u2") (Compra.mk (Some "f1") None 3 1000 "u2" None)
            db_exemplo _ _ _ _ _ _ _); simpl; try reflexivity; try lia.
  by exists vendedor.
Defined.

(** C3. A committed sale of [q] units at price [p] of a product whose
    purchase cost is [c] when the insert runs is stored with
    [total = q * p] and [lucro = (p - c) * q]. The profit is a stored
    column, assigned by the [BEFORE INSERT] trigger and by nothing else:
    an update of the product, whatever cost it writes, leaves [vendas] as
    it is, and after any requests that delete no product the rows stored
    so far, this one included, are still the first rows of [vendas],
    unchanged. *)
Theorem lucro_fixado_no_commit uid d db row db1 i p :
  executar (insert_vendas uid d) db = (inr row, db1) ->
  Venda.produto_id d = Some i ->
  produtos db !! i = Some p ->
  Venda.total row = Venda.quantidade d * Venda.preco_unitario d /\
  Venda.lucro row =
    Some ((Venda.preco_unitario d - Produto.preco_compra p) * Venda.quantidade d) /\
  vendas db1 = vendas db ++ [row] /\
  (forall uid' d', vendas (pedido (uid', UpdateProdutos i d') db1) = vendas db1) /\
  (forall rs, forallb (fun r => negb (exclusao r)) rs = true ->
     vendas db ++ [row] `prefix_of` vendas (pedidos rs db1)).
Proof.
  intros H Hi Hp. apply executar_inr, insert_vendas_inr in H
    as (_ & _ & _ & _ & -> & -> & _).
  split_and!; try done.
  - simpl. unfold lucro_da_venda. rewrite Hi. simpl. by rewrite Hp.
  - intros uid' d'. unfold pedido. simpl.
    destruct (executar (update_produtos uid' i d') _) as [[e|u] db2] eqn:H.
    + by apply executar_rollback in H as ->.
    + apply executar_inr, update_produtos_inr in H as (-> & _).
      by destruct (_ && _).
  - intros rs Hrs. by apply pedidos_sem_exclusao.
Qed.

Lemma lucro_fixado_no_commit_exemplo :
  exists row db1,
    executar (insert_vendas (Some "u2") (Venda.mk (Some "p1") 5 2000 "u2" None)) db_exemplo
      = (inr row, db1) /\
    Venda.total row = 10000 /\
    Venda.lucro row = Some 4000 /\
    Venda.lucro <$>
      vendas (pedido (Some "u1", UpdateProdutos "p1"
                        (Produto.mk "Dipirona" "D-1" (Some "c1") 1500 2000 0 (Some 10) 20000 None))
                db1) = [Some 4000].
Proof.
  destruct (executar (insert_vendas (Some "u2") (Venda.mk (Some "p1") 5 2000 "u2" None))
              db_exemplo) as [[e|row] db1] eqn:H.
  { vm_compute in H. discriminate. }
  exists row, db1. split; [reflexivity|].
  destruct (lucro_fixado_no_commit _ _ _ _ _ "p1" dipirona H eq_refl eq_refl)
    as (Ht & Hl & Hv & Hu & _).
  split; [exact Ht|]. split; [exact Hl|].
  rewrite Hu, Hv. simpl. by rewrite Hl.
Defined.

(** C2. Take a product with quantity 0 that no purchase and no sale names
    yet, and any sequence of requests that record purchases and sales, of
    this product or of others, committed or refused. After each of them the
    product's quantity is the sum of the quantities of its purchases in
    [compras] less the sum of the quantities of its sales in [vendas], and
    it is not negative. *)
Theorem estoque_e_soma_dos_lancamentos p prod db rs n :
  produtos db !! p = Some prod ->
  Produto.quantidade prod = 0 ->
  Forall (fun r => Compra.produto_id (Compra.dados r) <> Some p) (compras db) ->
  Forall (fun r => Venda.produto_id (Venda.dados r) <> Some p) (vendas db) ->
  Forall (fun r => lancamento r = true) rs ->
  let db' := pedidos (take n rs) db in
  exists q,
    estoque p db' = Some q /\
    q = total_comprado p db' - total_vendido p db' /\
    0 <= q.
Proof.
  intros Hp Hq Hc Hv Hrs db'.
  assert (Hq0 : estoque p db = Some 0) by (unfold estoque; by rewrite Hp, <- Hq).
  assert (Hs0 : saldo p db = Some 0).
  { unfold saldo. rewrite Hq0. simpl. f_equal.
    unfold total_comprado, total_vendido. rewrite !soma_zero; [done|..].
    - eapply Forall_impl; [exact Hv|]. intros r Hr. simpl. by rewrite decide_False.
    - eapply Forall_impl; [exact Hc|]. intros r Hr. simpl. by rewrite decide_False. }
  destruct (pedidos_lancamento_saldo (take n rs) db p 0) as (q & Hq' & Hq'0 & Hs);
    [by apply Forall_take|done|done|].
  exists q. fold db' in Hq', Hs. split; [done|]. split; [|done].
  rewrite Hs0 in Hs. unfold saldo in Hs. rewrite Hq' in Hs. simpl in Hs.
  injection Hs as Hs. lia.
Qed.

Lemma estoque_e_soma_dos_lancamentos_exemplo :
  let db0 := set_produtos {[ "p1" := Produto.set_quantidade 0 dipirona ]} db_exemplo in
  let rs := [ (Some "u2", InsertCompras (Compra.mk (Some "f1") (Some "p1") 7 1200 "u2" None));
              (Some "u2", InsertVendas (Venda.mk (Some "p1") 3 2000 "u2" None));
              (Some "u2", InsertVendas (Venda.mk (Some "p1") 9 2000 "u2" None)) ] in
  estoque "p1" (pedidos rs db0) = Some 4 /\
  exists q,
    estoque "p1" (pedidos (take 3 rs) db0) = Some q /\
    q = total_comprado "p1" (pedidos (take 3 rs) db0)
        - total_vendido "p1" (pedidos (take 3 rs) db0) /\
    0 <= q.
Proof.
  split; [reflexivity|].
  apply (estoque_e_soma_dos_lancamentos "p1" (Produto.set_quantidade 0 dipirona)).
  - reflexivity.
  - reflexivity.
  - constructor.
  - constructor.
  - repeat constructor.
Defined.

(** C7, as the schema has it. No request rewrites a stored purchase or
    sale, and no request but the deletion of a product removes one: an
    [UPDATE] or [DELETE] of a client on [compras] or [vendas] finds no row
    (no policy admits it), and every other request leaves the rows stored
    so far as the first rows of each table, in their order. Deleting a
    product, which an admin may do, deletes with it every purchase and
    every sale that names it ([ON DELETE CASCADE]) and leaves the other
    rows as they were. *)
Theorem eventos_imutaveis_salvo_exclusao_do_produto r db :
  (exclusao r = false ->
     compras db `prefix_of` compras (pedido r db) /\
     vendas db `prefix_of` vendas (pedido r db)) /\
  (forall id, r.2 = DeleteProdutos id ->
     let apaga := is_admin r.1 db && bool_decide (is_Some (produtos db !! id)) in
     compras (pedido r db) =
       (if apaga
        then filter (fun c => Compra.produto_id (Compra.dados c) <> Some id) (compras db)
        else compras db) /\
     vendas (pedido r db) =
       (if apaga
        then filter (fun v => Venda.produto_id (Venda.dados v) <> Some id) (vendas db)
        else vendas db)).
Proof.
  split; [apply pedido_sem_exclusao|].
  intros id Hr apaga. destruct r as [uid s]. simpl in Hr. subst s.
  unfold pedido, executar. simpl. rewrite delete_produtos_eq. simpl.
  subst apaga. simpl. by destruct (_ && _).
Qed.

Lemma eventos_imutaveis_salvo_exclusao_do_produto_exemplo :
  vendas db_com_venda
    `prefix_of` vendas (pedido (Some "u2", DeleteVendas (fun _ => true)) db_com_venda) /\
  vendas (pedido (Some "u1", DeleteProdutos "p1") db_com_venda) =
    filter (fun v => Venda.produto_id (Venda.dados v) <> Some "p1") (vendas db_com_venda).
Proof.
  split.
  - exact (proj2 (proj1 (eventos_imutaveis_salvo_exclusao_do_produto
                           (Some "u2", DeleteVendas (fun _ => true)) db_com_venda) eq_refl)).
  - exact (proj2 (proj2 (eventos_imutaveis_salvo_exclusao_do_produto
                           (Some "u1", DeleteProdutos "p1") db_com_venda) "p1" eq_refl)).
Defined.

(** C7 as stated fails: the sale stored in [db_com_venda] is gone once the
    admin deletes product [p1] on the products page. *)
Lemma excluir_produto_apaga_venda :
  length (vendas db_com_venda) = 1%nat /\
  Produtos.handleDelete (Some "u1") (Some admin) true "p1" db_com_venda
    = (Some (toast_success "Produto excluído!"),
       pedido (Some "u1", DeleteProdutos "p1") db_com_venda) /\
  vendas (pedido (Some "u1", DeleteProdutos "p1") db_com_venda) = [] /\
  ~ vendas db_com_venda
      `prefix_of` vendas (pedido (Some "u1", DeleteProdutos "p1") db_com_venda).
Proof.
  assert (Hv : vendas (pedido (Some "u1", DeleteProdutos "p1") db_com_venda) = [])
    by (vm_compute; reflexivity).
  split_and!.
  - vm_compute. reflexivity.
  - vm_compute. reflexivity.
  - exact Hv.
  - rewrite Hv. intros Hpre. apply prefix_nil_inv in Hpre.
    vm_compute in Hpre. discriminate.
Qed.

Lemma update_produtos_outros uid id d db u db1 j :
  update_produtos uid id d db = inr (u, db1) ->
  j <> id ->
  produtos db1 !! j = produtos db !! j.
Proof.
  intros H Hj. apply update_produtos_inr in H as (-> & _).
  destruct (_ && _); simpl; [|done]. by rewrite lookup_insert_ne.
Qed.

(** C8, as the products page has it. The quantity is one of the fields of
    the product form, and saving an edited product writes it with the
    rest: when the update of an admin reaches an existing product, the
    product's quantity becomes the quantity of the form (checked not
    negative), so it is unchanged exactly when the form carries the stored
    value, as it does when the dialog is opened and the field left alone.
    The update touches no other product and no purchase or sale. *)
Theorem editar_produto_grava_quantidade uid role id novo data db t db1 q0 :
  Produtos.handleSubmit uid role (Some id) novo data db = (t, db1) ->
  t = toast_success "Produto atualizado!" ->
  is_admin uid db = true ->
  estoque id db = Some q0 ->
  exists q,
    Produtos.quantidade data = Some q /\ 0 <= q /\
    estoque id db1 = Some q /\
    (estoque id db1 = estoque id db <-> q = q0) /\
    (forall j, j <> id -> produtos db1 !! j = produtos db !! j) /\
    compras db1 = compras db /\ vendas db1 = vendas db.
Proof.
  unfold Produtos.handleSubmit. intros H Ht Hadm Hq0.
  destruct (negb (Produtos.isAdmin role)); [injection H as <- <-; by subst|].
  destruct (Produtos.preco_compra data) as [pc|]; [|injection H as <- <-; by subst].
  destruct (Produtos.preco_venda data) as [pv|]; [|injection H as <- <-; by subst].
  destruct (Produtos.quantidade data) as [q|] eqn:Hq; [|injection H as <- <-; by subst].
  destruct (Produtos.quantidade_minima data) as [qm|]; [|injection H as <- <-; by subst].
  destruct (negb (Produtos.produtoSchema data)) eqn:Hz; [injection H as <- <-; by subst|].
  destruct (executar _ db) as [[e|u] db2] eqn:Hx; injection H as <- <-; [by subst|].
  apply executar_inr in Hx. pose proof (fun j => update_produtos_outros _ _ _ _ _ _ j Hx) as Hout.
  apply update_produtos_inr in Hx as (-> & Hq').
  unfold estoque in Hq0. destruct (produtos db !! id) as [p|] eqn:Hp; [|done].
  rewrite Hadm in *. simpl in *. injection Hq0 as <-.
  exists q. split; [done|]. split; [by apply Hq'; eauto|].
  unfold estoque. simpl. rewrite lookup_insert_eq, Hp. simpl.
  split; [done|]. split; [|done].
  split; [by intros [= ->]|by intros ->].
Qed.

Lemma editar_produto_grava_quantidade_exemplo :
  exists q,
    Produtos.quantidade (form_dipirona 7) = Some q /\ 0 <= q /\
    estoque "p1"
      (Produtos.handleSubmit (Some "u1") (Some admin) (Some "p1") "p2" (form_dipirona 7)
         db_exemplo).2 = Some q /\
    q = 7.
Proof.
  destruct (editar_produto_grava_quantidade (Some "u1") (Some admin) "p1" "p2"
              (form_dipirona 7) db_exemplo _ _ 5 eq_refl eq_refl eq_refl eq_refl)
    as (q & Hq & Hq0 & He & _).
  exists q. split; [exact Hq|]. split; [exact Hq0|]. split; [exact He|].
  simpl in Hq. by injection Hq as <-.
Defined.

(** C8 as stated fails: the admin edits [p1] on the products page and
    types 7 in the quantity field; the stock goes from 5 to 7 with no
    purchase and no sale recorded. *)
Lemma editar_produto_muda_quantidade :
  estoque "p1" db_exemplo = Some 5 /\
  Produtos.handleSubmit (Some "u1") (Some admin) (Some "p1") "p2" (form_dipirona 7) db_exemplo
    = (toast_success "Produto atualizado!",
       pedido (Some "u1", UpdateProdutos "p1"
                 (Produto.mk "Dipirona" "D-1" (Some "c1") 1200 2000 7 (Some 10) 20000 (Some "")))
         db_exemplo) /\
  estoque "p1"
    (Produtos.handleSubmit (Some "u1") (Some admin) (Some "p1") "p2" (form_dipirona 7)
       db_exemplo).2 = Some 7 /\
  compras (Produtos.handleSubmit (Some "u1") (Some admin) (Some "p1") "p2" (form_dipirona 7)
             db_exemplo).2 = [] /\
  vendas (Produtos.handleSubmit (Some "u1") (Some admin) (Some "p1") "p2" (form_dipirona 7)
            db_exemplo).2 = [].
Proof. split_and!; vm_compute; reflexivity. Qed.

Lemma dias_para_vencer validade agora :
  Produtos.ceil_div (validade * Produtos.ms_por_dia - agora) Produtos.ms_por_dia
  = validade - agora / Produtos.ms_por_dia.
Proof.
  unfold Produtos.ceil_div.
  replace (- (validade * Produtos.ms_por_dia - agora))
    with (agora + (- validade) * Produtos.ms_por_dia) by lia.
  rewrite Z.div_add by (unfold Produtos.ms_por_dia; lia). lia.
Qed.

(** C4, as the code has it. The badge of the products page is the
    four-step classification, in its order, for today the UTC day of the
    instant the page reads: low stock first, then expired, then expiring
    within 30 days, then nothing. The view [produtos_com_alertas] has three
    labels and no expired state: it agrees on low stock and on ok, and
    labels [validade_proxima] every other product that expires by today
    plus 30 days, the expired ones included. (Both for a product whose
    minimum is not null.) *)
Theorem classificacao_do_badge_e_da_view p m :
  Produto.quantidade_minima p = Some m ->
  (forall agora,
     estado_do_badge (Produtos.getStatusBadge agora p)
     = Classify (Produto.quantidade p) m (Produto.validade p) (agora / Produtos.ms_por_dia)) /\
  (forall hoje,
     estado_do_status (status_alerta hoje p)
     = Some match Classify (Produto.quantidade p) m (Produto.validade p) hoje with
            | expired => expiring_soon
            | s => s
            end).
Proof.
  intros Hm. split.
  - intros agora. unfold Produtos.getStatusBadge, Classify. cbv zeta.
    rewrite dias_para_vencer, Hm. simpl.
    destruct (Produto.quantidade p <=? m); [done|].
    destruct (Produto.validade p <? agora / Produtos.ms_por_dia) eqn:H1.
    + replace (0 <=? _) with false by (symmetry; lia). rewrite andb_false_r.
      by replace (_ <? 0) with true by (symmetry; lia).
    + replace (0 <=? _) with true by (symmetry; lia). rewrite andb_true_r.
      destruct (Produto.validade p <=? agora / Produtos.ms_por_dia + 30) eqn:H2.
      * by replace (_ <=? 30) with true by (symmetry; lia).
      * replace (_ <=? 30) with false by (symmetry; lia).
        by replace (_ <? 0) with false by (symmetry; lia).
  - intros hoje. unfold status_alerta, Classify. rewrite Hm. simpl.
    destruct (Produto.quantidade p <=? m); [done|].
    destruct (Produto.validade p <? hoje) eqn:H1.
    + by replace (_ <=? hoje + 30) with true by (symmetry; lia).
    + by destruct (Produto.validade p <=? hoje + 30).
Qed.

Lemma classificacao_do_badge_e_da_view_exemplo :
  estado_do_badge
    (Produtos.getStatusBadge (20000 * Produtos.ms_por_dia + 7200000) (produto_validade 20010))
    = expiring_soon /\
  estado_do_badge
    (Produtos.getStatusBadge (20000 * Produtos.ms_por_dia + 7200000) (produto_validade 19999))
    = expired /\
  estado_do_status (status_alerta 20000 (produto_validade 20010)) = Some expiring_soon.
Proof.
  split; [|split].
  - rewrite (proj1 (classificacao_do_badge_e_da_view (produto_validade 20010) 10 eq_refl)).
    reflexivity.
  - rewrite (proj1 (classificacao_do_badge_e_da_view (produto_validade 19999) 10 eq_refl)).
    reflexivity.
  - rewrite (proj2 (classificacao_do_badge_e_da_view (produto_validade 20010) 10 eq_refl)).
    reflexivity.
Defined.

(** C4 as stated fails on the view: a product with stock to spare that
    expired yesterday is expired by the four steps, and the view labels it
    [validade_proxima]. *)
Lemma view_nao_distingue_vencido :
  Classify 50 10 19999 20000 = expired /\
  status_alerta 20000 (produto_validade 19999) = "validade_proxima" /\
  estado_do_status (status_alerta 20000 (produto_validade 19999))
    <> Some (Classify 50 10 19999 20000).
Proof. split_and!; [reflexivity|reflexivity|discriminate]. Qed.

(** C9. Any number of operators have the sales page open, each about to
    sell one unit of the same product, of which [Q] are in stock. Their
    terminals move in any order, step by step: loading the product list,
    validating the form against it and sending the insert, the database
    running the insert. Once all are done, exactly [min N Q] sold, the
    other [N - min N Q] were refused for want of stock (by the page or by
    the check of the database), the stock is [Q - min N Q] and [vendas]
    grew by [min N Q] rows. Every terminal is done as soon as it has moved
    three times. A page may validate against a list read before other
    sales were committed; the [CHECK (quantidade >= 0)] met by the
    trigger's [UPDATE] is what refuses the sale then. *)
Theorem vendas_concorrentes p prod db0 ts0 sched :
  produtos db0 !! p = Some prod ->
  produto_ok prod ->
  Forall (fun oe => Terminais.vende_um p db0 oe.1 /\ oe.2 = Terminais.Montando) ts0 ->
  let N := Z.of_nat (length ts0) in
  let Q := Produto.quantidade prod in
  let fim := Terminais.agenda sched ts0 db0 in
  (forallb Terminais.terminou fim.1 = true ->
     Terminais.contar Terminais.vendeu fim.1 = Z.min N Q /\
     Terminais.contar Terminais.sem_estoque fim.1 = N - Z.min N Q /\
     estoque p fim.2 = Some (Q - Z.min N Q) /\
     Z.of_nat (length (vendas fim.2)) = Z.of_nat (length (vendas db0)) + Z.min N Q) /\
  ((forall i, (i < length ts0)%nat -> (3 <= Terminais.vezes i sched)%nat) ->
     forallb Terminais.terminou fim.1 = true).
Proof.
  intros Hp Hok Hts N Q fim.
  assert (Hts0 : Forall (Terminais.estado_ok p db0 Q) ts0).
  { eapply Forall_impl; [exact Hts|]. intros [o e] [Ho He]. simpl in *. subst e.
    by split. }
  assert (Hdb0 : Terminais.db_ok p prod db0 Q db0).
  { destruct Hok as (_ & _ & Hq). unfold Terminais.db_ok, Q. split_and!; try done; try lia.
    rewrite Hp. f_equal. by destruct prod. }
  assert (Hv0 : Terminais.contar Terminais.vendeu ts0 = 0).
  { apply soma_zero. eapply Forall_impl; [exact Hts|]. intros [o e] [_ He].
    simpl in He. by subst e. }
  destruct (agenda_ok p prod db0 Hok sched ts0 db0 Q Hts0 Hdb0)
    as (q & (Hpq & _ & Hq & Hv) & Hfim & Hs & Hlen).
  fold fim in Hpq, Hq, Hv, Hfim, Hs, Hlen. split.
  - intros Hterm.
    destruct (contagem_final p db0 q fim.1 Hfim Hterm) as [Hc Hz].
    pose proof (contar_faixa Terminais.vendeu fim.1) as Hr1.
    pose proof (contar_faixa Terminais.sem_estoque fim.1) as Hr2.
    rewrite Hlen in Hc, Hr1, Hr2. fold N in Hc, Hr1, Hr2. fold Q in Hq, Hv.
    assert (Hmin : Terminais.contar Terminais.vendeu fim.1 = Z.min N Q).
    { destruct (decide (0 < Terminais.contar Terminais.sem_estoque fim.1)) as [Hpos|Hpos].
      - specialize (Hz Hpos). lia.
      - lia. }
    split; [done|]. split; [lia|]. split; [|lia].
    unfold estoque. rewrite Hpq. simpl. f_equal. lia.
  - intros Hsched. apply terminou_fase. intros i Hi. rewrite Hlen in Hi.
    pose proof (fase_agenda sched i ts0 db0) as Hf. fold fim in Hf.
    specialize (Hsched i Hi).
    assert (Terminais.fase_de i fim.1 <= 3)%nat.
    { unfold Terminais.fase_de. destruct (fim.1 !! i) as [[o e]|]; simpl; [|lia].
      destruct e; simpl; lia. }
    lia.
Qed.

(** Both pages load their list while one unit is left, both let the form
    through, and the database commits the first insert and refuses the
    second. *)
Lemma vendas_concorrentes_exemplo :
  let fim := Terminais.agenda [0; 1; 0; 1; 0; 1]%nat dois_operadores db_ultima_unidade in
  fim.1.*2 =
    [ Terminais.Terminado (toast_success "Venda registrada com sucesso!");
      Terminais.Terminado
        (toast_error_pg "Erro ao registrar venda: "
           (check_violation "produtos_quantidade_check")) ] /\
  Terminais.contar Terminais.vendeu fim.1 = 1 /\
  Terminais.contar Terminais.sem_estoque fim.1 = 1 /\
  estoque "p1" fim.2 = Some 0 /\
  Z.of_nat (length (vendas fim.2)) = 1.
Proof.
  intros fim. split; [vm_compute; reflexivity|].
  refine (proj1 (vendas_concorrentes "p1" (Produto.set_quantidade 1 dipirona)
                   db_ultima_unidade dois_operadores [0; 1; 0; 1; 0; 1]%nat _ _ _) _).
  - reflexivity.
  - unfold produto_ok. simpl. lia.
  - repeat constructor; simpl; try (by eexists); try lia.
  - vm_compute. reflexivity.
Defined.

(** * Further properties *)

(** ** What a committed statement checked *)

Lemma update_produtos_quantidade_faixa f i p db u db1 :
  update_produtos_quantidade f (Some i) db = inr (u, db1) ->
  produtos db !! i = Some p ->
  0 <= f (Produto.quantidade p) <= 2147483647.
Proof.
  intros H Hp. apply update_produtos_quantidade_inr in H. simpl in H.
  rewrite Hp in H. simpl in H. destruct H as (H4 & H0 & _).
  apply int4_ok_true in H4. lia.
Qed.

Lemma insert_vendas_tipos uid d db row db1 :
  insert_vendas uid d db = inr (row, db1) ->
  venda_ok row /\
  (forall i p, Venda.produto_id d = Some i -> produtos db !! i = Some p ->
     0 <= Produto.quantidade p - Venda.quantidade d <= 2147483647).
Proof.
  intros H. pose proof (insert_vendas_inr _ _ _ _ _ H) as (_ & _ & Hpr & Hq & -> & _ & _).
  unfold insert_vendas in H.
  apply tx_bind_inr in H as (? & ? & Ht & H). apply exigir_inr in Ht as [Ht ->].
  apply andb_true_iff in Ht as [Hq4 Hp10].
  apply int4_ok_true in Hq4. apply decimal_10_2_ok_true in Hp10.
  apply tx_bind_inr in H as (l & dbt & Htrig & H).
  cbv zeta in H.
  apply tx_bind_inr in H as (? & ? & Htot & _). apply exigir_inr in Htot as [Htot _].
  apply decimal_10_2_ok_true in Htot.
  unfold atualizar_estoque_venda in Htrig.
  apply tx_bind_inr in Htrig as (? & ? & Hg & Htrig). apply tx_get_inr in Hg as [-> ->].
  cbv zeta in Htrig.
  apply tx_bind_inr in Htrig as (? & ? & Hl & Htrig). apply exigir_inr in Hl as [Hl ->].
  apply tx_bind_inr in Htrig as (? & ? & Hup & _).
  split.
  - unfold venda_ok. simpl. split_and!; try lia.
    unfold lucro_da_venda.
    destruct (Venda.produto_id d ≫= (fun i => produtos db !! i)) as [p|]; simpl in *; [|done].
    by apply decimal_10_2_ok_true in Hl.
  - intros i p Hpid Hp. rewrite Hpid in Hup.
    by apply (update_produtos_quantidade_faixa _ _ p) in Hup.
Qed.

Lemma insert_compras_tipos uid d db row db1 :
  insert_compras uid d db = inr (row, db1) ->
  compra_ok row /\
  (forall i p, Compra.produto_id d = Some i -> produtos db !! i = Some p ->
     0 <= Produto.quantidade p + Compra.quantidade d <= 2147483647).
Proof.
  intros H. pose proof (insert_compras_inr _ _ _ _ _ H) as (_ & _ & Hpr & Hq & -> & _ & _).
  unfold insert_compras in H.
  apply tx_bind_inr in H as (? & ? & Ht & H). apply exigir_inr in Ht as [Ht ->].
  apply andb_true_iff in Ht as [Hq4 Hp10].
  apply int4_ok_true in Hq4. apply decimal_10_2_ok_true in Hp10.
  cbv zeta in H.
  apply tx_bind_inr in H as (? & ? & Htot & H). apply exigir_inr in Htot as [Htot ->].
  apply decimal_10_2_ok_true in Htot.
  do 3 tx_step H. tx_step H. tx_step H. do 3 tx_step H.
  apply tx_bind_inr in H as (? & ? & Hup & _).
  split.
  - unfold compra_ok. simpl. split_and!; lia.
  - intros i p Hpid Hp. unfold atualizar_estoque_compra in Hup. simpl in Hup.
    rewrite Hpid in Hup. by apply (update_produtos_quantidade_faixa _ _ p) in Hup.
Qed.

Lemma produto_tipos_checks d :
  produto_tipos_ok d = true ->
  0 <= Produto.preco_compra d -> 0 <= Produto.preco_venda d -> 0 <= Produto.quantidade d ->
  produto_ok d.
Proof.
  unfold produto_tipos_ok. rewrite !andb_true_iff.
  intros (((Hc & Hv) & Hq) & _) ? ? ?.
  apply decimal_10_2_ok_true in Hc, Hv. apply int4_ok_true in Hq.
  unfold produto_ok. lia.
Qed.

Lemma update_produtos_checks uid id d db u db1 :
  update_produtos uid id d db = inr (u, db1) ->
  is_admin uid db = true -> is_Some (produtos db !! id) ->
  produto_ok d /\
  codigo_livre id (Produto.codigo d) (produtos db) = true /\
  fk_ok (Produto.categoria_id d) (categorias db) = true.
Proof.
  unfold update_produtos. intros H Hadm [p Hp].
  apply tx_bind_inr in H as (? & ? & Ht & H). apply exigir_inr in Ht as [Ht ->].
  tx_step H. rewrite Hadm, Hp in H.
  apply tx_bind_inr in H as (? & ? & Hc & H).
  apply produtos_checks_inr in Hc as (-> & Hc1 & Hc2 & Hc3).
  apply tx_bind_inr in H as (? & ? & Hcod & H). apply exigir_inr in Hcod as [Hcod ->].
  tx_step H. apply exigir_inr in H as [Hfk _].
  split; [by apply produto_tipos_checks|]. done.
Qed.

Lemma insert_produtos_checks uid id d db u db1 :
  insert_produtos uid id d db = inr (u, db1) ->
  produto_ok d /\
  codigo_livre id (Produto.codigo d) (produtos db) = true /\
  fk_ok (Produto.categoria_id d) (categorias db) = true.
Proof.
  unfold insert_produtos. intros H.
  apply tx_bind_inr in H as (? & ? & Ht & H). apply exigir_inr in Ht as [Ht ->].
  tx_step H. tx_step H.
  apply tx_bind_inr in H as (? & ? & Hc & H).
  apply produtos_checks_inr in Hc as (-> & Hc1 & Hc2 & Hc3).
  tx_step H.
  apply tx_bind_inr in H as (? & ? & Hcod & H). apply exigir_inr in Hcod as [Hcod ->].
  tx_step H. apply exigir_inr in H as [Hfk _].
  split; [by apply produto_tipos_checks|]. done.
Qed.

(** ** What a request can do

    A request leaves the database as it was, or is one of five committed
    statements, each with what it checked. *)
Lemma pedido_casos r db :
  pedido r db = db \/
  (exists d row,
     r.2 = InsertCompras d /\ r.1 = Some (Compra.user_id d) /\
     is_Some (profiles db !! Compra.user_id d) /\
     Compra.dados row = d /\ compra_ok row /\
     fk_ok (Compra.fornecedor_id d) (fornecedores db) = true /\
     (forall i, Compra.produto_id d = Some i ->
        exists p, produtos db !! i = Some p /\
          0 <= Produto.quantidade p + Compra.quantidade d <= 2147483647) /\
     pedido r db =
       set_compras (compras db ++ [row]) (set_produtos (produtos_apos_compra d db) db)) \/
  (exists d row,
     r.2 = InsertVendas d /\ r.1 = Some (Venda.user_id d) /\
     is_Some (profiles db !! Venda.user_id d) /\
     Venda.dados row = d /\ venda_ok row /\
     Venda.lucro row = lucro_da_venda d db /\
     (forall i, Venda.produto_id d = Some i ->
        exists p, produtos db !! i = Some p /\
          0 <= Produto.quantidade p - Venda.quantidade d <= 2147483647) /\
     pedido r db =
       set_vendas (vendas db ++ [row]) (set_produtos (produtos_apos_venda d db) db)) \/
  (exists id d,
     r.2 = InsertProdutos id d /\ is_admin r.1 db = true /\ produtos db !! id = None /\
     produto_ok d /\ codigo_livre id (Produto.codigo d) (produtos db) = true /\
     fk_ok (Produto.categoria_id d) (categorias db) = true /\
     pedido r db = set_produtos (<[id := d]> (produtos db)) db) \/
  (exists id d,
     r.2 = UpdateProdutos id d /\ is_admin r.1 db = true /\ is_Some (produtos db !! id) /\
     produto_ok d /\ codigo_livre id (Produto.codigo d) (produtos db) = true /\
     fk_ok (Produto.categoria_id d) (categorias db) = true /\
     pedido r db = set_produtos (<[id := d]> (produtos db)) db) \/
  (exists id,
     r.2 = DeleteProdutos id /\ is_admin r.1 db = true /\ is_Some (produtos db !! id) /\
     pedido r db =
       mkDb (profiles db) (categorias db) (fornecedores db) (delete id (produtos db))
         (filter (fun c => Compra.produto_id (Compra.dados c) <> Some id) (compras db))
         (filter (fun v => Venda.produto_id (Venda.dados v) <> Some id) (vendas db))).
Proof.
  destruct r as [uid s]. unfold pedido. simpl.
  destruct (executar (corpo uid s) db) as [[e|u] db1] eqn:H.
  { apply executar_rollback in H as ->. by left. }
  apply executar_inr in H. simpl.
  destruct s as [d|d|onde set|onde|onde set|onde|id d|id d|id]; simpl in H.
  - apply tx_bind_inr in H as (row & ? & H & Hr). apply tx_ret_inr in Hr as [_ ->].
    pose proof (insert_compras_tipos _ _ _ _ _ H) as [Hok Hfaixa].
    apply insert_compras_inr in H as (Hu & Hprof & _ & _ & Hrow & -> & Hfk & Hforn).
    right; left. exists d, row. split_and!; try done.
    + by subst row.
    + destruct (Compra.fornecedor_id d) as [f|]; [|done].
      simpl. apply bool_decide_eq_true. by apply Hforn.
    + intros i Hi. destruct (Hfk i Hi) as [p Hp]. exists p. split; [done|]. by eapply Hfaixa.
  - apply tx_bind_inr in H as (row & ? & H & Hr). apply tx_ret_inr in Hr as [_ ->].
    pose proof (insert_vendas_tipos _ _ _ _ _ H) as [Hok Hfaixa].
    apply insert_vendas_inr in H as (Hu & Hprof & _ & _ & Hrow & -> & Hfk).
    do 2 right; left. exists d, row. split_and!; try done.
    + by subst row.
    + by subst row.
    + intros i Hi. destruct (Hfk i Hi) as (p & Hp & _). exists p. split; [done|].
      by eapply Hfaixa.
  - apply tx_modify_inr in H as ->. unfold rls_compras_update.
    rewrite update_sem_politica. left. by destruct db.
  - apply tx_modify_inr in H as ->. unfold rls_compras_delete.
    rewrite delete_sem_politica. left. by destruct db.
  - apply tx_modify_inr in H as ->. unfold rls_vendas_update.
    rewrite update_sem_politica. left. by destruct db.
  - apply tx_modify_inr in H as ->. unfold rls_vendas_delete.
    rewrite delete_sem_politica. left. by destruct db.
  - pose proof (insert_produtos_checks _ _ _ _ _ _ H) as (Hok & Hcod & Hfk).
    apply insert_produtos_inr in H as (-> & Hnone & Hadm).
    do 3 right; left. exists id, d. by split_and!.
  - pose proof (update_produtos_checks _ _ _ _ _ _ H) as Hchk.
    apply update_produtos_inr in H as (-> & _).
    destruct (is_admin uid db) eqn:Hadm; simpl; [|by left].
    destruct (produtos db !! id) as [p|] eqn:Hp; simpl.
    + destruct (Hchk eq_refl ltac:(eauto)) as (Hok & Hcod & Hfk).
      do 4 right; left. exists id, d. by split_and!; eauto.
    + by left.
  - rewrite delete_produtos_eq in H.
    destruct (is_admin uid db) eqn:Hadm; simpl in H; [|injection H as <- <-; by left].
    destruct (produtos db !! id) as [p|] eqn:Hp; simpl in H.
    + injection H as <- <-.
      do 5 right. exists id. by split_and!; eauto.
    + injection H as <- <-. by left.
Qed.

Lemma Forall_filter_sub {A} (P Q : A -> Prop) `{!forall x, Decision (Q x)} (l : list A) :
  Forall P l -> Forall P (filter Q l).
Proof.
  rewrite !Forall_forall. intros Hl x Hx. apply list_elem_of_filter in Hx as [_ Hx]. auto.
Qed.

Lemma produto_ok_set_quantidade q p :
  produto_ok p -> 0 <= q <= 2147483647 -> produto_ok (Produto.set_quantidade q p).
Proof. unfold produto_ok. simpl. lia. Qed.

Lemma produtos_apos_compra_Forall (P : Produto.Row -> Prop) d db :
  map_Forall (fun _ p => P p) (produtos db) ->
  (forall i p, Compra.produto_id d = Some i -> produtos db !! i = Some p ->
     P (Produto.set_quantidade (Produto.quantidade p + Compra.quantidade d) p)) ->
  map_Forall (fun _ p => P p) (produtos_apos_compra d db).
Proof.
  intros Hall Hnew. unfold produtos_apos_compra.
  destruct (Compra.produto_id d) as [i|]; [|done].
  destruct (produtos db !! i) as [p|] eqn:Hp; [|done].
  apply map_Forall_insert_2; [|done]. by apply (Hnew i p).
Qed.

Lemma produtos_apos_venda_Forall (P : Produto.Row -> Prop) d db :
  map_Forall (fun _ p => P p) (produtos db) ->
  (forall i p, Venda.produto_id d = Some i -> produtos db !! i = Some p ->
     P (Produto.set_quantidade (Produto.quantidade p - Venda.quantidade d) p)) ->
  map_Forall (fun _ p => P p) (produtos_apos_venda d db).
Proof.
  intros Hall Hnew. unfold produtos_apos_venda.
  destruct (Venda.produto_id d) as [i|]; [|done].
  destruct (produtos db !! i) as [p|] eqn:Hp; [|done].
  apply map_Forall_insert_2; [|done]. by apply (Hnew i p).
Qed.

Lemma pedido_db_checks r db : db_checks db -> db_checks (pedido r db).
Proof.
  intros (Hp & Hc & Hv).
  destruct (pedido_casos r db)
    as [->|[(d & row & _ & _ & _ & Hrow & Hok & _ & Hfaixa & ->)
       |[(d & row & _ & _ & _ & Hrow & Hok & _ & Hfaixa & ->)
       |[(id & d & _ & _ & _ & Hok & _ & _ & ->)
       |[(id & d & _ & _ & _ & Hok & _ & _ & ->)
       |(id & _ & _ & _ & ->)]]]]]; [done|..].
  - split_and!; simpl; [|by apply Forall_app; split; [|apply Forall_singleton]|done].
    apply produtos_apos_compra_Forall; [done|]. intros i p Hi Hpi.
    apply produto_ok_set_quantidade; [by eapply Hp|].
    destruct (Hfaixa i Hi) as (p' & Hp' & ?). by simplify_eq.
  - split_and!; simpl; [|done|by apply Forall_app; split; [|apply Forall_singleton]].
    apply produtos_apos_venda_Forall; [done|]. intros i p Hi Hpi.
    apply produto_ok_set_quantidade; [by eapply Hp|].
    destruct (Hfaixa i Hi) as (p' & Hp' & ?). by simplify_eq.
  - split_and!; simpl; [|done..]. by apply map_Forall_insert_2.
  - split_and!; simpl; [|done..]. by apply map_Forall_insert_2.
  - split_and!; simpl.
    + by apply map_Forall_delete.
    + by apply Forall_filter_sub.
    + by apply Forall_filter_sub.
Qed.

(** X1. The column types and [CHECK] constraints hold of every stored row
    whatever is asked of the database: no product with a negative price or
    quantity, no purchase or sale with a quantity that is not positive or a
    negative price, every [total] the product of quantity and price. *)
Theorem checks_preservados rs db : db_checks db -> db_checks (pedidos rs db).
Proof.
  revert db. induction rs as [|r rs IH]; intros db H; [done|].
  simpl. apply IH. by apply pedido_db_checks.
Qed.

(** ** References *)

Lemma fk_ok_dom {V} (ref : option string) (m : gmap string V) :
  fk_ok ref (dom m) = true <-> forall i, ref = Some i -> is_Some (m !! i).
Proof.
  destruct ref as [i|]; simpl.
  - rewrite bool_decide_eq_true, elem_of_dom. split; [by intros ? ? [= <-]|auto].
  - split; [by intros|done].
Qed.

Lemma is_Some_produtos_apos_compra d db i :
  is_Some (produtos_apos_compra d db !! i) <-> is_Some (produtos db !! i).
Proof.
  unfold produtos_apos_compra. destruct (Compra.produto_id d) as [j|]; [|done].
  destruct (produtos db !! j) as [p|] eqn:Hp; [|done].
  destruct (decide (j = i)) as [->|Hne].
  - rewrite lookup_insert_eq, Hp. split; eauto.
  - by rewrite lookup_insert_ne.
Qed.

Lemma is_Some_produtos_apos_venda d db i :
  is_Some (produtos_apos_venda d db !! i) <-> is_Some (produtos db !! i).
Proof.
  unfold produtos_apos_venda. destruct (Venda.produto_id d) as [j|]; [|done].
  destruct (produtos db !! j) as [p|] eqn:Hp; [|done].
  destruct (decide (j = i)) as [->|Hne].
  - rewrite lookup_insert_eq, Hp. split; eauto.
  - by rewrite lookup_insert_ne.
Qed.

(** The references of the stored rows still hold when the products change
    from [ps] to [ps'], as long as every product they name is kept. *)
Lemma db_integro_produtos db ps' cs vs :
  map_Forall (fun _ p => fk_ok (Produto.categoria_id p) (categorias db) = true) ps' ->
  Forall (fun r =>
            fk_ok (Compra.fornecedor_id (Compra.dados r)) (fornecedores db) = true /\
            fk_ok (Compra.produto_id (Compra.dados r)) (dom ps') = true /\
            is_Some (profiles db !! Compra.user_id (Compra.dados r))) cs ->
  Forall (fun r =>
            fk_ok (Venda.produto_id (Venda.dados r)) (dom ps') = true /\
            is_Some (profiles db !! Venda.user_id (Venda.dados r))) vs ->
  db_integro (mkDb (profiles db) (categorias db) (fornecedores db) ps' cs vs).
Proof. intros Hp Hc Hv. by split_and!. Qed.

Lemma compras_integras_mono db (ps' : gmap string Produto.Row) :
  db_integro db ->
  (forall i, is_Some (produtos db !! i) -> is_Some (ps' !! i)) ->
  Forall (fun r =>
            fk_ok (Compra.fornecedor_id (Compra.dados r)) (fornecedores db) = true /\
            fk_ok (Compra.produto_id (Compra.dados r)) (dom ps') = true /\
            is_Some (profiles db !! Compra.user_id (Compra.dados r))) (compras db).
Proof.
  intros (Hc & _ & _) Hsub. eapply Forall_impl; [exact Hc|].
  intros r (Hf & Hp & Hu). split_and!; try done.
  apply fk_ok_dom. intros i Hi. apply Hsub. by eapply fk_ok_dom.
Qed.

Lemma vendas_integras_mono db (ps' : gmap string Produto.Row) :
  db_integro db ->
  (forall i, is_Some (produtos db !! i) -> is_Some (ps' !! i)) ->
  Forall (fun r =>
            fk_ok (Venda.produto_id (Venda.dados r)) (dom ps') = true /\
            is_Some (profiles db !! Venda.user_id (Venda.dados r))) (vendas db).
Proof.
  intros (_ & Hv & _) Hsub. eapply Forall_impl; [exact Hv|].
  intros r (Hp & Hu). split; [|done].
  apply fk_ok_dom. intros i Hi. apply Hsub. by eapply fk_ok_dom.
Qed.

Lemma is_Some_insert {V} (m : gmap string V) i j x :
  is_Some (m !! j) -> is_Some (<[i := x]> m !! j).
Proof.
  intros H. destruct (decide (i = j)) as [->|Hne].
  - rewrite lookup_insert_eq. eauto.
  - by rewrite lookup_insert_ne.
Qed.

Lemma pedido_db_integro r db : db_integro db -> db_integro (pedido r db).
Proof.
  intros Hdb. pose proof Hdb as (Hc & Hv & Hp).
  destruct (pedido_casos r db)
    as [->|[(d & row & _ & _ & Hu & Hrow & _ & Hforn & Hfaixa & ->)
       |[(d & row & _ & _ & Hu & Hrow & _ & _ & Hfaixa & ->)
       |[(id & d & _ & _ & _ & _ & _ & Hfk & ->)
       |[(id & d & _ & _ & _ & _ & _ & Hfk & ->)
       |(id & _ & _ & _ & ->)]]]]]; [done|..].
  - apply (db_integro_produtos db).
    + apply (produtos_apos_compra_Forall
               (fun p => fk_ok (Produto.categoria_id p) (categorias db) = true)); [done|].
      intros i p _ Hi. exact (Hp i p Hi).
    + apply Forall_app. split.
      * apply (compras_integras_mono db); [done|]. intros i. by apply is_Some_produtos_apos_compra.
      * apply Forall_singleton. rewrite Hrow. split_and!; try done.
        apply fk_ok_dom. intros i Hi. apply is_Some_produtos_apos_compra.
        destruct (Hfaixa i Hi) as (p & -> & _). eauto.
    + apply (vendas_integras_mono db); [done|]. intros i. by apply is_Some_produtos_apos_compra.
  - apply (db_integro_produtos db).
    + apply (produtos_apos_venda_Forall
               (fun p => fk_ok (Produto.categoria_id p) (categorias db) = true)); [done|].
      intros i p _ Hi. exact (Hp i p Hi).
    + apply (compras_integras_mono db); [done|]. intros i. by apply is_Some_produtos_apos_venda.
    + apply Forall_app. split.
      * apply (vendas_integras_mono db); [done|]. intros i. by apply is_Some_produtos_apos_venda.
      * apply Forall_singleton. rewrite Hrow. split; [|done].
        apply fk_ok_dom. intros i Hi. apply is_Some_produtos_apos_venda.
        destruct (Hfaixa i Hi) as (p & -> & _). eauto.
  - apply (db_integro_produtos db).
    + by apply map_Forall_insert_2.
    + apply (compras_integras_mono db); [done|]. intros i. apply is_Some_insert.
    + apply (vendas_integras_mono db); [done|]. intros i. apply is_Some_insert.
  - apply (db_integro_produtos db).
    + by apply map_Forall_insert_2.
    + apply (compras_integras_mono db); [done|]. intros i. apply is_Some_insert.
    + apply (vendas_integras_mono db); [done|]. intros i. apply is_Some_insert.
  - apply (db_integro_produtos db).
    + by apply map_Forall_delete.
    + apply Forall_forall. intros c Hin. apply list_elem_of_filter in Hin as [Hne Hin].
      rewrite Forall_forall in Hc. destruct (Hc c Hin) as (Hf & Hpc & Hu).
      split_and!; try done. apply fk_ok_dom. intros i Hi.
      rewrite lookup_delete_ne by congruence. by eapply fk_ok_dom.
    + apply Forall_forall. intros v Hin. apply list_elem_of_filter in Hin as [Hne Hin].
      rewrite Forall_forall in Hv. destruct (Hv v Hin) as (Hpv & Hu).
      split; [|done]. apply fk_ok_dom. intros i Hi.
      rewrite lookup_delete_ne by congruence. by eapply fk_ok_dom.
Qed.

(** X2. No request leaves a dangling reference: after any sequence of requests
    every purchase and sale still names a product (or none), a user and a
    supplier (or none) that exist, and every product a category that
    exists. Deleting a product takes its purchases and sales with it. *)
Theorem referencias_preservadas rs db : db_integro db -> db_integro (pedidos rs db).
Proof.
  revert db. induction rs as [|r rs IH]; intros db H; [done|].
  simpl. apply IH. by apply pedido_db_integro.
Qed.

(** ** What the stock triggers change in [produtos] *)

Lemma produtos_apos_compra_lookup d db i :
  produtos_apos_compra d db !! i =
  (fun p => if bool_decide (Compra.produto_id d = Some i)
            then Produto.set_quantidade (Produto.quantidade p + Compra.quantidade d) p
            else p) <$> produtos db !! i.
Proof.
  unfold produtos_apos_compra. destruct (Compra.produto_id d) as [j|].
  - destruct (decide (j = i)) as [->|Hne].
    + rewrite bool_decide_eq_true_2 by done.
      destruct (produtos db !! i) as [p|] eqn:Hp; [|by rewrite Hp].
      by rewrite lookup_insert_eq.
    + rewrite bool_decide_eq_false_2 by congruence.
      destruct (produtos db !! j) as [p|] eqn:Hp.
      * rewrite lookup_insert_ne by done. by destruct (produtos db !! i).
      * by destruct (produtos db !! i).
  - rewrite bool_decide_eq_false_2 by done. by destruct (produtos db !! i).
Qed.

Lemma produtos_apos_venda_lookup d db i :
  produtos_apos_venda d db !! i =
  (fun p => if bool_decide (Venda.produto_id d = Some i)
            then Produto.set_quantidade (Produto.quantidade p - Venda.quantidade d) p
            else p) <$> produtos db !! i.
Proof.
  unfold produtos_apos_venda. destruct (Venda.produto_id d) as [j|].
  - destruct (decide (j = i)) as [->|Hne].
    + rewrite bool_decide_eq_true_2 by done.
      destruct (produtos db !! i) as [p|] eqn:Hp; [|by rewrite Hp].
      by rewrite lookup_insert_eq.
    + rewrite bool_decide_eq_false_2 by congruence.
      destruct (produtos db !! j) as [p|] eqn:Hp.
      * rewrite lookup_insert_ne by done. by destruct (produtos db !! i).
      * by destruct (produtos db !! i).
  - rewrite bool_decide_eq_false_2 by done. by destruct (produtos db !! i).
Qed.

Lemma mesmo_cadastro_refl p : mesmo_cadastro p p.
Proof. by destruct p. Qed.

Lemma mesmo_cadastro_set_quantidade q p : mesmo_cadastro p (Produto.set_quantidade q p).
Proof. by destruct p. Qed.

Lemma mesmo_cadastro_trans p q r : mesmo_cadastro p q -> mesmo_cadastro q r -> mesmo_cadastro p r.
Proof. unfold mesmo_cadastro. intros <- <-. by destruct p. Qed.

Lemma mesmo_cadastro_codigo p q : mesmo_cadastro p q -> Produto.codigo q = Produto.codigo p.
Proof. unfold mesmo_cadastro. intros <-. by destruct p. Qed.

Lemma produtos_apos_compra_cadastro d db i :
  option_Forall2 mesmo_cadastro (produtos db !! i) (produtos_apos_compra d db !! i).
Proof.
  rewrite produtos_apos_compra_lookup. destruct (produtos db !! i) as [p|]; constructor.
  case_bool_decide; [apply mesmo_cadastro_set_quantidade|apply mesmo_cadastro_refl].
Qed.

Lemma produtos_apos_venda_cadastro d db i :
  option_Forall2 mesmo_cadastro (produtos db !! i) (produtos_apos_venda d db !! i).
Proof.
  rewrite produtos_apos_venda_lookup. destruct (produtos db !! i) as [p|]; constructor.
  case_bool_decide; [apply mesmo_cadastro_set_quantidade|apply mesmo_cadastro_refl].
Qed.

(** ** The tables no request writes *)

Lemma pedido_cadastros r db :
  profiles (pedido r db) = profiles db /\
  categorias (pedido r db) = categorias db /\
  fornecedores (pedido r db) = fornecedores db.
Proof.
  destruct (pedido_casos r db)
    as [->|[(d & row & _ & _ & _ & _ & _ & _ & _ & ->)
       |[(d & row & _ & _ & _ & _ & _ & _ & _ & ->)
       |[(id & d & _ & _ & _ & _ & _ & _ & ->)
       |[(id & d & _ & _ & _ & _ & _ & _ & ->)
       |(id & _ & _ & _ & ->)]]]]]; done.
Qed.

Lemma pedido_is_admin r uid db : is_admin uid (pedido r db) = is_admin uid db.
Proof. unfold is_admin. by destruct (pedido_cadastros r db) as (-> & _). Qed.

(** ** The unique product code *)

Lemma codigos_unicos_cadastro db (ps' : gmap string Produto.Row) :
  codigos_unicos db ->
  (forall i, option_Forall2 mesmo_cadastro (produtos db !! i) (ps' !! i)) ->
  forall i j p q, ps' !! i = Some p -> ps' !! j = Some q ->
    Produto.codigo p = Produto.codigo q -> i = j.
Proof.
  intros Hun Hcad i j p q Hi Hj Hcod.
  pose proof (Hcad i) as Hci. pose proof (Hcad j) as Hcj.
  rewrite Hi in Hci. rewrite Hj in Hcj.
  inversion Hci as [p0 ? Hp0 Hi0|]; inversion Hcj as [q0 ? Hq0 Hj0|]; subst.
  apply (Hun i j p0 q0); [done..|].
  by rewrite <- (mesmo_cadastro_codigo _ _ Hp0), <- (mesmo_cadastro_codigo _ _ Hq0).
Qed.

Lemma codigos_unicos_insert db id d :
  codigos_unicos db ->
  codigo_livre id (Produto.codigo d) (produtos db) = true ->
  forall i j p q, <[id := d]> (produtos db) !! i = Some p ->
    <[id := d]> (produtos db) !! j = Some q ->
    Produto.codigo p = Produto.codigo q -> i = j.
Proof.
  intros Hun Hlivre i j p q Hi Hj Hcod.
  apply bool_decide_eq_true in Hlivre.
  destruct (decide (i = id)) as [->|Hni]; destruct (decide (j = id)) as [->|Hnj]; [done|..].
  - rewrite lookup_insert_eq in Hi. rewrite lookup_insert_ne in Hj by done.
    injection Hi as <-. destruct (Hlivre j q Hj) as [->|Hne]; [done|congruence].
  - rewrite lookup_insert_eq in Hj. rewrite lookup_insert_ne in Hi by done.
    injection Hj as <-. destruct (Hlivre i p Hi) as [->|Hne]; [done|congruence].
  - rewrite lookup_insert_ne in Hi, Hj by done. by apply (Hun i j p q).
Qed.

Lemma pedido_codigos_unicos r db : codigos_unicos db -> codigos_unicos (pedido r db).
Proof.
  intros Hun.
  destruct (pedido_casos r db)
    as [->|[(d & row & _ & _ & _ & _ & _ & _ & _ & ->)
       |[(d & row & _ & _ & _ & _ & _ & _ & _ & ->)
       |[(id & d & _ & _ & _ & _ & Hlivre & _ & ->)
       |[(id & d & _ & _ & _ & _ & Hlivre & _ & ->)
       |(id & _ & _ & _ & ->)]]]]]; [done|..].
  - refine (codigos_unicos_cadastro db _ Hun _). apply produtos_apos_compra_cadastro.
  - refine (codigos_unicos_cadastro db _ Hun _). apply produtos_apos_venda_cadastro.
  - exact (codigos_unicos_insert db id d Hun Hlivre).
  - exact (codigos_unicos_insert db id d Hun Hlivre).
  - intros i j p q Hi Hj. simpl in Hi, Hj.
    apply lookup_delete_Some in Hi as [_ Hi]. apply lookup_delete_Some in Hj as [_ Hj].
    by apply (Hun i j p q).
Qed.

(** X3. [codigo TEXT UNIQUE]: whatever is asked of the database, no two
    products ever carry the same code. An insert or an edit that would
    repeat a code is refused; sales and purchases do not touch the code. *)
Theorem codigos_unicos_preservados rs db : codigos_unicos db -> codigos_unicos (pedidos rs db).
Proof.
  revert db. induction rs as [|r rs IH]; intros db H; [done|].
  simpl. apply IH. by apply pedido_codigos_unicos.
Qed.

(** ** What a user who is not an admin can change *)

Lemma pedido_nao_admin r db i :
  is_admin r.1 db = false ->
  option_Forall2 mesmo_cadastro (produtos db !! i) (produtos (pedido r db) !! i).
Proof.
  intros Hna.
  destruct (pedido_casos r db)
    as [->|[(d & row & _ & _ & _ & _ & _ & _ & _ & ->)
       |[(d & row & _ & _ & _ & _ & _ & _ & _ & ->)
       |[(id & d & _ & Ha & _)
       |[(id & d & _ & Ha & _)
       |(id & _ & Ha & _)]]]]]; try congruence.
  - destruct (produtos db !! i); constructor. apply mesmo_cadastro_refl.
  - apply produtos_apos_compra_cadastro.
  - apply produtos_apos_venda_cadastro.
Qed.

(** X4. Row-level security on [produtos]: statements on [produtos], [compras]
    and [vendas] sent by users who are not admins, in whatever number and
    order, create no product, delete none, and change no column of a
    product other than [quantidade] (which the triggers of their sales and
    purchases write). Who is an admin is what [profiles] says, which none
    of these statements writes. *)
Theorem nao_admin_so_muda_quantidade rs db i :
  Forall (fun r => is_admin r.1 db = false) rs ->
  option_Forall2 mesmo_cadastro (produtos db !! i) (produtos (pedidos rs db) !! i).
Proof.
  revert db. induction rs as [|r rs IH]; intros db H.
  - simpl. destruct (produtos db !! i); constructor. apply mesmo_cadastro_refl.
  - apply Forall_cons in H as [Hr Hrs]. simpl.
    assert (Hrs' : Forall (fun r0 => is_admin r0.1 (pedido r db) = false) rs).
    { eapply Forall_impl; [exact Hrs|]. intros r0 H0. simpl. by rewrite pedido_is_admin. }
    pose proof (pedido_nao_admin r db i Hr) as H1. pose proof (IH _ Hrs') as H2.
    destruct H1 as [p q Hpq|]; inversion H2 as [q' s Hqs|]; subst; constructor.
    by eapply mesmo_cadastro_trans.
Qed.

Lemma db_exemplo_checks : db_checks db_exemplo.
Proof.
  split_and!; [|constructor..].
  apply map_Forall_singleton. unfold produto_ok. simpl. lia.
Qed.

Lemma db_exemplo_integro : db_integro db_exemplo.
Proof. split_and!; [constructor..|]. by apply map_Forall_singleton. Qed.

Lemma db_exemplo_codigos : codigos_unicos db_exemplo.
Proof.
  intros i j p q Hi Hj _. simpl in Hi, Hj.
  apply lookup_singleton_Some in Hi as [<- _]. by apply lookup_singleton_Some in Hj as [<- _].
Qed.

(** A seller sells two units and buys three, an admin corrects the stock
    to 7 and then deletes the product. *)
Lemma checks_preservados_exemplo :
  db_checks
    (pedidos [ (Some "u2", InsertVendas (Venda.mk (Some "p1") 2 2000 "u2" None));
               (Some "u2", InsertCompras (Compra.mk (Some "f1") (Some "p1") 3 1000 "u2" None));
               (Some "u1", UpdateProdutos "p1" (Produto.set_quantidade 7 dipirona));
               (Some "u1", DeleteProdutos "p1") ] db_exemplo).
Proof. apply checks_preservados. exact db_exemplo_checks. Defined.

Lemma referencias_preservadas_exemplo :
  db_integro
    (pedidos [ (Some "u2", InsertVendas (Venda.mk (Some "p1") 2 2000 "u2" None));
               (Some "u2", InsertCompras (Compra.mk (Some "f9") (Some "p1") 3 1000 "u2" None));
               (Some "u1", DeleteProdutos "p1") ] db_exemplo).
Proof. apply referencias_preservadas. exact db_exemplo_integro. Defined.

(** The admin tries to register a second product under the code of the
    first. *)
Lemma codigos_unicos_preservados_exemplo :
  codigos_unicos
    (pedidos [ (Some "u1", InsertProdutos "p2" (produto_validade 20100));
               (Some "u1", InsertProdutos "p3" dipirona) ] db_exemplo).
Proof. apply codigos_unicos_preservados. exact db_exemplo_codigos. Defined.

(** The seller [u2] and a visitor who is not logged in try everything on
    [p1]; only the sale gets through. *)
Lemma nao_admin_so_muda_quantidade_exemplo :
  option_Forall2 mesmo_cadastro (produtos db_exemplo !! "p1")
    (produtos
       (pedidos [ (Some "u2", UpdateProdutos "p1" (produto_validade 20100));
                  (Some "u2", InsertVendas (Venda.mk (Some "p1") 2 2000 "u2" None));
                  (None, DeleteProdutos "p1");
                  (Some "u2", DeleteProdutos "p1") ] db_exemplo) !! "p1").
Proof.
  apply nao_admin_so_muda_quantidade. repeat constructor.
Defined.

(** ** Whose name a recorded sale or purchase carries *)

Lemma pedido_autoria r db :
  Forall (fun v => v ∈ vendas db \/ Some (Venda.user_id (Venda.dados v)) = r.1)
    (vendas (pedido r db)) /\
  Forall (fun c => c ∈ compras db \/ Some (Compra.user_id (Compra.dados c)) = r.1)
    (compras (pedido r db)).
Proof.
  assert (Hv : Forall (fun v => v ∈ vendas db \/ Some (Venda.user_id (Venda.dados v)) = r.1)
                 (vendas db)) by (apply Forall_forall; auto).
  assert (Hc : Forall (fun c => c ∈ compras db \/ Some (Compra.user_id (Compra.dados c)) = r.1)
                 (compras db)) by (apply Forall_forall; auto).
  destruct (pedido_casos r db)
    as [->|[(d & row & _ & Hu & _ & Hrow & _ & _ & _ & ->)
       |[(d & row & _ & Hu & _ & Hrow & _ & _ & _ & ->)
       |[(id & d & _ & _ & _ & _ & _ & _ & ->)
       |[(id & d & _ & _ & _ & _ & _ & _ & ->)
       |(id & _ & _ & _ & ->)]]]]]; simpl; try done.
  - split; [done|]. apply Forall_app. split; [done|].
    apply Forall_singleton. right. by rewrite Hrow.
  - split; [|done]. apply Forall_app. split; [done|].
    apply Forall_singleton. right. by rewrite Hrow.
  - split; by apply Forall_filter_sub.
Qed.

(** X5. [WITH CHECK (auth.uid() = user_id)] on both event tables: every sale
    and every purchase that a sequence of requests leaves in the database,
    and that was not there before, carries as its [user_id] the
    [auth.uid()] of one of the requesters. Nobody records a sale or a
    purchase in the name of a user who sent no request, and a client who is
    not logged in records none. *)
Theorem autoria_dos_lancamentos rs db :
  Forall (fun v => v ∈ vendas db \/ Some (Venda.user_id (Venda.dados v)) ∈ rs.*1)
    (vendas (pedidos rs db)) /\
  Forall (fun c => c ∈ compras db \/ Some (Compra.user_id (Compra.dados c)) ∈ rs.*1)
    (compras (pedidos rs db)).
Proof.
  revert db. induction rs as [|r rs IH]; intros db.
  - split; apply Forall_forall; auto.
  - simpl. destruct (IH (pedido r db)) as [IHv IHc].
    destruct (pedido_autoria r db) as [Hv Hc].
    rewrite Forall_forall in Hv. rewrite Forall_forall in Hc.
    rewrite Forall_forall in IHv. rewrite Forall_forall in IHc.
    split; apply Forall_forall.
    + intros v Hin. destruct (IHv v Hin) as [Hold|Hnew].
      * destruct (Hv v Hold) as [?| ->]; [by left|]. right. apply list_elem_of_here.
      * right. by apply list_elem_of_further.
    + intros c Hin. destruct (IHc c Hin) as [Hold|Hnew].
      * destruct (Hc c Hold) as [?| ->]; [by left|]. right. apply list_elem_of_here.
      * right. by apply list_elem_of_further.
Qed.

(** ** What the toast of a page says about the database *)

(** X6. [Vendas.handleSubmit]: the page shows its success toast exactly when
    the sale is recorded. Then the user is logged in as the profile of the
    page, the product exists with at least the quantity sold in stock (in
    the database, not only in the list the page holds), one row is added to
    [vendas], with the values of the form, its total and its profit, and
    the stock of the product goes down by the quantity. With any other
    toast the database is what it was. *)
Theorem vendas_pagina_toast uid profile_id lista data db :
  let r := Vendas.handleSubmit uid profile_id lista data db in
  (r.1 = toast_success "Venda registrada com sucesso!" /\
   exists pid q preco p,
     Vendas.produto_id data = Some pid /\ Vendas.quantidade data = Some q /\
     Vendas.preco_unitario data = Some preco /\
     uid = Some profile_id /\ is_Some (profiles db !! profile_id) /\
     produtos db !! pid = Some p /\ 1 <= q <= Produto.quantidade p /\ 0 <= preco /\
     r.2 = set_vendas
             (vendas db ++
                [Venda.mkRow (Venda.mk (Some pid) q preco profile_id (Vendas.observacoes data))
                   (q * preco) (Some ((preco - Produto.preco_compra p) * q))])
             (set_produtos
                (<[pid := Produto.set_quantidade (Produto.quantidade p - q) p]> (produtos db))
                db)) \/
  ((forall msg, r.1 <> toast_success msg) /\ r.2 = db).
Proof.
  unfold Vendas.handleSubmit.
  destruct (Vendas.produto_id data) as [pid|] eqn:Hpid; [|by right].
  destruct (Vendas.quantidade data) as [q|] eqn:Hq; [|by right].
  destruct (Vendas.preco_unitario data) as [preco|] eqn:Hpreco; [|by right].
  destruct (negb (Vendas.vendaSchema data)); [by right|].
  destruct (lista !! pid) as [produto|]; [|by right].
  destruct (Produto.quantidade produto <? q); [by right|].
  destruct (executar _ db) as [[e|row] db1] eqn:He; simpl.
  - right. split; [done|]. by eapply executar_rollback.
  - left. split; [done|].
    apply executar_inr, insert_vendas_inr in He
      as (Hu & Hprof & Hp0 & Hq0 & -> & -> & Hst). simpl in *.
    destruct (Hst pid eq_refl) as (p & Hp & Hle).
    exists pid, q, preco, p. split_and!; try done; try lia.
    unfold lucro_da_venda, produtos_apos_venda. simpl. by rewrite Hp.
Qed.

Lemma vendas_pagina_toast_exemplo :
  let r := Vendas.handleSubmit (Some "u2") "u2" (Vendas.loadProdutos (Some "u2") db_exemplo)
             (Vendas.mk (Some "p1") (Some 2) (Some 2000) None) db_exemplo in
  r.1 = toast_success "Venda registrada com sucesso!" /\
  estoque "p1" r.2 = Some 3 /\
  Venda.lucro <$> vendas r.2 = [Some 1600].
Proof.
  intros r.
  destruct (vendas_pagina_toast (Some "u2") "u2" (Vendas.loadProdutos (Some "u2") db_exemplo)
              (Vendas.mk (Some "p1") (Some 2) (Some 2000) None) db_exemplo)
    as [(Ht & pid & q & preco & p & Hpid & Hq & Hpreco & _ & _ & Hp & _ & _ & Hdb)|[Hn _]].
  - simpl in Hpid, Hq, Hpreco. injection Hpid as <-. injection Hq as <-.
    injection Hpreco as <-. injection Hp as <-.
    split; [exact Ht|]. subst r. rewrite Hdb. split; reflexivity.
  - exfalso. by apply (Hn "Venda registrada com sucesso!").
Defined.

(** X7. [Compras.handleSubmit]: the page shows its success toast exactly when
    the purchase is recorded. Then the user is logged in as the profile of
    the page, the form names a supplier and a product that exist, one row
    is added to [compras], with the values of the form and its total, and
    the stock of the product goes up by the quantity. With any other toast
    the database is what it was. *)
Theorem compras_pagina_toast uid profile_id data db :
  let r := Compras.handleSubmit uid profile_id data db in
  (r.1 = toast_success "Compra registrada! Estoque atualizado." /\
   exists pid f q preco p,
     Compras.produto_id data = Some pid /\ Compras.fornecedor_id data = Some f /\
     Compras.quantidade data = Some q /\ Compras.preco_unitario data = Some preco /\
     uid = Some profile_id /\ is_Some (profiles db !! profile_id) /\
     f ∈ fornecedores db /\ produtos db !! pid = Some p /\ 1 <= q /\ 0 <= preco /\
     r.2 = set_compras
             (compras db ++
                [Compra.mkRow
                   (Compra.mk (Some f) (Some pid) q preco profile_id (Compras.observacoes data))
                   (q * preco)])
             (set_produtos
                (<[pid := Produto.set_quantidade (Produto.quantidade p + q) p]> (produtos db))
                db)) \/
  ((forall msg, r.1 <> toast_success msg) /\ r.2 = db).
Proof.
  unfold Compras.handleSubmit.
  destruct (Compras.produto_id data) as [pid|] eqn:Hpid; [|by right].
  destruct (Compras.quantidade data) as [q|] eqn:Hq; [|by right].
  destruct (Compras.preco_unitario data) as [preco|] eqn:Hpreco; [|by right].
  destruct (negb (Compras.compraSchema data)) eqn:Hs; [by right|].
  destruct (executar _ db) as [[e|row] db1] eqn:He; simpl.
  - right. split; [done|]. by eapply executar_rollback.
  - left. split; [done|].
    apply negb_false_iff in Hs. unfold Compras.compraSchema in Hs.
    rewrite !andb_true_iff, !bool_decide_eq_true in Hs.
    destruct Hs as [[[_ [f Hf]] _] _].
    apply executar_inr, insert_compras_inr in He
      as (Hu & Hprof & Hp0 & Hq0 & -> & -> & Hprod & Hforn). simpl in *.
    destruct (Hprod pid eq_refl) as [p Hp].
    exists pid, f, q, preco, p. rewrite Hf in *. split_and!; try done; try lia.
    + by apply Hforn.
    + unfold produtos_apos_compra. simpl. by rewrite Hp.
Qed.

Lemma compras_pagina_toast_exemplo :
  let r := Compras.handleSubmit (Some "u2") "u2"
             (Compras.mk (Some "p1") (Some "f1") (Some 3) (Some 1000) None) db_exemplo in
  r.1 = toast_success "Compra registrada! Estoque atualizado." /\
  estoque "p1" r.2 = Some 8 /\
  Compra.total <$> compras r.2 = [3000].
Proof.
  intros r.
  destruct (compras_pagina_toast (Some "u2") "u2"
              (Compras.mk (Some "p1") (Some "f1") (Some 3) (Some 1000) None) db_exemplo)
    as [(Ht & pid & f & q & preco & p & Hpid & Hf & Hq & Hpreco & _ & _ & _ & Hp & _ & _ & Hdb)
       |[Hn _]].
  - simpl in Hpid, Hf, Hq, Hpreco. injection Hpid as <-. injection Hf as <-.
    injection Hq as <-. injection Hpreco as <-. injection Hp as <-.
    split; [exact Ht|]. subst r. rewrite Hdb. split; reflexivity.
  - exfalso. by apply (Hn "Compra registrada! Estoque atualizado.").
Defined.

(** The purchases page accepts no purchase without a supplier: its schema
    declares the field [optional()], which admits [undefined], and the
    handler sends [null] for an empty selection. *)
Lemma compras_pagina_exige_fornecedor_exemplo :
  Compras.handleSubmit (Some "u2") "u2"
    (Compras.mk (Some "p1") None (Some 3) (Some 1000) None) db_exemplo
  = (toast_error_zod, db_exemplo).
Proof. apply compras_pagina_exige_fornecedor. reflexivity. Defined.

(** ** The products page *)









(** ** The sales page, from the choice of the product *)

(** X12. [handleProdutoChange] and then [handleSubmit]: the seller picks a
    product from the list the page has just loaded, the form takes its
    [preco_venda], and for a quantity within the stock the sale is
    recorded at that price, with the profit
    [(preco_venda - preco_compra) * quantidade] of the product. *)
Theorem venda_ao_preco_de_tabela user pid q p form db :
  let lista := Vendas.loadProdutos (Some user) db in
  let data := handleProdutoChange lista pid form in
  Vendas.quantidade form = Some q ->
  is_Some (profiles db !! user) ->
  produtos db !! pid = Some p ->
  produto_ok p ->
  1 <= q <= Produto.quantidade p ->
  q * Produto.preco_venda p <= 9999999999 ->
  (Produto.preco_venda p - Produto.preco_compra p) * q >= -9999999999 ->
  Vendas.handleSubmit (Some user) user lista data db
    = (toast_success "Venda registrada com sucesso!",
       set_vendas
         (vendas db ++
            [Venda.mkRow
               (Venda.mk (Some pid) q (Produto.preco_venda p) user (Vendas.observacoes form))
               (q * Produto.preco_venda p)
               (Some ((Produto.preco_venda p - Produto.preco_compra p) * q))])
         (set_produtos
            (<[pid := Produto.set_quantidade (Produto.quantidade p - q) p]> (produtos db)) db)).
Proof.
  intros lista data Hq Hprof Hp (Hpc & Hpv & Hqp) Hqq Ht Hl.
  assert (Hlista : lista !! pid = Some p).
  { unfold lista, Vendas.loadProdutos. rewrite bool_decide_eq_true_2 by eauto.
    apply map_lookup_filter_Some_2; [done|simpl; lia]. }
  set (d := Venda.mk (Some pid) q (Produto.preco_venda p) user (Vendas.observacoes form)).
  pose proof (insert_vendas_ok (Some user) d db pid p) as H. simpl in H.
  specialize (H eq_refl Hprof eq_refl Hp ltac:(lia) ltac:(lia) ltac:(lia) Ht).
  rewrite decimal_10_2_ok_true in H. specialize (H ltac:(nia)).
  unfold Vendas.handleSubmit, Vendas.vendaSchema, data, handleProdutoChange. simpl.
  rewrite Hq, Hlista. simpl.
  replace (1 <=? q) with true by (symmetry; lia).
  replace (0 <=? Produto.preco_venda p) with true by (symmetry; lia). simpl.
  replace (Produto.quantidade p <? q) with false by (symmetry; lia).
  fold d. apply executar_inr in H. rewrite H.
  unfold lucro_da_venda, produtos_apos_venda. simpl. by rewrite Hp.
Qed.

Lemma venda_ao_preco_de_tabela_exemplo :
  let r := Vendas.handleSubmit (Some "u2") "u2" (Vendas.loadProdutos (Some "u2") db_exemplo)
             (handleProdutoChange (Vendas.loadProdutos (Some "u2") db_exemplo) "p1"
                (Vendas.mk None (Some 3) None None)) db_exemplo in
  r.1 = toast_success "Venda registrada com sucesso!" /\
  (fun v => (Venda.total v, Venda.lucro v)) <$> vendas r.2 = [(6000, Some 2400)] /\
  estoque "p1" r.2 = Some 2.
Proof.
  intros r. subst r.
  rewrite (venda_ao_preco_de_tabela "u2" "p1" 3 dipirona (Vendas.mk None (Some 3) None None)
             db_exemplo); try reflexivity.
  - split_and!; reflexivity.
  - by exists vendedor.
  - unfold produto_ok. simpl. lia.
  - simpl. lia.
  - simpl. lia.
  - simpl. lia.
Defined.

(** ** Sales and purchases of no product or of an unknown one *)

Lemma atualizar_estoque_venda_none d db :
  Venda.produto_id d ≫= (fun i => produtos db !! i) = None ->
  atualizar_estoque_venda d db = inr (None, db).
Proof.
  intros Hn. unfold atualizar_estoque_venda.
  rewrite (tx_bind_eq _ _ db db db); [|done]. cbv zeta. rewrite Hn. simpl.
  rewrite (tx_bind_eq _ _ db tt db); [|done].
  by rewrite (tx_bind_eq _ _ db tt db); [|by apply update_produtos_quantidade_none].
Qed.

(** X13. [vendas.produto_id] is nullable, as that of [compras]: a sale that
    names no product is accepted from an authorised user (values within
    their columns). Its row is stored with a null [lucro], since the
    trigger finds no [preco_compra], and no stock changes. The sales page
    itself sends no such sale. *)
Theorem venda_sem_produto uid d db :
  Venda.produto_id d = None ->
  uid = Some (Venda.user_id d) ->
  is_Some (profiles db !! Venda.user_id d) ->
  0 < Venda.quantidade d <= 2147483647 ->
  0 <= Venda.preco_unitario d ->
  Venda.quantidade d * Venda.preco_unitario d <= 9999999999 ->
  executar (insert_vendas uid d) db
    = (inr (Venda.mkRow d (Venda.quantidade d * Venda.preco_unitario d) None),
       set_vendas
         (vendas db ++ [Venda.mkRow d (Venda.quantidade d * Venda.preco_unitario d) None]) db) /\
  (forall uid' profile_id lista data, Vendas.produto_id data = None ->
     Vendas.handleSubmit uid' profile_id lista data db = (toast_error_zod, db)).
Proof.
  intros Hn Hu Hprof Hq Hp Ht. split.
  - apply executar_inr. unfold insert_vendas.
    tx_passa ltac:(apply andb_true_iff; split;
                   [apply int4_ok_true|apply decimal_10_2_ok_true]; nia).
    erewrite (tx_bind_eq (atualizar_estoque_venda _));
      [|apply atualizar_estoque_venda_none; by rewrite Hn].
    cbv zeta.
    tx_passa ltac:(apply decimal_10_2_ok_true; nia).
    tx_passa ltac:(by apply bool_decide_eq_true).
    tx_passa ltac:(lia).
    tx_passa ltac:(lia).
    erewrite (tx_bind_eq (tx_modify _)); [|reflexivity].
    erewrite (tx_bind_eq tx_get); [|reflexivity].
    tx_passa ltac:(by rewrite Hn).
    tx_passa ltac:(by apply fk_ok_Some, elem_of_dom).
    reflexivity.
  - intros uid' profile_id lista data Hd. unfold Vendas.handleSubmit. by rewrite Hd.
Qed.

Lemma venda_sem_produto_exemplo :
  let r := executar (insert_vendas (Some "u2") (Venda.mk None 2 2000 "u2" None)) db_exemplo in
  r.1 = inr (Venda.mkRow (Venda.mk None 2 2000 "u2" None) 4000 None) /\
  produtos r.2 = produtos db_exemplo /\
  length (vendas r.2) = 1%nat.
Proof.
  intros r. subst r.
  rewrite (proj1 (venda_sem_produto (Some "u2") (Venda.mk None 2 2000 "u2" None) db_exemplo
                    eq_refl eq_refl ltac:(by exists vendedor) ltac:(simpl; lia)
                    ltac:(simpl; lia) ltac:(simpl; lia))).
  split_and!; reflexivity.
Defined.

(** X14. A sale or a purchase of a product that does not exist is never
    recorded and changes nothing. From an authorised user, with values
    within their columns (and, for a purchase, a supplier that is null or
    exists), the error is the violation of the foreign key on
    [produto_id]: the stock triggers themselves raise nothing when they
    find no product. *)
Theorem produto_inexistente_recusado uid i db :
  produtos db !! i = None ->
  (forall dv, Venda.produto_id dv = Some i ->
     (exists e, executar (insert_vendas uid dv) db = (inl e, db)) /\
     (uid = Some (Venda.user_id dv) ->
      0 < Venda.quantidade dv <= 2147483647 -> 0 <= Venda.preco_unitario dv ->
      Venda.quantidade dv * Venda.preco_unitario dv <= 9999999999 ->
      executar (insert_vendas uid dv) db
        = (inl (foreign_key_violation "vendas_produto_id_fkey"), db))) /\
  (forall dc, Compra.produto_id dc = Some i ->
     (exists e, executar (insert_compras uid dc) db = (inl e, db)) /\
     (uid = Some (Compra.user_id dc) ->
      fk_ok (Compra.fornecedor_id dc) (fornecedores db) = true ->
      0 < Compra.quantidade dc <= 2147483647 -> 0 <= Compra.preco_unitario dc ->
      Compra.quantidade dc * Compra.preco_unitario dc <= 9999999999 ->
      executar (insert_compras uid dc) db
        = (inl (foreign_key_violation "compras_produto_id_fkey"), db))).
Proof.
  intros Hi. split.
  - intros dv Hdv. split.
    + destruct (insert_vendas uid dv db) as [e|[row db1]] eqn:H.
      * exists e. by apply executar_inl.
      * apply insert_vendas_inr in H as (_ & _ & _ & _ & _ & _ & H).
        destruct (H i Hdv) as (p & Hp & _). congruence.
    + intros Hu Hq Hp Ht. apply executar_inl. split; [|done]. unfold insert_vendas.
      tx_passa ltac:(apply andb_true_iff; split;
                     [apply int4_ok_true|apply decimal_10_2_ok_true]; nia).
      erewrite (tx_bind_eq (atualizar_estoque_venda _));
        [|apply atualizar_estoque_venda_none; rewrite Hdv; exact Hi].
      cbv zeta.
      tx_passa ltac:(apply decimal_10_2_ok_true; nia).
      tx_passa ltac:(by apply bool_decide_eq_true).
      tx_passa ltac:(lia).
      tx_passa ltac:(lia).
      erewrite (tx_bind_eq (tx_modify _)); [|reflexivity].
      erewrite (tx_bind_eq tx_get); [|reflexivity].
      apply tx_bind_inl, exigir_falha. rewrite Hdv. simpl.
      apply bool_decide_eq_false. rewrite elem_of_dom, Hi. by intros [? ?].
  - intros dc Hdc. split.
    + destruct (insert_compras uid dc db) as [e|[row db1]] eqn:H.
      * exists e. by apply executar_inl.
      * apply insert_compras_inr in H as (_ & _ & _ & _ & _ & _ & H & _).
        destruct (H i Hdc) as (p & Hp). congruence.
    + intros Hu Hf Hq Hp Ht. apply executar_inl. split; [|done]. unfold insert_compras.
      tx_passa ltac:(apply andb_true_iff; split;
                     [apply int4_ok_true|apply decimal_10_2_ok_true]; nia).
      cbv zeta.
      tx_passa ltac:(apply decimal_10_2_ok_true; nia).
      tx_passa ltac:(by apply bool_decide_eq_true).
      tx_passa ltac:(lia).
      tx_passa ltac:(lia).
      erewrite (tx_bind_eq (tx_modify _)); [|reflexivity].
      erewrite (tx_bind_eq tx_get); [|reflexivity].
      tx_passa ltac:(exact Hf).
      apply tx_bind_inl, exigir_falha. rewrite Hdc. simpl.
      apply bool_decide_eq_false. rewrite elem_of_dom, Hi. by intros [? ?].
Qed.

Lemma produto_inexistente_recusado_exemplo :
  executar (insert_vendas (Some "u2") (Venda.mk (Some "p9") 1 2000 "u2" None)) db_exemplo
    = (inl (foreign_key_violation "vendas_produto_id_fkey"), db_exemplo) /\
  executar (insert_compras (Some "u2") (Compra.mk None (Some "p9") 1 1000 "u2" None)) db_exemplo
    = (inl (foreign_key_violation "compras_produto_id_fkey"), db_exemplo).
Proof.
  destruct (produto_inexistente_recusado (Some "u2") "p9" db_exemplo eq_refl) as [Hv Hc].
  split.
  - apply (proj2 (Hv (Venda.mk (Some "p9") 1 2000 "u2" None) eq_refl)); simpl; try done; lia.
  - apply (proj2 (Hc (Compra.mk None (Some "p9") 1 1000 "u2" None) eq_refl));
      simpl; try done; lia.
Defined.

(** ** Who is an admin *)

Lemma admin_exclui uid p db :
  is_admin uid db = true ->
  produtos (pedido (uid, DeleteProdutos p) db) !! p = None.
Proof.
  intros Hadm. unfold pedido, executar. simpl. rewrite delete_produtos_eq, Hadm. simpl.
  case_bool_decide as Hp; simpl.
  - apply lookup_delete_eq.
  - destruct (produtos db !! p) eqn:E; [|done]. exfalso. apply Hp. eauto.
Qed.

(** X15. [handle_new_user]: the role of a new profile is the [role] of the
    sign-up metadata, which the client writes. With none the user is a
    seller; with ['admin'] the user is an admin at once, whom the policy
    of [produtos] lets delete any product; any other text violates the
    [CHECK] of the column and no profile is created. The profiles of the
    others and the other tables are left as they were. *)
Theorem papel_do_novo_usuario id meta db :
  profiles db !! id = None ->
  let r := executar (handle_new_user id meta) db in
  (meta = None -> profiles r.2 !! id = Some vendedor /\ is_admin (Some id) r.2 = false) /\
  (meta = Some "admin" ->
     is_admin (Some id) r.2 = true /\
     forall p, produtos (pedido (Some id, DeleteProdutos p) r.2) !! p = None) /\
  (forall s, meta = Some s -> s <> "admin" -> s <> "vendedor" ->
     r = (inl (check_violation "profiles_role_check"), db)) /\
  (forall u, u <> id -> profiles r.2 !! u = profiles db !! u) /\
  produtos r.2 = produtos db /\ compras r.2 = compras db /\ vendas r.2 = vendas db.
Proof.
  intros Hnew r. subst r. unfold executar, handle_new_user.
  destruct (role_of_text (default "vendedor" meta)) as [papel|] eqn:Hpapel.
  - rewrite (tx_bind_eq _ _ db db db); [|done].
    rewrite (tx_bind_eq _ _ db tt db); [|by apply exigir_ok, bool_decide_eq_true].
    unfold tx_modify. simpl. split_and!; try done.
    + intros ->. simpl in Hpapel. injection Hpapel as <-.
      rewrite lookup_insert_eq. split; [done|]. by apply bool_decide_eq_false.
    + intros ->. simpl in Hpapel. injection Hpapel as <-.
      assert (Hadm : is_admin (Some id)
                       (set_profiles (<[id := admin]> (profiles db)) db) = true).
      { simpl. rewrite lookup_insert_eq. by apply bool_decide_eq_true. }
      split; [exact Hadm|]. intros p. by apply admin_exclui.
    + intros s -> Hs1 Hs2. simpl in Hpapel. unfold role_of_text in Hpapel.
      by repeat case_decide.
    + intros u Hu. by rewrite lookup_insert_ne.
  - simpl. split_and!; try done.
    + intros ->. done.
    + intros ->. done.
Qed.

Lemma papel_do_novo_usuario_exemplo :
  let r := executar (handle_new_user "u3" (Some "admin")) db_exemplo in
  is_admin (Some "u3") r.2 = true /\
  produtos (pedido (Some "u3", DeleteProdutos "p1") r.2) !! "p1" = None.
Proof.
  intros r.
  destruct (papel_do_novo_usuario "u3" (Some "admin") db_exemplo eq_refl)
    as (_ & H & _).
  destruct (H eq_refl) as [Hadm Hdel]. split; [exact Hadm|apply Hdel].
Defined.

(** X16. The policy for [UPDATE] on [profiles] lets users write their own
    profile, the [role] with the rest: a seller who sets the own role to
    ['admin'] is an admin from then on, whom the policy of [produtos] lets
    delete any product. An update that names the profile of someone else
    changes nothing. *)
Theorem vendedor_torna_se_admin u db :
  is_Some (profiles db !! u) ->
  let r := executar (update_profiles_role (Some u) u "admin") db in
  r.1 = inr tt /\
  is_admin (Some u) r.2 = true /\
  (forall p, produtos (pedido (Some u, DeleteProdutos p) r.2) !! p = None) /\
  (forall uid alvo role, uid <> Some alvo ->
     executar (update_profiles_role uid alvo role) db = (inr tt, db)).
Proof.
  intros Hu r. subst r. unfold executar, update_profiles_role.
  rewrite (tx_bind_eq _ _ db db db); [|done].
  rewrite !bool_decide_eq_true_2 by done. simpl.
  assert (Hadm : is_admin (Some u) (set_profiles (<[u := admin]> (profiles db)) db) = true).
  { simpl. rewrite lookup_insert_eq. by apply bool_decide_eq_true. }
  split_and!; try done.
  - intros p. by apply admin_exclui.
  - intros uid alvo role Hne.
    rewrite (tx_bind_eq _ _ db db db); [|done].
    by rewrite (bool_decide_eq_false_2 (uid = Some alvo)).
Qed.

(** The seller [u2], who could only move the stock of [p1], deletes it. *)
Lemma vendedor_torna_se_admin_exemplo :
  let r := executar (update_profiles_role (Some "u2") "u2" "admin") db_exemplo in
  is_admin (Some "u2") db_exemplo = false /\
  is_admin (Some "u2") r.2 = true /\
  produtos (pedido (Some "u2", DeleteProdutos "p1") r.2) !! "p1" = None.
Proof.
  intros r.
  destruct (vendedor_torna_se_admin "u2" db_exemplo ltac:(by exists vendedor))
    as (_ & Hadm & Hdel & _).
  split; [reflexivity|]. split; [exact Hadm|apply Hdel].
Defined.

(** ** The dashboard: the products sold most *)

Lemma map_get_set {V} k k' (v : V) m :
  Dashboard.map_get k (Dashboard.map_set k' v m) =
  if decide (k = k') then Some v else Dashboard.map_get k m.
Proof.
  induction m as [|[k0 v0] m IH]; simpl.
  - by destruct (decide (k = k')).
  - destruct (decide (k' = k0)) as [->|Hne]; simpl.
    + by destruct (decide (k = k0)).
    + rewrite IH. destruct (decide (k = k0)) as [->|?]; [|done].
      by rewrite decide_False by done.
Qed.

Lemma map_get_None {V} k (m : list (option uuid * V)) :
  Dashboard.map_get k m = None <-> k ∉ m.*1.
Proof.
  induction m as [|[k0 v0] m IH]; simpl.
  - split; [intros _; apply not_elem_of_nil|done].
  - rewrite not_elem_of_cons. destruct (decide (k = k0)) as [->|Hne].
    + split; [done|]. by intros [? _].
    + rewrite IH. tauto.
Qed.

Lemma map_set_chaves {V} k (v : V) m :
  (Dashboard.map_set k v m).*1 = if decide (k ∈ m.*1) then m.*1 else m.*1 ++ [k].
Proof.
  induction m as [|[k0 v0] m IH].
  - rewrite decide_False; [done|apply not_elem_of_nil].
  - cbn [Dashboard.map_set]. destruct (decide (k = k0)) as [->|Hne].
    + rewrite decide_True; [done|apply list_elem_of_here].
    + rewrite !fmap_cons, IH. cbn [fst]. destruct (decide (k ∈ m.*1)) as [Hin|Hnin].
      * rewrite decide_True; [done|by apply list_elem_of_further].
      * rewrite decide_False; [done|]. rewrite not_elem_of_cons. done.
Qed.

Lemma acumular_chaves m v :
  NoDup m.*1 -> NoDup (Dashboard.acumular m v).*1.
Proof.
  intros Hm. unfold Dashboard.acumular. cbv zeta.
  destruct (Dashboard.map_get _ m) as [atual|] eqn:E; rewrite map_set_chaves.
  - rewrite decide_True; [done|].
    destruct (decide (Dashboard.produto_id v ∈ m.*1)) as [?|Hn]; [done|].
    apply map_get_None in Hn. congruence.
  - apply map_get_None in E. rewrite decide_False by done.
    apply NoDup_app. split_and!; [done| |apply NoDup_singleton].
    intros x Hx Hx'. apply list_elem_of_singleton in Hx' as ->. done.
Qed.

Lemma soma_filter {A} (P : A -> Prop) `{!forall x, Decision (P x)} (f : A -> Z) (l : list A) :
  soma (fun x => if decide (P x) then f x else 0) l = soma f (filter P l).
Proof.
  induction l as [|x l IH]; simpl; [done|].
  rewrite filter_cons. destruct (decide (P x)); simpl; lia.
Qed.

(** X17. The aggregation of the top-5 card: the [Map] holds one entry for each
    product of the sales it was given (the sales of no product, under the
    null key, among them); the entry carries the sum of the quantities of
    the sales of the product, and the name read from the last of them. *)
Theorem produtosMap_soma topVendas :
  NoDup (Dashboard.produtosMap topVendas).*1 /\
  forall k,
    Dashboard.map_get k (Dashboard.produtosMap topVendas) =
      (fun v => (Dashboard.nome_de v,
                 soma (fun v' => if decide (Dashboard.produto_id v' = k)
                                 then Dashboard.quantidade v' else 0) topVendas))
        <$> last (filter (fun v => Dashboard.produto_id v = k) topVendas).
Proof.
  unfold Dashboard.produtosMap.
  induction topVendas as [|v l [IHn IH]] using rev_ind; [split; [constructor|done]|].
  rewrite foldl_app. simpl. split; [by apply acumular_chaves|].
  intros k. rewrite filter_app, soma_app. simpl. unfold Dashboard.acumular at 1. cbv zeta.
  pose proof (IH (Dashboard.produto_id v)) as Hv.
  rewrite filter_cons, filter_nil.
  destruct (Dashboard.map_get (Dashboard.produto_id v) _) as [atual|];
    rewrite map_get_set; destruct (decide (k = Dashboard.produto_id v)) as [->|Hne].
  - rewrite !decide_True by done. rewrite last_snoc.
    destruct (last _) as [u|]; [|done]. simpl in Hv. injection Hv as ->.
    simpl. do 2 f_equal. lia.
  - rewrite !decide_False by done. simpl (0 + 0). rewrite app_nil_r, Z.add_0_r. apply IH.
  - rewrite !decide_True by done. rewrite last_snoc.
    symmetry in Hv. apply fmap_None, last_None in Hv.
    rewrite (soma_filter (fun v' => Dashboard.produto_id v' = Dashboard.produto_id v)), Hv.
    simpl. do 2 f_equal. lia.
  - rewrite !decide_False by done. simpl (0 + 0). rewrite app_nil_r, Z.add_0_r. apply IH.
Qed.

Lemma inserir_perm a l : Dashboard.inserir a l ≡ₚ a :: l.
Proof.
  induction l as [|b l IH]; simpl; [done|].
  destruct (b.2 <=? a.2); [done|]. rewrite IH. apply Permutation_swap.
Qed.

Lemma sort_perm l : Dashboard.sort l ≡ₚ l.
Proof.
  induction l as [|a l IH]; simpl; [done|].
  fold (Dashboard.sort l). by rewrite inserir_perm, IH.
Qed.

Lemma inserir_sorted a l :
  StronglySorted (fun x y : string * Z => y.2 <= x.2) l ->
  StronglySorted (fun x y : string * Z => y.2 <= x.2) (Dashboard.inserir a l).
Proof.
  induction 1 as [|b l Hl IH Hb]; simpl; [repeat constructor|].
  destruct (b.2 <=? a.2) eqn:E.
  - constructor; [by constructor|]. constructor; [lia|].
    eapply Forall_impl; [exact Hb|]. simpl. intros; lia.
  - constructor; [done|]. rewrite inserir_perm. constructor; [lia|done].
Qed.

Lemma sort_sorted l : StronglySorted (fun x y : string * Z => y.2 <= x.2) (Dashboard.sort l).
Proof.
  induction l as [|a l IH]; simpl; [constructor|]. by apply inserir_sorted.
Qed.

Lemma StronglySorted_app_Forall {A} (R : A -> A -> Prop) l1 l2 :
  StronglySorted R (l1 ++ l2) ->
  StronglySorted R l1 /\ Forall (fun a => Forall (R a) l2) l1.
Proof.
  induction l1 as [|a l1 IH]; simpl; intros H; [split; constructor|].
  inversion H as [|? ? Hs Ha]; subst. destruct (IH Hs) as [H1 H2].
  apply Forall_app in Ha as [Ha1 Ha2]. split; by constructor.
Qed.

(** X18. The top-5 card shows at most five entries of the aggregation, and all
    of them when there are five or fewer, the larger quantities first; no
    entry left out sold more than one that is shown. *)
Theorem topProdutosArray_maiores topVendas :
  let todos := (Dashboard.produtosMap topVendas).*2 in
  let top := Dashboard.topProdutosArray topVendas in
  length top = Nat.min 5 (length todos) /\
  StronglySorted (fun a b : string * Z => b.2 <= a.2) top /\
  exists resto,
    top ++ resto ≡ₚ todos /\
    Forall (fun a => Forall (fun b => b.2 <= a.2) resto) top.
Proof.
  intros todos top. unfold top, Dashboard.topProdutosArray. fold todos.
  pose proof (sort_sorted todos) as Hs.
  rewrite <- (take_drop 5 (Dashboard.sort todos)) in Hs.
  apply StronglySorted_app_Forall in Hs as [Hs1 Hs2].
  split_and!; [|done|].
  - by rewrite length_take, (Permutation_length (sort_perm todos)).
  - exists (drop 5 (Dashboard.sort todos)). split; [|done].
    rewrite take_drop. apply sort_perm.
Qed.

(** Two sales of [a], one of [b] and one of no product. *)
Lemma dashboard_exemplo :
  Dashboard.produtosMap
    [ Dashboard.mk (Some "a") 2 (Some "Aspirina"); Dashboard.mk (Some "b") 7 (Some "Buscopan");
      Dashboard.mk None 1 None; Dashboard.mk (Some "a") 4 (Some "Aspirina") ]
  = [ (Some "a", ("Aspirina", 6)); (Some "b", ("Buscopan", 7)); (None, ("Produto", 1)) ] /\
  Dashboard.topProdutosArray
    [ Dashboard.mk (Some "a") 2 (Some "Aspirina"); Dashboard.mk (Some "b") 7 (Some "Buscopan");
      Dashboard.mk None 1 None; Dashboard.mk (Some "a") 4 (Some "Aspirina") ]
  = [ ("Buscopan", 7); ("Aspirina", 6); ("Produto", 1) ].
Proof. split; reflexivity. Qed.

(** ** Low stock on the three screens *)

(** X19. The dashboard counts as low on stock exactly the products that the
    products page marks 'Estoque Baixo' (both compare with a null minimum
    as with 0), and the view [produtos_com_alertas] labels
    ['estoque_baixo'] exactly those of them that have a minimum. *)
Theorem estoque_baixo_nas_tres_telas hoje agora allProdutos p :
  (p ∈ Dashboard.produtosEstoqueBaixo allProdutos <->
   p ∈ allProdutos /\ Produtos.getStatusBadge agora p = Some Produtos.Estoque_Baixo) /\
  (status_alerta hoje p = "estoque_baixo" <->
   Produtos.getStatusBadge agora p = Some Produtos.Estoque_Baixo /\
   is_Some (Produto.quantidade_minima p)).
Proof.
  unfold Dashboard.produtosEstoqueBaixo, Produtos.getStatusBadge, status_alerta.
  cbv zeta. split.
  - rewrite list_elem_of_filter.
    destruct (Produto.quantidade p <=? default 0 (Produto.quantidade_minima p)) eqn:E.
    + split; [intros [_ ?]; by split|intros [? _]; split; [lia|done]].
    + split; [intros [? _]; lia|].
      intros [_ H]. by repeat case_match.
  - destruct (Produto.quantidade_minima p) as [m|]; simpl.
    + destruct (Produto.quantidade p <=? m).
      * split; [by eauto|done].
      * split; [by case_match|]. intros [H _]. by repeat case_match.
    + split; [by case_match|]. by intros [_ [? ?]].
Qed.

(** A product with no unit left whose minimum is null: low on stock for
    the dashboard and the products page, ['ok'] for the view. *)
Lemma estoque_baixo_nas_tres_telas_exemplo :
  let p := Produto.mk "Soro" "S-1" (Some "c1") 300 500 0 None 20400 None in
  p ∈ Dashboard.produtosEstoqueBaixo [p] /\
  Produtos.getStatusBadge (20000 * Produtos.ms_por_dia) p = Some Produtos.Estoque_Baixo /\
  status_alerta 20000 p = "ok".
Proof.
  intros p.
  destruct (estoque_baixo_nas_tres_telas 20000 (20000 * Produtos.ms_por_dia) [p] p)
    as [[_ H] _].
  split; [|split; reflexivity]. apply H. split; [apply list_elem_of_here|reflexivity].
Defined.

(** ** Registering a product *)


